(** * Download gatekeeper and telemetry pipeline

    A shallow embedding of the two browser classes [VentureAnalytics] and
    [DownloadManager] and of the helper [validateDownloadEnvironment]
    (src/unnamed/part_004), followed by the properties of the gate logic,
    the rate limiter, the token issuer and the telemetry fan-out.

    Conventions.
    - JavaScript numbers that the code uses as integers (timestamps, counters,
      scores) are [Z].
    - JavaScript strings are [string]s of 8-bit code units (Latin-1): every
      text of the development (venture name, user agent, session identifier,
      stored values) has its code units below 256.  [btoa] raises
      InvalidCharacterError on a code unit above 255; texts with such a unit
      cannot be written down here, and nothing is claimed about them.
    - A method that touches the page, the storage or the network is a
      computation in the monad [M]: it reads and writes a [Store], appends to
      a chronological trace of observable [Effect]s and either returns or
      throws.  An attempt receives the answers of the outside world
      (capabilities, hooks, network outcomes, random bytes) in a [World].
    - [await] runs the awaited computation in place; a network round trip
      advances the clock.  An async function whose promise is dropped runs
      in place only up to its first await; what remains of it is recorded in
      the trace as one [Later] entry: its effects happen in the order given
      there, at some time after that point, interleaved in a way the model
      does not fix with what the caller does next.
    - Attempts are run one after another ([session]): an attempt has settled
      before the next click.  Clicks that arrive while an attempt is suspended
      at an await, and other tabs writing the same localStorage, are not
      covered.
    - Calls of the DOM, of the console and of localStorage are taken to
      succeed, and what localStorage holds is well formed (it is what this
      code wrote); the timer that removes the hidden link is not part of the
      model, the timers that revert the buttons are modelled apart from the
      attempts.  The DOM is present through what the scripts
      read from it and through the effects [UpdateDownloadUI], [ShowMessage]
      and [LinkClicked]. *)

From Stdlib Require Import List String Ascii NArith ZArith Lia Bool DecimalString.
Import ListNotations.
Open Scope string_scope.

(* ================================================================== *)
(** * Browser built-ins used by the code *)
(* ================================================================== *)

Module Js.

Open Scope N_scope.

(** The double-quote character. *)
Definition dquote : ascii := "034"%char.
(** The backslash character. *)
Definition bslash : ascii := "092"%char.

Definition chars (s : string) : list ascii := list_ascii_of_string s.
Definition text (l : list ascii) : string := string_of_list_ascii l.
Definition units (l : list ascii) : list N := map N_of_ascii l.

(** ** Number.prototype.toString for integers, radix 10 *)
Definition number_to_string (z : Z) : list ascii :=
  chars (NilZero.string_of_int (Z.to_int z)).

(** ** byte.toString(16).padStart(2, '0') *)
Definition hex_digit (d : N) : ascii :=
  nth (N.to_nat d) (chars "0123456789abcdef") "0"%char.

Definition hex2 (b : N) : list ascii := [hex_digit (b / 16); hex_digit (b mod 16)].

(** ** JSON.stringify on a string (QuoteJSONString) *)
Definition quote_unit (c : ascii) : list ascii :=
  let n := N_of_ascii c in
  if n =? 34 then [bslash; dquote]
  else if n =? 92 then [bslash; bslash]
  else if n =? 8 then [bslash; "b"%char]
  else if n =? 12 then [bslash; "f"%char]
  else if n =? 10 then [bslash; "n"%char]
  else if n =? 13 then [bslash; "r"%char]
  else if n =? 9 then [bslash; "t"%char]
  else if n <? 32 then [bslash; "u"%char; "0"%char; "0"%char] ++ hex2 n
  else [c].

Definition json_string (s : string) : list ascii :=
  dquote :: flat_map quote_unit (chars s) ++ [dquote].

(** One member, key then colon then value, of a serialized object; the
    keys of this program need no escaping. *)
Definition json_member (key : string) (value : list ascii) : list ascii :=
  dquote :: chars key ++ [dquote; ":"%char] ++ value.

(** ** btoa: base64 with padding *)
Definition b64alphabet : string :=
  "ABCDEFGHIJKLMNOPQRSTUVWXYZabcdefghijklmnopqrstuvwxyz0123456789+/".

Definition b64char (i : N) : ascii := nth (N.to_nat i) (chars b64alphabet) "="%char.

Fixpoint btoa_units (l : list N) : list ascii :=
  match l with
  | [] => []
  | [a] => [b64char (a / 4); b64char ((a mod 4) * 16); "="%char; "="%char]
  | [a; b] =>
      [b64char (a / 4); b64char ((a mod 4) * 16 + b / 16);
       b64char ((b mod 16) * 4); "="%char]
  | a :: b :: c :: rest =>
      b64char (a / 4) :: b64char ((a mod 4) * 16 + b / 16)
        :: b64char ((b mod 16) * 4 + c / 64) :: b64char (c mod 64)
        :: btoa_units rest
  end.

Definition btoa (l : list ascii) : list ascii := btoa_units (units l).

(** ** s.replace(/[+\/=]/g, '') *)
Definition is_plus_slash_eq (c : ascii) : bool :=
  let n := N_of_ascii c in (n =? 43) || (n =? 47) || (n =? 61).

Definition strip_plus_slash_eq (l : list ascii) : list ascii :=
  filter (fun c => negb (is_plus_slash_eq c)) l.

(** ** s.substring(0, n) *)
Definition substring0 (n : nat) (l : list ascii) : list ascii := firstn n l.

(** ** ASCII lower-casing and the test of a literal /pattern/i *)
Definition lower (c : ascii) : ascii :=
  let n := N_of_ascii c in
  if (65 <=? n) && (n <=? 90) then ascii_of_N (n + 32) else c.

Fixpoint starts_with_ci (p s : list ascii) : bool :=
  match p, s with
  | [], _ => true
  | _ :: _, [] => false
  | a :: p', b :: s' => Ascii.eqb (lower a) (lower b) && starts_with_ci p' s'
  end.

Fixpoint test_ci (p s : list ascii) : bool :=
  starts_with_ci p s ||
  match s with
  | [] => false
  | _ :: s' => test_ci p s'
  end.

(** ** Code units that base64 maps to letters and digits only *)

(** A code unit is [plain] when it is ASCII and is not one of the four
    characters whose low six bits are 62 or 63. *)
Definition plain (u : N) : bool := (u <? 128) && (u mod 64 <? 62).

Definition plain_string (s : string) : bool := forallb plain (units (chars s)).

End Js.

(* ================================================================== *)
(** * Data model *)
(* ================================================================== *)

Open Scope Z_scope.
Open Scope list_scope.

Inductive JsValue :=
| JStr (s : string)
| JNum (z : Z)
| JNull
| JUndefined.

(** The object handed to [sendAnalytics]: the four members every event has
    and the event-specific ones. *)
Record TelemetryEvent := {
  event : string;
  ev_venture : string;
  ev_sessionId : string;
  ev_timestamp : Z;
  ev_fields : list (string * JsValue)
}.

(** Persisted value of the localStorage key download_rate_limit. *)
Record RateLimitData := { count : Z; windowStart : Z }.

(** One element of the array persisted under venture_conversions. *)
Record Conversion := {
  cv_venture : string;
  cv_timestamp : Z;
  cv_sessionId : string;
  cv_referrer : string
}.

(** [new VentureAnalytics()]: fields fixed by the constructor. *)
Record VentureAnalytics := {
  a_venture : string;
  a_version : string;
  sessionId : string;
  startTime : Z
}.

(** [new DownloadManager(config)]; [botScore] is set by
    [setupSecurityChecks], [rateLimitCount] is the only field mutated later. *)
Record DownloadManager := {
  venture : string;
  version : string;
  downloadUrl : string;
  analytics : VentureAnalytics;
  botScore : Z;
  rateLimitCount : Z;
  rateLimitWindow : Z;
  maxDownloadsPerWindow : Z
}.

Record Storage := {
  download_rate_limit : option RateLimitData;
  venture_conversions : list Conversion
}.

(** The text of the element download-count.  [Bumped c] is the text that
    ((parseInt(c.replace(/,/g, '')) || 0) + 1).toLocaleString() makes of the
    text [c]; it depends on the locale of the browser and on the rounding of
    numbers, and it is not computed here. *)
Inductive CounterText :=
| Written (text : string)
| Bumped (c : CounterText).

(** What an attempt can read and write: the manager, localStorage, the text
    of the element download-count (if the page has one) and the clock that
    [Date.now()] reads. *)
Record Store := {
  this : DownloadManager;
  localStorage : Storage;
  download_count : option CounterText;
  now : Z
}.

(** The argument of [updateDownloadUI]. *)
Inductive UiState := preparing | success | error.

(** The result of [buildSecureDownloadUrl]: base URL and the four query
    parameters. *)
Record SecureUrl := {
  u_base : string;
  u_token : string;
  u_venture : string;
  u_version : string;
  u_t : Z
}.

Inductive Sink := Cloudflare | GoogleAnalytics | CustomEndpoint | Beacon.

Inductive Exn :=
| HookError (k : Sink)            (* a third-party hook or sendBeacon threw *)
| FetchRejected                   (* the promise of fetch rejected *)
| VerificationError (status : Z)  (* new Error(Download verification failed) *)
| ReferenceError (name : string). (* a global that does not exist *)

(** What a script does to the outside, in the order it happens.
    [Deliver k e] is the call of sink [k] with event [e], whatever becomes of
    it; [GetRandomValues] is the call of crypto.getRandomValues;
    [LinkClicked] is the click on the hidden download link and [HeadRequest]
    the probe that follows it.  [Later job] stands where the promise of an
    async call was dropped: [job] is what the call does after its first
    await, in that order, at some time after this point; how these effects
    interleave with the entries that follow [Later job] is not fixed. *)
#[warnings="-register-all"]
Inductive Effect :=
| ConsoleWarn (msg : string)
| ConsoleError (msg : string)
| ShowMessage (title : string) (type : string)
| UpdateDownloadUI (s : UiState)
| GetRandomValues
| Deliver (k : Sink) (e : TelemetryEvent)
| LinkClicked (url : SecureUrl)
| HeadRequest (url : SecureUrl)
| Later (job : list Effect).

(** ** Answers of the outside world *)

Inductive Hook := Absent | Working | Throwing.

Inductive PostOutcome := PostResolves | PostRejects.

Inductive HeadOutcome :=
| HeadResolves (ok : bool) (status : Z)
| HeadRejects.

Record World := {
  has_fetch : bool;            (* window.fetch *)
  has_Promise : bool;          (* window.Promise *)
  has_crypto : bool;           (* crypto.getRandomValues *)
  honeypot : option string;    (* value of #honeypot, when the page has it *)
  userAgent : string;          (* navigator.userAgent *)
  referrer : string;           (* document.referrer *)
  random_bytes : list N;       (* what crypto.getRandomValues writes *)
  cloudflare_hook : Hook;      (* window.cloudflare.analytics.track *)
  gtag_hook : Hook;            (* window.gtag *)
  post_analytics : PostOutcome;(* fetch('/api/analytics', POST) *)
  sendBeacon_hook : Hook;      (* navigator.sendBeacon *)
  head_probe : HeadOutcome;    (* fetch(url, HEAD) *)
  latency : Z                  (* time a network round trip takes *)
}.

(* ================================================================== *)
(** * The monad of page scripts *)
(* ================================================================== *)

Inductive Completion (A : Type) :=
| Return (a : A)
| Throw (e : Exn).
Arguments Return {A} a.
Arguments Throw {A} e.

Definition M (A : Type) : Type := Store -> Completion A * Store * list Effect.

Definition ret {A} (a : A) : M A := fun s => (Return a, s, []).

Definition throw {A} (e : Exn) : M A := fun s => (Throw e, s, []).

Definition bind {A B} (c : M A) (k : A -> M B) : M B :=
  fun s =>
    match c s with
    | (Return a, s1, tr1) =>
        match k a s1 with
        | (r, s2, tr2) => (r, s2, tr1 ++ tr2)
        end
    | (Throw e, s1, tr1) => (Throw e, s1, tr1)
    end.

Notation "x <- c ;; k" := (bind c (fun x => k))
  (at level 61, c at next level, right associativity).
Notation "c ;; k" := (bind c (fun _ => k))
  (at level 61, right associativity).

(** try { body } catch (e) { handler e } *)
Definition try_catch {A} (body : M A) (handler : Exn -> M A) : M A :=
  fun s =>
    match body s with
    | (Return a, s1, tr1) => (Return a, s1, tr1)
    | (Throw e, s1, tr1) =>
        match handler e s1 with
        | (r, s2, tr2) => (r, s2, tr1 ++ tr2)
        end
    end.

(** An async function, seen from its caller: the call runs the body up to
    its first await and hands back a promise, here the computation that
    remains. *)
Definition Async (A : Type) : Type := M (M A).

(** [await f(...)]: the caller goes on when the remainder has run. *)
Definition await {A} (f : Async A) : M A := bind f (fun rest => rest).

(** [f(...)] with the promise dropped.  The part before the first await
    runs in place.  The remainder runs later, while the caller goes on: its
    effects are recorded as one [Later] entry, its completion (a rejection
    included) reaches nobody, and the caller neither waits for it nor sees
    its clock.  The async functions dropped by this program do not throw
    before their first await and write nothing to the store after it. *)
Definition forget {A} (f : Async A) : M unit :=
  fun s =>
    match f s with
    | (Return rest, s1, tr1) => (Return tt, s1, tr1 ++ [Later (snd (rest s1))])
    | (Throw _, s1, tr1) => (Return tt, s1, tr1)
    end.

Definition emit (e : Effect) : M unit := fun s => (Return tt, s, [e]).

Definition get : M Store := fun s => (Return s, s, []).

Definition put (s' : Store) : M unit := fun _ => (Return tt, s', []).

Definition Date_now : M Z := fun s => (Return (now s), s, []).

(** Waiting for a network answer lets the clock advance. *)
Definition await_network (w : World) : M unit :=
  fun s =>
    (Return tt,
     {| this := this s; localStorage := localStorage s;
        download_count := download_count s; now := now s + latency w |}, []).

Definition set_this (d : DownloadManager) : M unit :=
  fun s =>
    (Return tt,
     {| this := d; localStorage := localStorage s;
        download_count := download_count s; now := now s |}, []).

Definition set_localStorage (st : Storage) : M unit :=
  fun s =>
    (Return tt,
     {| this := this s; localStorage := st;
        download_count := download_count s; now := now s |}, []).

Definition set_download_count (c : option CounterText) : M unit :=
  fun s =>
    (Return tt,
     {| this := this s; localStorage := localStorage s;
        download_count := c; now := now s |}, []).

Definition with_rateLimitCount (d : DownloadManager) (c : Z) : DownloadManager :=
  {| venture := venture d; version := version d; downloadUrl := downloadUrl d;
     analytics := analytics d; botScore := botScore d; rateLimitCount := c;
     rateLimitWindow := rateLimitWindow d;
     maxDownloadsPerWindow := maxDownloadsPerWindow d |}.

Definition with_botScore (d : DownloadManager) (b : Z) : DownloadManager :=
  {| venture := venture d; version := version d; downloadUrl := downloadUrl d;
     analytics := analytics d; botScore := b; rateLimitCount := rateLimitCount d;
     rateLimitWindow := rateLimitWindow d;
     maxDownloadsPerWindow := maxDownloadsPerWindow d |}.

Definition with_now (s : Store) (t : Z) : Store :=
  {| this := this s; localStorage := localStorage s;
     download_count := download_count s; now := t |}.

(* ================================================================== *)
(** * class VentureAnalytics *)
(* ================================================================== *)

(** 'session_' + Date.now() + '_' + Math.random().toString(36).substr(2, 9);
    [rnd] is the random suffix. *)
Definition generateSessionId (t : Z) (rnd : string) : string :=
  String.append "session_"
    (String.append (Js.text (Js.number_to_string t)) (String.append "_" rnd)).

(** document.referrer || 'direct' *)
Definition getReferrer (w : World) : string :=
  if String.eqb (referrer w) EmptyString then "direct" else referrer w.

Definition sendToCloudflare (w : World) (data : TelemetryEvent) : M unit :=
  match cloudflare_hook w with
  | Absent => ret tt
  | Working => emit (Deliver Cloudflare data)
  | Throwing => emit (Deliver Cloudflare data) ;; throw (HookError Cloudflare)
  end.

Definition sendToGoogleAnalytics (w : World) (data : TelemetryEvent) : M unit :=
  match gtag_hook w with
  | Absent => ret tt
  | Working => emit (Deliver GoogleAnalytics data)
  | Throwing => emit (Deliver GoogleAnalytics data) ;; throw (HookError GoogleAnalytics)
  end.

(** fetch('/api/analytics', {method: 'POST', ...}) *)
Definition fetch_post (w : World) (data : TelemetryEvent) : M unit :=
  if has_fetch w then
    emit (Deliver CustomEndpoint data) ;;
    await_network w ;;
    match post_analytics w with
    | PostResolves => ret tt
    | PostRejects => throw FetchRejected
    end
  else throw (ReferenceError "fetch").

Definition sendToCustomEndpoint (w : World) (data : TelemetryEvent) : M unit :=
  try_catch
    (fetch_post w data)
    (fun _ =>
       (* Fallback to beacon API if fetch fails *)
       match sendBeacon_hook w with
       | Absent => ret tt
       | Working => emit (Deliver Beacon data)
       | Throwing => emit (Deliver Beacon data) ;; throw (HookError Beacon)
       end).

Definition sendAnalytics (w : World) (data : TelemetryEvent) : M unit :=
  try_catch
    (sendToCloudflare w data ;;
     match gtag_hook w with
     | Absent => ret tt
     | _ => sendToGoogleAnalytics w data
     end ;;
     sendToCustomEndpoint w data)
    (fun _ => emit (ConsoleWarn "Analytics tracking failed:")).

(** [sendAnalytics] from its first await on; [settled] is how the promise
    of [sendToCloudflare] settled. *)
Definition sendAnalytics_resumed (w : World) (data : TelemetryEvent)
    (settled : Completion unit) : M unit :=
  try_catch
    (match settled with
     | Return _ => ret tt
     | Throw e => throw e
     end ;;
     match gtag_hook w with
     | Absent => ret tt
     | _ => sendToGoogleAnalytics w data
     end ;;
     sendToCustomEndpoint w data)
    (fun _ => emit (ConsoleWarn "Analytics tracking failed:")).

(** [sendAnalytics] as its callers start it: the call runs the body of
    [sendToCloudflare] (which has no await of its own, so the hook is called
    at once and a throw of the hook is kept in the promise) and stops at the
    first await. *)
Definition sendAnalytics_async (w : World) (data : TelemetryEvent) : Async unit :=
  fun s =>
    match sendToCloudflare w data s with
    | (settled, s1, tr) => (Return (sendAnalytics_resumed w data settled), s1, tr)
    end.

(** The text of the counter is parsed, incremented and written back in the
    notation of the locale; then the conversion is stored. *)
Definition updateConversionMetrics (w : World) : M unit :=
  s <- get ;;
  match download_count s with
  | Some text => set_download_count (Some (Bumped text))
  | None => ret tt
  end ;;
  t <- Date_now ;;
  let a := analytics (this s) in
  set_localStorage
    {| download_rate_limit := download_rate_limit (localStorage s);
       venture_conversions :=
         venture_conversions (localStorage s) ++
         [ {| cv_venture := a_venture a; cv_timestamp := t;
              cv_sessionId := sessionId a; cv_referrer := getReferrer w |} ] |}.

Definition trackDownload (w : World) (url source : string) : M unit :=
  s <- get ;;
  t <- Date_now ;;
  let a := analytics (this s) in
  let data :=
    {| event := "download_started"; ev_venture := a_venture a;
       ev_sessionId := sessionId a; ev_timestamp := t;
       ev_fields :=
         [ ("version", JStr (a_version a)); ("downloadUrl", JStr url);
           ("source", JStr source); ("userAgent", JStr (userAgent w));
           ("referrer", JStr (getReferrer w));
           ("timeOnPage", JNum (t - startTime a)) ] |} in
  sendAnalytics w data ;;
  updateConversionMetrics w.

Definition trackEngagement (w : World) (action element : string) (value : JsValue)
  : M unit :=
  s <- get ;;
  t <- Date_now ;;
  let a := analytics (this s) in
  let data :=
    {| event := "engagement"; ev_venture := a_venture a;
       ev_sessionId := sessionId a; ev_timestamp := t;
       ev_fields :=
         [ ("action", JStr action); ("element", JStr element); ("value", value);
           ("timeOnPage", JNum (t - startTime a)) ] |} in
  sendAnalytics w data.

(** [trackEngagement] as its callers start it: no caller of this program
    awaits it. *)
Definition trackEngagement_async (w : World) (action element : string)
    (value : JsValue) : Async unit :=
  s <- get ;;
  t <- Date_now ;;
  let a := analytics (this s) in
  let data :=
    {| event := "engagement"; ev_venture := a_venture a;
       ev_sessionId := sessionId a; ev_timestamp := t;
       ev_fields :=
         [ ("action", JStr action); ("element", JStr element); ("value", value);
           ("timeOnPage", JNum (t - startTime a)) ] |} in
  sendAnalytics_async w data.

(** error.message of the values the model throws. *)
Definition exn_message (e : Exn) : string :=
  match e with
  | HookError _ => "hook failed"
  | FetchRejected => "Failed to fetch"
  | VerificationError st =>
      String.append "Download verification failed: " (Js.text (Js.number_to_string st))
  | ReferenceError name => String.append name " is not defined"
  end.

(** Not an async function: it builds the event and drops the promise of
    [sendAnalytics].  The members stack and url of the event are left out. *)
Definition trackError (w : World) (err : Exn) (context : string) : M unit :=
  s <- get ;;
  t <- Date_now ;;
  let a := analytics (this s) in
  let data :=
    {| event := "error"; ev_venture := a_venture a;
       ev_sessionId := sessionId a; ev_timestamp := t;
       ev_fields :=
         [ ("error", JStr (exn_message err)); ("context", JStr context);
           ("userAgent", JStr (userAgent w)) ] |} in
  forget (sendAnalytics_async w data).

(* ================================================================== *)
(** * class DownloadManager *)
(* ================================================================== *)

(** The signals [calculateBotScore] reads. *)
Record Signals := {
  webdriver : bool;              (* navigator.webdriver *)
  phantom : bool;                (* window.phantom *)
  phantom_ : bool;               (* window._phantom *)
  callPhantom : bool;            (* window.callPhantom *)
  sig_userAgent : string;        (* navigator.userAgent *)
  requestAnimationFrame : bool;  (* window.requestAnimationFrame *)
  sig_localStorage : bool;       (* window.localStorage *)
  canvas_getContext : bool       (* document.createElement('canvas').getContext *)
}.

Definition suspiciousPatterns : list string :=
  ["headless"; "phantom"; "selenium"; "webdriver"; "bot"; "crawler"; "spider"].

Definition calculateBotScore (g : Signals) : Z :=
  let score := 0 in
  let score := if webdriver g then score + 20 else score in
  let score := if phantom g || phantom_ g then score + 30 else score in
  let score := if callPhantom g then score + 30 else score in
  let score :=
    fold_left
      (fun score pattern =>
         if Js.test_ci (Js.chars pattern) (Js.chars (sig_userAgent g))
         then score + 15 else score)
      suspiciousPatterns score in
  let score := if negb (requestAnimationFrame g) then score + 10 else score in
  let score := if negb (sig_localStorage g) then score + 10 else score in
  let score := if negb (canvas_getContext g) then score + 15 else score in
  Z.min score 100.

(** [config] is [name], [version], [downloadUrl]; [a] is the analytics object
    the constructor creates.  [botScore] is undefined until
    [setupSecurityChecks] runs; [undefined > 50] is false, as [0 > 50] is. *)
Definition constructor (name ver url : string) (a : VentureAnalytics) : DownloadManager :=
  {| venture := name; version := ver; downloadUrl := url; analytics := a;
     botScore := 0; rateLimitCount := 0;
     rateLimitWindow := 60000; maxDownloadsPerWindow := 3 |}.

Definition set_rateLimitCount (c : Z) : M unit :=
  s <- get ;; set_this (with_rateLimitCount (this s) c).

Definition set_download_rate_limit (d : RateLimitData) : M unit :=
  s <- get ;;
  set_localStorage
    {| download_rate_limit := Some d;
       venture_conversions := venture_conversions (localStorage s) |}.

(** [JSON.parse(localStorage.getItem('download_rate_limit') || '{}')]: with no
    stored value both members are undefined, the comparison (on NaN) is false
    and [undefined || 0] is 0. *)
Definition initRateLimiting : M unit :=
  s <- get ;;
  now <- Date_now ;;
  match download_rate_limit (localStorage s) with
  | Some rateLimitData =>
      if now - windowStart rateLimitData >? rateLimitWindow (this s) then
        set_rateLimitCount 0 ;;
        set_download_rate_limit {| count := 0; windowStart := now |}
      else set_rateLimitCount (count rateLimitData)
  | None => set_rateLimitCount 0
  end.

(** Bot detection and rate limiting setup of [setupSecurityChecks]; the
    best-effort load of the checksums file is left out. *)
Definition setupSecurityChecks (g : Signals) : M unit :=
  s <- get ;;
  set_this (with_botScore (this s) (calculateBotScore g)) ;;
  initRateLimiting.

Definition passesSecurityChecks (w : World) : M bool :=
  s <- get ;;
  if botScore (this s) >? 50 then
    emit (ConsoleWarn "High bot score detected:") ;; ret false
  else if negb (has_fetch w) || negb (has_Promise w) then
    emit (ConsoleWarn "Unsupported browser environment") ;; ret false
  else
    match honeypot w with
    | Some value =>
        if negb (String.eqb value EmptyString) then
          emit (ConsoleWarn "Honeypot triggered") ;; ret false
        else ret true
    | None => ret true
    end.

Definition checkRateLimit : M bool :=
  s <- get ;;
  ret (rateLimitCount (this s) <? maxDownloadsPerWindow (this s)).

(** new Uint8Array(16) after crypto.getRandomValues(array): sixteen bytes. *)
Definition random_array (w : World) : list N :=
  firstn 16 (map (fun b => (b mod 256)%N) (random_bytes w) ++ repeat 0%N 16).

(** Array.from(array, byte => byte.toString(16).padStart(2, '0')).join('') *)
Definition generateNonce (w : World) : M string :=
  if has_crypto w then
    emit GetRandomValues ;;
    let array := random_array w in
    ret (Js.text (flat_map Js.hex2 array))
  else throw (ReferenceError "crypto").

(** JSON.stringify(tokenData) *)
Definition token_json (venture : string) (timestamp : Z)
    (userAgent sessionId nonce : string) : list ascii :=
  "{"%char
    :: Js.json_member "venture" (Js.json_string venture)
    ++ ","%char :: Js.json_member "timestamp" (Js.number_to_string timestamp)
    ++ ","%char :: Js.json_member "userAgent" (Js.json_string userAgent)
    ++ ","%char :: Js.json_member "sessionId" (Js.json_string sessionId)
    ++ ","%char :: Js.json_member "nonce" (Js.json_string nonce)
    ++ ["}"%char].

(** btoa(tokenString).replace(/[+\/=]/g, '').substring(0, 32).  The texts
    are Latin-1 (see the conventions), so [btoa] does not raise here;
    [token_of_units] redoes the computation on arbitrary code units, where it
    can. *)
Definition token_of (venture : string) (timestamp : Z)
    (userAgent sessionId nonce : string) : string :=
  let tokenString := token_json venture timestamp userAgent sessionId nonce in
  let token := Js.strip_plus_slash_eq (Js.btoa tokenString) in
  Js.text (Js.substring0 32 token).

Definition generateDownloadToken (w : World) : M string :=
  s <- get ;;
  timestamp <- Date_now ;;
  nonce <- generateNonce w ;;
  ret (token_of (venture (this s)) timestamp (userAgent w)
         (sessionId (analytics (this s))) nonce).

Definition buildSecureDownloadUrl (token : string) : M SecureUrl :=
  s <- get ;;
  t <- Date_now ;;
  ret {| u_base := downloadUrl (this s); u_token := token;
         u_venture := venture (this s); u_version := version (this s);
         u_t := t |}.

(** fetch(url, { method: 'HEAD' }) *)
Definition fetch_head (w : World) (url : SecureUrl) : M (bool * Z) :=
  if has_fetch w then
    emit (HeadRequest url) ;;
    await_network w ;;
    match head_probe w with
    | HeadResolves ok status => ret (ok, status)
    | HeadRejects => throw FetchRejected
    end
  else throw (ReferenceError "fetch").

Definition verifyDownloadStart (w : World) (url : SecureUrl) : M unit :=
  try_catch
    (response <- fetch_head w url ;;
     if negb (fst response) then throw (VerificationError (snd response))
     else forget (trackEngagement_async w "download_verified" "success" JNull))
    (fun err =>
       emit (ConsoleError "Download verification failed:") ;;
       trackError w err "download_verification" ;;
       throw err).

(** The hidden link is created, clicked and removed a second later; then the
    probe. *)
Definition startSecureDownload (w : World) (url : SecureUrl) : M unit :=
  emit (LinkClicked url) ;;
  verifyDownloadStart w url.

Definition updateRateLimit : M unit :=
  s <- get ;;
  let c := rateLimitCount (this s) + 1 in
  set_rateLimitCount c ;;
  t <- Date_now ;;
  set_download_rate_limit {| count := c; windowStart := t |}.

Definition updateDownloadUI (state : UiState) : M unit :=
  emit (UpdateDownloadUI state).

Definition showSecurityBlockMessage : M unit :=
  emit (ShowMessage "Download Temporarily Unavailable" "warning").

Definition showRateLimitMessage : M unit :=
  emit (ShowMessage "Download Limit Reached" "info").

Definition initiateDownload (w : World) (source : string) : M bool :=
  try_catch
    (passed <- passesSecurityChecks w ;;
     if negb passed then showSecurityBlockMessage ;; ret false
     else
       allowed <- checkRateLimit ;;
       if negb allowed then showRateLimitMessage ;; ret false
       else
         updateDownloadUI preparing ;;
         downloadToken <- generateDownloadToken w ;;
         s <- get ;;
         trackDownload w (downloadUrl (this s)) source ;;
         secureUrl <- buildSecureDownloadUrl downloadToken ;;
         startSecureDownload w secureUrl ;;
         updateRateLimit ;;
         updateDownloadUI success ;;
         ret true)
    (fun err =>
       emit (ConsoleError "Download failed:") ;;
       trackError w err "download_manager" ;;
       updateDownloadUI error ;;
       ret false).

Definition reportSecurityEvent (w : World) (ev details : string) : M unit :=
  s <- get ;;
  t <- Date_now ;;
  let securityData :=
    {| event := "security_event"; ev_venture := venture (this s);
       ev_sessionId := sessionId (analytics (this s)); ev_timestamp := t;
       ev_fields :=
         [ ("securityEvent", JStr ev); ("details", JStr details);
           ("botScore", JNum (botScore (this s)));
           ("userAgent", JStr (userAgent w)) ] |} in
  forget (sendAnalytics_async w securityData).

(** ** function validateDownloadEnvironment *)

Record Globals := {
  g_fetch : bool;         (* typeof fetch !== 'undefined' *)
  g_promise : bool;       (* typeof Promise !== 'undefined' *)
  g_crypto : bool;        (* typeof crypto !== 'undefined' *)
  g_localStorage : bool   (* typeof localStorage !== 'undefined' *)
}.

Definition checks (g : Globals) : list (string * bool) :=
  [ ("fetch", g_fetch g); ("promise", g_promise g);
    ("crypto", g_crypto g); ("localStorage", g_localStorage g) ].

(** Returns the result and the keys it warns about. *)
Definition validateDownloadEnvironment (g : Globals) : bool * list string :=
  let failed := filter (fun kv => negb (snd kv)) (checks g) in
  if (0 <? List.length failed)%nat then (false, map fst failed) else (true, []).

(* ================================================================== *)
(** * Sessions: attempts run one after another *)
(* ================================================================== *)

(** One click: when it happens, the source tag of the control and what the
    outside world answers while the attempt runs. *)
Record Attempt := { at_time : Z; at_source : string; at_world : World }.

Definition click (a : Attempt) (s : Store) : Completion bool * Store * list Effect :=
  initiateDownload (at_world a) (at_source a) (with_now s (at_time a)).

(** What a click leaves to the page: the completion of the promise and the
    effects. *)
Definition Result : Type := Completion bool * list Effect.

(** Attempts run one after another in one tab: each attempt has settled
    before the next click.  An attempt started while another one is suspended
    at an await (the links with data-download are never disabled) is not a
    [session]. *)
Fixpoint session (l : list Attempt) (s : Store) : list Result * Store :=
  match l with
  | [] => ([], s)
  | a :: l' =>
      match click a s with
      | (r, s1, tr) =>
          match session l' s1 with
          | (rs, s2) => ((r, tr) :: rs, s2)
          end
      end
  end.

(** A page load at time [t]: the constructor, then [setupSecurityChecks]. *)
Definition page_load (name ver url : string) (a : VentureAnalytics) (g : Signals)
    (st : Storage) (shown : option CounterText) (t : Z) : Store :=
  let s0 := {| this := constructor name ver url a; localStorage := st;
               download_count := shown; now := t |} in
  snd (fst (setupSecurityChecks g s0)).


(* ================================================================== *)
(** * Vocabulary of the properties *)
(* ================================================================== *)

(** The outcome of one run of a script. *)
Definition completion {A} (x : Completion A * Store * list Effect) : Completion A :=
  fst (fst x).
Definition final {A} (x : Completion A * Store * list Effect) : Store :=
  snd (fst x).
Definition effects {A} (x : Completion A * Store * list Effect) : list Effect :=
  snd x.

(** Everything a trace holds, the effects of the dropped calls included:
    each [Later] entry is replaced by its effects, at the place where the
    call was dropped.  The order of the result is that of the program text;
    for the effects that come from [Later] entries it is not the order in
    time. *)
Fixpoint unfolded (e : Effect) : list Effect :=
  match e with
  | Later job => flat_map unfolded job
  | _ => [e]
  end.

Definition flatten (tr : list Effect) : list Effect := flat_map unfolded tr.

(** The effect happens in the run, during it or in a dropped call. *)
Definition occurs (e : Effect) (tr : list Effect) : Prop := In e (flatten tr).

(** The persisted window and its in-memory copy. *)
Definition window_of (s : Store) : option RateLimitData * Z :=
  (download_rate_limit (localStorage s), rateLimitCount (this s)).

(** The attempt entered the preparing state. *)
Definition entered_preparing (tr : list Effect) : Prop :=
  occurs (UpdateDownloadUI preparing) tr.

(** A token was minted: the only source of the nonce was called. *)
Definition issued_token (tr : list Effect) : Prop := occurs GetRandomValues tr.

(** A download was started: the hidden link was clicked. *)
Definition started_download (tr : list Effect) : Prop :=
  exists url, occurs (LinkClicked url) tr.

(** Some sink was called with some event. *)
Definition emitted_telemetry (tr : list Effect) : Prop :=
  exists k e, occurs (Deliver k e) tr.

Definition security_advisory : Effect :=
  ShowMessage "Download Temporarily Unavailable" "warning".

Definition rate_limit_advisory : Effect :=
  ShowMessage "Download Limit Reached" "info".

(** An attempt that a gate stopped: false is returned, nothing of the
    download flow happened and the window is as before. *)
Definition blocked_by_gate (w : World) (source : string) (s : Store) : Prop :=
  let x := initiateDownload w source s in
  completion x = Return false /\
  ~ entered_preparing (effects x) /\
  ~ issued_token (effects x) /\
  ~ started_download (effects x) /\
  window_of (final x) = window_of s.

(** A sink is configured when its hook (for the endpoint: fetch) exists. *)
Definition configured (w : World) (k : Sink) : bool :=
  match k with
  | Cloudflare => match cloudflare_hook w with Absent => false | _ => true end
  | GoogleAnalytics => match gtag_hook w with Absent => false | _ => true end
  | CustomEndpoint => has_fetch w
  | Beacon => match sendBeacon_hook w with Absent => false | _ => true end
  end.

Definition throws (h : Hook) : bool :=
  match h with Throwing => true | _ => false end.

(** The first-party POST fails: fetch is missing or its promise rejects. *)
Definition post_fails (w : World) : bool :=
  negb (has_fetch w) ||
  match post_analytics w with PostRejects => true | PostResolves => false end.

(** The world [w] with other telemetry sinks. *)
Definition with_sinks (w : World) (cf gt : Hook) (post : PostOutcome) (bc : Hook)
  : World :=
  {| has_fetch := has_fetch w; has_Promise := has_Promise w;
     has_crypto := has_crypto w; honeypot := honeypot w;
     userAgent := userAgent w; referrer := referrer w;
     random_bytes := random_bytes w;
     cloudflare_hook := cf; gtag_hook := gt;
     post_analytics := post; sendBeacon_hook := bc;
     head_probe := head_probe w; latency := latency w |}.

(** ** Sample page used in the examples *)

Module Sample.

Definition visitor : VentureAnalytics :=
  {| a_venture := "Alpha Workspace"; a_version := "1.0.0";
     sessionId := "session_1730000000000_k3j9x2m1q"; startTime := 0 |}.

Definition empty_storage : Storage :=
  {| download_rate_limit := None; venture_conversions := [] |}.

(** An ordinary browser. *)
Definition browser : Signals :=
  {| webdriver := false; phantom := false; phantom_ := false;
     callPhantom := false; sig_userAgent := "Mozilla/5.0 (Windows NT 10.0)";
     requestAnimationFrame := true; sig_localStorage := true;
     canvas_getContext := true |}.

(** A browser without requestAnimationFrame: score 10. *)
Definition score10 : Signals :=
  {| webdriver := false; phantom := false; phantom_ := false;
     callPhantom := false; sig_userAgent := "Mozilla/5.0 (Windows NT 10.0)";
     requestAnimationFrame := false; sig_localStorage := true;
     canvas_getContext := true |}.

(** navigator.webdriver and window.phantom set: score 50. *)
Definition score50 : Signals :=
  {| webdriver := true; phantom := true; phantom_ := false;
     callPhantom := false; sig_userAgent := "Mozilla/5.0 (Windows NT 10.0)";
     requestAnimationFrame := true; sig_localStorage := true;
     canvas_getContext := true |}.

(** The same with a headless user agent: score 65. *)
Definition score65 : Signals :=
  {| webdriver := true; phantom := true; phantom_ := false;
     callPhantom := false; sig_userAgent := "Mozilla/5.0 HeadlessChrome/120.0";
     requestAnimationFrame := true; sig_localStorage := true;
     canvas_getContext := true |}.

Definition load (g : Signals) (st : Storage) (t : Z) : Store :=
  page_load "Alpha Workspace" "1.0.0" "/download/Alpha-Setup.exe" visitor g st None t.

(** Everything works: no third-party hooks, the endpoint and the probe
    answer. *)
Definition online : World :=
  {| has_fetch := true; has_Promise := true; has_crypto := true;
     honeypot := None; userAgent := "Mozilla/5.0 (Windows NT 10.0)";
     referrer := EmptyString;
     random_bytes := [17; 34; 51; 68; 85; 102; 119; 136;
                      153; 170; 187; 204; 221; 238; 255; 0]%N;
     cloudflare_hook := Absent; gtag_hook := Absent;
     post_analytics := PostResolves; sendBeacon_hook := Working;
     head_probe := HeadResolves true 200; latency := 40 |}.

Definition with_random (w : World) (bytes : list N) : World :=
  {| has_fetch := has_fetch w; has_Promise := has_Promise w;
     has_crypto := has_crypto w; honeypot := honeypot w;
     userAgent := userAgent w; referrer := referrer w;
     random_bytes := bytes;
     cloudflare_hook := cloudflare_hook w; gtag_hook := gtag_hook w;
     post_analytics := post_analytics w; sendBeacon_hook := sendBeacon_hook w;
     head_probe := head_probe w; latency := latency w |}.

Definition with_fetch (w : World) (b : bool) : World :=
  {| has_fetch := b; has_Promise := has_Promise w;
     has_crypto := has_crypto w; honeypot := honeypot w;
     userAgent := userAgent w; referrer := referrer w;
     random_bytes := random_bytes w;
     cloudflare_hook := cloudflare_hook w; gtag_hook := gtag_hook w;
     post_analytics := post_analytics w; sendBeacon_hook := sendBeacon_hook w;
     head_probe := head_probe w; latency := latency w |}.

Definition with_head (w : World) (h : HeadOutcome) : World :=
  {| has_fetch := has_fetch w; has_Promise := has_Promise w;
     has_crypto := has_crypto w; honeypot := honeypot w;
     userAgent := userAgent w; referrer := referrer w;
     random_bytes := random_bytes w;
     cloudflare_hook := cloudflare_hook w; gtag_hook := gtag_hook w;
     post_analytics := post_analytics w; sendBeacon_hook := sendBeacon_hook w;
     head_probe := h; latency := latency w |}.

(** The same visit at two moments one second apart. *)
Definition at_noon : Store :=
  with_now (load browser empty_storage 0) 1730000000000.

Definition a_second_later : Store := with_now at_noon 1730000001000.

Definition other_bytes : World := with_random online [1; 2; 3; 4; 5; 6; 7; 8]%N.

(** Page loads of the sample visitors at time 0 with nothing stored. *)
Definition fresh10 : Store := load score10 empty_storage 0.
Definition fresh50 : Store := load score50 empty_storage 0.
Definition fresh65 : Store := load score65 empty_storage 0.

Definition no_fetch : World := with_fetch online false.

Definition with_honeypot (w : World) (h : option string) : World :=
  {| has_fetch := has_fetch w; has_Promise := has_Promise w;
     has_crypto := has_crypto w; honeypot := h;
     userAgent := userAgent w; referrer := referrer w;
     random_bytes := random_bytes w;
     cloudflare_hook := cloudflare_hook w; gtag_hook := gtag_hook w;
     post_analytics := post_analytics w; sendBeacon_hook := sendBeacon_hook w;
     head_probe := head_probe w; latency := latency w |}.

(** No fetch and a filled honeypot field. *)
Definition no_fetch_filled : World := with_honeypot no_fetch (Some "x").

(** The score-10 visitor with a full window: three downloads recorded, the
    last one at second 10. *)
Definition full10 : Store :=
  {| this := with_rateLimitCount (this fresh10) 3;
     localStorage :=
       {| download_rate_limit := Some {| count := 3; windowStart := 10000 |};
          venture_conversions := [] |};
     download_count := None; now := 15000 |}.

(** The score-10 visitor after one recorded download at second 1. *)
Definition once10 : Store :=
  {| this := with_rateLimitCount (this fresh10) 1;
     localStorage :=
       {| download_rate_limit := Some {| count := 1; windowStart := 1000 |};
          venture_conversions := [] |};
     download_count := None; now := 5000 |}.

(** A sample event. *)
Definition page_view : TelemetryEvent :=
  {| event := "page_view"; ev_venture := "Alpha Workspace";
     ev_sessionId := sessionId visitor; ev_timestamp := 0;
     ev_fields := [("page", JStr "/")] |}.

(** All three sinks configured and working. *)
Definition all_sinks : World := with_sinks online Working Working PostResolves Working.

(** The same with a Cloudflare hook that throws. *)
Definition cloudflare_throws : World :=
  with_sinks online Throwing Working PostResolves Working.

(** Every sink fails: both hooks throw, the endpoint rejects, sendBeacon
    throws. *)
Definition all_sinks_fail : World :=
  with_sinks online Throwing Throwing PostRejects Throwing.

(** Only the first-party endpoint fails. *)
Definition endpoint_rejects : World :=
  with_sinks online Absent Absent PostRejects Working.

Definition press (t : Z) (w : World) : Attempt :=
  {| at_time := t; at_source := "primary_cta"; at_world := w |}.

(** Three clicks in the first ten seconds (the last download is recorded
    at 9.08 s) and a fourth at second 15. *)
Definition burst : list Attempt :=
  [press 1000 online; press 5000 online; press 9000 online;
   press 15000 online].

(** The visitor after the burst, and the same visitor loading the page
    again at second 61 and at second 71. *)
Definition after_burst : Store := snd (session burst fresh10).

Definition reload_at_61 : Store :=
  load score10 (localStorage after_burst) 61000.

Definition reload_at_71 : Store :=
  load score10 (localStorage after_burst) 71000.

(** Four clicks in the first twenty seconds; the probe of the first one is
    rejected. *)
Definition first_probe_fails : list Attempt :=
  [press 1000 (with_head online HeadRejects); press 5000 online;
   press 9000 online; press 15000 online].

(** Clicks of the same visit after the burst: at second 61, at second 71
    (61.9 s after the stored window start) and an hour after the burst. *)
Definition late_clicks : list Attempt :=
  [press 61000 online; press 71000 online; press 3600000 online].

End Sample.

(** ** The decision table of [initiateDownload] *)

Inductive Verdict := GateBlocked | RateLimited | Failed | Succeeded.

(** #honeypot exists and its value is not the empty string. *)
Definition honeypot_tripped (w : World) : bool :=
  match honeypot w with
  | Some value => negb (String.eqb value EmptyString)
  | None => false
  end.

(** The probe answered with an ok status. *)
Definition verified (w : World) : bool :=
  match head_probe w with
  | HeadResolves ok _ => ok
  | HeadRejects => false
  end.

Definition verdict (w : World) (s : Store) : Verdict :=
  if botScore (this s) >? 50 then GateBlocked
  else if negb (has_fetch w) || negb (has_Promise w) then GateBlocked
  else if honeypot_tripped w then GateBlocked
  else if negb (rateLimitCount (this s) <? maxDownloadsPerWindow (this s))
  then RateLimited
  else if negb (has_crypto w) then Failed
  else if verified w then Succeeded else Failed.

(** Effects of the telemetry dispatcher: calls of sinks and its own
    console warning, in place or in a dropped call. *)
Fixpoint is_telemetry (e : Effect) : bool :=
  match e with
  | Deliver _ _ => true
  | ConsoleWarn msg => String.eqb msg "Analytics tracking failed:"
  | Later job => forallb is_telemetry job
  | _ => false
  end.

Definition first_effect (tr : list Effect) : option Effect := hd_error tr.

(** What [sendToCustomEndpoint] does, sink by sink: the POST when fetch
    exists, and when the POST fails the beacon when sendBeacon exists. *)
Definition endpoint_attempts (w : World) (data : TelemetryEvent) : list Effect :=
  (if has_fetch w then [Deliver CustomEndpoint data] else []) ++
  (if post_fails w
   then if configured w Beacon then [Deliver Beacon data] else []
   else []).

Definition dispatcher_warning : Effect := ConsoleWarn "Analytics tracking failed:".

(** What [sendAnalytics] does, sink by sink, in the order of the code: the
    first hook that throws ends the fan-out with the dispatcher's warning. *)
Definition fan_out (w : World) (data : TelemetryEvent) : list Effect :=
  (if configured w Cloudflare then [Deliver Cloudflare data] else []) ++
  if throws (cloudflare_hook w) then [dispatcher_warning]
  else
    (if configured w GoogleAnalytics then [Deliver GoogleAnalytics data] else []) ++
    if throws (gtag_hook w) then [dispatcher_warning]
    else
      endpoint_attempts w data ++
      if post_fails w && throws (sendBeacon_hook w) then [dispatcher_warning]
      else [].

(** The same fan-out when the promise of [sendAnalytics] is dropped: the
    Cloudflare hook is called in place, the rest happens later. *)
Definition fan_out_begun (w : World) (data : TelemetryEvent) : list Effect :=
  if configured w Cloudflare then [Deliver Cloudflare data] else [].

Definition fan_out_rest (w : World) (data : TelemetryEvent) : list Effect :=
  if throws (cloudflare_hook w) then [dispatcher_warning]
  else
    (if configured w GoogleAnalytics then [Deliver GoogleAnalytics data] else []) ++
    if throws (gtag_hook w) then [dispatcher_warning]
    else
      endpoint_attempts w data ++
      if post_fails w && throws (sendBeacon_hook w) then [dispatcher_warning]
      else [].

Definition dropped_fan_out (w : World) (data : TelemetryEvent) : list Effect :=
  fan_out_begun w data ++ [Later (fan_out_rest w data)].

(** ** Vocabulary of sessions *)

(** The environment is supported and the honeypot field is empty. *)
Definition gates_open (w : World) : bool :=
  has_fetch w && has_Promise w && negb (honeypot_tripped w).

(** The token can be minted and the probe answers ok. *)
Definition download_verified (w : World) : bool := has_crypto w && verified w.

(** The attempt passed both gates: its first effect is the preparing state. *)
Definition admitted (r : Result) : Prop :=
  first_effect (snd r) = Some (UpdateDownloadUI preparing).

(** The attempt was rejected by the rate limiter: the advisory and nothing
    else. *)
Definition rate_limited (r : Result) : Prop :=
  r = (Return false, [rate_limit_advisory]).

Definition succeeded (r : Result) : bool :=
  match fst r with
  | Return true => true
  | _ => false
  end.

Fixpoint successes (rs : list Result) : nat :=
  match rs with
  | [] => 0
  | r :: rs' => (if succeeded r then 1 else 0) + successes rs'
  end.

(* ================================================================== *)
(** * Further parts of the two classes *)
(* ================================================================== *)

(** ** Alphabets of the generated strings *)

(** An ASCII letter or digit. *)
Definition is_alnum (c : ascii) : bool :=
  let n := N_of_ascii c in
  ((48 <=? n) && (n <=? 57) || (65 <=? n) && (n <=? 90)
   || (97 <=? n) && (n <=? 122))%N.

(** A digit or one of a to f. *)
Definition is_hex_digit (c : ascii) : bool :=
  let n := N_of_ascii c in
  ((48 <=? n) && (n <=? 57) || (97 <=? n) && (n <=? 102))%N.

(** The value of a hexadecimal digit (0 for any other character). *)
Definition hex_value (c : ascii) : N :=
  let n := N_of_ascii c in
  (if (48 <=? n) && (n <=? 57) then n - 48
   else if (97 <=? n) && (n <=? 102) then n - 87
   else 0)%N.

(** Reading a nonce back: two hexadecimal digits per byte. *)
Fixpoint unhex (l : list ascii) : list N :=
  match l with
  | hi :: lo :: rest => (hex_value hi * 16 + hex_value lo)%N :: unhex rest
  | _ => []
  end.

(** ** The events of an attempt and its trace, written out *)

(** The object built by [trackDownload]. *)
Definition download_started_event (a : VentureAnalytics) (w : World)
    (url source : string) (t : Z) : TelemetryEvent :=
  {| event := "download_started"; ev_venture := a_venture a;
     ev_sessionId := sessionId a; ev_timestamp := t;
     ev_fields :=
       [ ("version", JStr (a_version a)); ("downloadUrl", JStr url);
         ("source", JStr source); ("userAgent", JStr (userAgent w));
         ("referrer", JStr (getReferrer w));
         ("timeOnPage", JNum (t - startTime a)) ] |}.

(** The object built by [trackEngagement]. *)
Definition engagement_event (a : VentureAnalytics) (action element : string)
    (value : JsValue) (t : Z) : TelemetryEvent :=
  {| event := "engagement"; ev_venture := a_venture a;
     ev_sessionId := sessionId a; ev_timestamp := t;
     ev_fields :=
       [ ("action", JStr action); ("element", JStr element); ("value", value);
         ("timeOnPage", JNum (t - startTime a)) ] |}.

(** The object built by [trackError]. *)
Definition error_event (a : VentureAnalytics) (w : World) (err : Exn)
    (context : string) (t : Z) : TelemetryEvent :=
  {| event := "error"; ev_venture := a_venture a;
     ev_sessionId := sessionId a; ev_timestamp := t;
     ev_fields :=
       [ ("error", JStr (exn_message err)); ("context", JStr context);
         ("userAgent", JStr (userAgent w)) ] |}.

(** How long [sendAnalytics] makes its caller wait: one round trip when the
    POST is issued, nothing when the fan-out ends before it. *)
Definition dispatch_delay (w : World) : Z :=
  if negb (throws (cloudflare_hook w)) && negb (throws (gtag_hook w))
     && has_fetch w
  then latency w else 0.

(** Whether a fan-out calls sink [k]. *)
Definition reached (w : World) (k : Sink) : bool :=
  match k with
  | Cloudflare => configured w Cloudflare
  | GoogleAnalytics =>
      configured w GoogleAnalytics && negb (throws (cloudflare_hook w))
  | CustomEndpoint =>
      has_fetch w && negb (throws (cloudflare_hook w))
      && negb (throws (gtag_hook w))
  | Beacon =>
      configured w Beacon && post_fails w
      && negb (throws (cloudflare_hook w)) && negb (throws (gtag_hook w))
  end.

Definition sink_eqb (k1 k2 : Sink) : bool :=
  match k1, k2 with
  | Cloudflare, Cloudflare | GoogleAnalytics, GoogleAnalytics
  | CustomEndpoint, CustomEndpoint | Beacon, Beacon => true
  | _, _ => false
  end.

(** Projections of a trace, dropped calls included ([flatten]): the states
    the buttons were put in, the events handed to one sink, the links clicked
    and the probes sent.  The events of [deliveries_to] are listed in the
    order of the program text; those that come from dropped calls can reach
    the sink in another order. *)
Definition ui_states (tr : list Effect) : list UiState :=
  flat_map (fun e => match e with UpdateDownloadUI st => [st] | _ => [] end)
           (flatten tr).

Definition deliveries_to (k : Sink) (tr : list Effect) : list TelemetryEvent :=
  flat_map (fun e => match e with
                     | Deliver k' ev => if sink_eqb k k' then [ev] else []
                     | _ => []
                     end) (flatten tr).

Definition links_clicked (tr : list Effect) : list SecureUrl :=
  flat_map (fun e => match e with LinkClicked u => [u] | _ => [] end) (flatten tr).

Definition probes (tr : list Effect) : list SecureUrl :=
  flat_map (fun e => match e with HeadRequest u => [u] | _ => [] end) (flatten tr).

Definition advisories (tr : list Effect) : list Effect :=
  filter (fun e => match e with ShowMessage _ _ => true | _ => false end)
         (flatten tr).

(** The clicks on the hidden link and the probes of the run itself (not of
    dropped calls), in the order they happen. *)
Definition download_steps (tr : list Effect) : list Effect :=
  filter (fun e => match e with
                   | LinkClicked _ | HeadRequest _ => true
                   | _ => false
                   end) tr.

(** The events the run itself hands to a sink while it is awaited or
    synchronous, in the order they happen; what dropped calls deliver after
    their first await is not among them. *)
Definition deliveries_in_order (k : Sink) (tr : list Effect) : list TelemetryEvent :=
  flat_map (fun e => match e with
                     | Deliver k' ev => if sink_eqb k k' then [ev] else []
                     | _ => []
                     end) tr.

(** The URL an admitted attempt builds: the token is minted at the click,
    the parameter t is read after the download was tracked. *)
Definition secure_url_of (w : World) (s : Store) : SecureUrl :=
  {| u_base := downloadUrl (this s);
     u_token :=
       token_of (venture (this s)) (now s) (userAgent w)
         (sessionId (analytics (this s)))
         (Js.text (flat_map Js.hex2 (random_array w)));
     u_venture := venture (this s);
     u_version := version (this s);
     u_t := now s + dispatch_delay w |}.

(** What the probe throws when it does not verify the download. *)
Definition probe_error (w : World) : Exn :=
  match head_probe w with
  | HeadResolves _ status => VerificationError status
  | HeadRejects => FetchRejected
  end.

(** The record [updateConversionMetrics] appends for an attempt. *)
Definition conversion_of (w : World) (s : Store) : Conversion :=
  {| cv_venture := a_venture (analytics (this s));
     cv_timestamp := now s + dispatch_delay w;
     cv_sessionId := sessionId (analytics (this s));
     cv_referrer := getReferrer w |}.

(** The trace of an attempt that passed both gates, with crypto present:
    the download_started event is awaited, the later events are dropped
    calls. *)
Definition admitted_trace (w : World) (source : string) (s : Store) : list Effect :=
  let a := analytics (this s) in
  let t2 := now s + dispatch_delay w + latency w in
  [UpdateDownloadUI preparing; GetRandomValues]
  ++ fan_out w (download_started_event a w (downloadUrl (this s)) source (now s))
  ++ [LinkClicked (secure_url_of w s); HeadRequest (secure_url_of w s)]
  ++ (if verified w then
        dropped_fan_out w (engagement_event a "download_verified" "success" JNull t2)
        ++ [UpdateDownloadUI success]
      else
        [ConsoleError "Download verification failed:"]
        ++ dropped_fan_out w
             (error_event a w (probe_error w) "download_verification" t2)
        ++ [ConsoleError "Download failed:"]
        ++ dropped_fan_out w (error_event a w (probe_error w) "download_manager" t2)
        ++ [UpdateDownloadUI error]).

(** The store such an attempt leaves. *)
Definition admitted_store (w : World) (s : Store) : Store :=
  let t2 := now s + dispatch_delay w + latency w in
  let c := rateLimitCount (this s) + 1 in
  {| this := if verified w then with_rateLimitCount (this s) c else this s;
     localStorage :=
       {| download_rate_limit :=
            if verified w then Some {| count := c; windowStart := t2 |}
            else download_rate_limit (localStorage s);
          venture_conversions :=
            venture_conversions (localStorage s) ++ [conversion_of w s] |};
     download_count := option_map Bumped (download_count s);
     now := t2 |}.

(** The trace of an attempt that passed both gates without crypto. *)
Definition no_crypto_trace (w : World) (s : Store) : list Effect :=
  [UpdateDownloadUI preparing; ConsoleError "Download failed:"]
  ++ dropped_fan_out w (error_event (analytics (this s)) w (ReferenceError "crypto")
                          "download_manager" (now s))
  ++ [UpdateDownloadUI error].

(** What the security gate logs when it closes. *)
Definition gate_warning (w : World) (s : Store) : string :=
  if botScore (this s) >? 50 then "High bot score detected:"
  else if negb (has_fetch w) || negb (has_Promise w)
  then "Unsupported browser environment"
  else "Honeypot triggered".

(** The kinds of the events handed to one sink, with the context member of
    error events. *)
Definition event_kind (ev : TelemetryEvent) : string * option JsValue :=
  (event ev,
   match find (fun kv => String.eqb (fst kv) "context") (ev_fields ev) with
   | Some kv => Some (snd kv)
   | None => None
   end).

(** Attempts whose probe never verifies the download. *)
Definition never_verified (a : Attempt) : bool :=
  gates_open (at_world a) && has_crypto (at_world a) && negb (verified (at_world a)).

(** The attempt got as far as tracking and starting the download: both
    gates passed and the token was minted. *)
Definition download_started (w : World) (s : Store) : bool :=
  match verdict w s with
  | Succeeded => true
  | Failed => has_crypto w
  | GateBlocked | RateLimited => false
  end.

(** ** Further sample runs *)

Module Cases.

(** The probe is rejected at every click: six clicks in six seconds. *)
Definition unverified_clicks : list Attempt :=
  map (fun t => Sample.press t (Sample.with_head Sample.online HeadRejects))
      [1000; 2000; 3000; 4000; 5000; 6000].

End Cases.

(** ** The download buttons *)

(** The markup [updateDownloadUI] writes into a button.  The texts begin
    with a pictogram (hourglass, check mark, warning sign, downward arrow);
    they are kept apart by name, the last one carries the venture. *)
Inductive Label :=
| Markup (html : string)            (* what the page came with *)
| PreparingLabel                    (* Preparing download... *)
| StartedLabel                      (* Download started! *)
| RetryLabel                        (* Download failed - Retry *)
| DownloadLabel (venture : string). (* Download, then the venture *)

Record Button := {
  disabled : bool;
  innerHTML : Label;
  classList : list string
}.

(** classList.add(c): the token is appended unless it is there. *)
Definition class_add (c : string) (l : list string) : list string :=
  if existsb (String.eqb c) l then l else l ++ [c].

(** classList.remove(c1, c2): every occurrence of the tokens goes. *)
Definition class_remove (cs : list string) (l : list string) : list string :=
  filter (fun c => negb (existsb (String.eqb c) cs)) l.

(** One case of the switch of [updateDownloadUI], without its timer. *)
Definition update_button (st : UiState) (b : Button) : Button :=
  match st with
  | preparing =>
      {| disabled := true; innerHTML := PreparingLabel;
         classList := class_add "downloading" (classList b) |}
  | success =>
      {| disabled := disabled b; innerHTML := StartedLabel;
         classList := class_add "success" (classList b) |}
  | error =>
      {| disabled := false; innerHTML := RetryLabel;
         classList := class_add "error" (classList b) |}
  end.

(** The function the case hands to setTimeout (none for preparing). *)
Definition revert_button (venture : string) (st : UiState) (b : Button) : Button :=
  match st with
  | preparing => b
  | success =>
      {| disabled := false; innerHTML := DownloadLabel venture;
         classList := class_remove ["downloading"; "success"] (classList b) |}
  | error =>
      {| disabled := disabled b; innerHTML := DownloadLabel venture;
         classList := class_remove ["downloading"; "error"] (classList b) |}
  end.

(** Its delay in milliseconds. *)
Definition revert_delay (st : UiState) : option Z :=
  match st with
  | preparing => None
  | success => Some 3000
  | error => Some 5000
  end.

(** What happens to the buttons of the page: a call of [updateDownloadUI],
    or the timers of an earlier call firing. *)
Inductive UiEvent :=
| Shown (st : UiState)
| TimersFired (st : UiState).

Definition ui_step (venture : string) (bs : list Button) (ev : UiEvent)
  : list Button :=
  match ev with
  | Shown st => map (update_button st) bs
  | TimersFired st => map (revert_button venture st) bs
  end.

Definition ui_run (venture : string) (evs : list UiEvent) (bs : list Button)
  : list Button :=
  fold_left (ui_step venture) evs bs.

(** The buttons after the calls of [updateDownloadUI] recorded in a trace. *)
Definition render (venture : string) (tr : list Effect) (bs : list Button)
  : list Button :=
  ui_run venture (map Shown (ui_states tr)) bs.

(** A button at rest: enabled, labelled with the venture, and without the
    classes of the attempt. *)
Definition at_rest (venture : string) (away : list string) (b : Button) : Button :=
  {| disabled := false; innerHTML := DownloadLabel venture;
     classList := class_remove away (classList b) |}.

(** ** A/B test assignment *)

(** The localStorage entries ab_test_NAME, by test name, newest first. *)
Definition AbTests : Type := list (string * string).

(** localStorage.getItem of the entry of a test. *)
Fixpoint ab_get (name : string) (ab : AbTests) : option string :=
  match ab with
  | [] => None
  | (n, v) :: rest => if String.eqb n name then Some v else ab_get name rest
  end.

(** localStorage.setItem of the entry of a test. *)
Definition ab_set (name value : string) (ab : AbTests) : AbTests :=
  (name, value) :: ab.

(** What [variants[testName]] finds.  [variants] is an object literal, so
    besides its two entries the lookup finds the members every object
    inherits from Object.prototype: methods, which are functions with a
    length and no indexed members, and under __proto__ the prototype itself,
    which has no length. *)
Inductive Member :=
| Entry (testVariants : list string)
| Method (length : nat)
| Prototype
| Missing.

Definition inherited : list (string * Member) :=
  [ ("constructor", Method 1); ("hasOwnProperty", Method 1);
    ("isPrototypeOf", Method 1); ("propertyIsEnumerable", Method 1);
    ("toLocaleString", Method 0); ("toString", Method 0); ("valueOf", Method 0);
    ("__defineGetter__", Method 2); ("__defineSetter__", Method 2);
    ("__lookupGetter__", Method 1); ("__lookupSetter__", Method 1);
    ("__proto__", Prototype) ].

Definition variants (testName : string) : Member :=
  if String.eqb testName "hero_cta_test"
  then Entry ["Download Free"; "Get Started Now"; "Install Alpha"]
  else if String.eqb testName "hero_headline_test"
  then Entry ["Distraction-Free Writing"; "Focus on What Matters";
              "Write More, Worry Less"]
  else
    match find (fun m => String.eqb (fst m) testName) inherited with
    | Some m => snd m
    | None => Missing
    end.

(** A stored value counts when it is not the empty string. *)
Definition stored_variant (name : string) (ab : AbTests) : option string :=
  match ab_get name ab with
  | Some v => if String.eqb v EmptyString then None else Some v
  | None => None
  end.

(** [testVariants.length === 0], for [variants[testName] || []]. *)
Definition no_variants (m : Member) : bool :=
  match m with
  | Entry l => (List.length l =? 0)%nat
  | Method n => (n =? 0)%nat
  | Prototype => false
  | Missing => true
  end.

(** [testVariants[index]]: an element of an entry; undefined for an index
    past the end, for a method and for the prototype. *)
Definition variant_at (m : Member) (pick : nat) : option string :=
  match m with
  | Entry l => nth_error l pick
  | _ => None
  end.

(** [pick] is Math.floor(Math.random() * testVariants.length).  The result
    is the variant (None for null and undefined) and the entries of
    localStorage afterwards.  An undefined variant is stored as the text
    undefined and tracked with the default value null. *)
Definition getVariant (w : World) (pick : nat) (testName : string) (ab : AbTests)
  : M (option string * AbTests) :=
  match stored_variant testName ab with
  | Some storedVariant => ret (Some storedVariant, ab)
  | None =>
      let testVariants := variants testName in
      if no_variants testVariants then ret (None, ab)
      else
        match variant_at testVariants pick with
        | Some variant =>
            forget (trackEngagement_async w "ab_test_assigned" testName
                      (JStr variant)) ;;
            ret (Some variant, ab_set testName variant ab)
        | None =>
            forget (trackEngagement_async w "ab_test_assigned" testName JNull) ;;
            ret (None, ab_set testName "undefined" ab)
        end
  end.

(** ** Scroll depth *)

(** The scroll listener of [setupEngagementTracking], from the rounded
    percentage on: the new value of maxScroll and the value handed to
    trackEngagement('scroll', 'page', ...), if any.  A percentage that is not
    a number (a page that cannot scroll) passes neither test. *)
Definition on_scroll (scrollPercent maxScroll : Z) : Z * option Z :=
  if (scrollPercent >? maxScroll) && (Z.rem scrollPercent 25 =? 0)
  then (scrollPercent, Some scrollPercent)
  else (maxScroll, None).

(** The values tracked over a sequence of scroll events. *)
Fixpoint scroll_reports (percents : list Z) (maxScroll : Z) : list Z :=
  match percents with
  | [] => []
  | p :: rest =>
      match on_scroll p maxScroll with
      | (m, Some v) => v :: scroll_reports rest m
      | (m, None) => scroll_reports rest m
      end
  end.

(** ** The window, in memory and stored *)

(** The in-memory count agrees with what is stored. *)
Definition in_sync (s : Store) : Prop :=
  match download_rate_limit (localStorage s) with
  | Some d => count d = rateLimitCount (this s)
  | None => rateLimitCount (this s) = 0
  end.

(** ** The bot score as a sum *)

Definition weight (b : bool) (points : Z) : Z := if b then points else 0.

(** How many of the seven patterns the user agent matches. *)
Definition matching_patterns (ua : string) : Z :=
  Z.of_nat (List.length
              (filter (fun p => Js.test_ci (Js.chars p) (Js.chars ua))
                      suspiciousPatterns)).

Definition raw_score (g : Signals) : Z :=
  weight (webdriver g) 20 + weight (phantom g || phantom_ g) 30
  + weight (callPhantom g) 30 + 15 * matching_patterns (sig_userAgent g)
  + weight (negb (requestAnimationFrame g)) 10
  + weight (negb (sig_localStorage g)) 10
  + weight (negb (canvas_getContext g)) 15.

Definition with_userAgent (g : Signals) (ua : string) : Signals :=
  {| webdriver := webdriver g; phantom := phantom g; phantom_ := phantom_ g;
     callPhantom := callPhantom g; sig_userAgent := ua;
     requestAnimationFrame := requestAnimationFrame g;
     sig_localStorage := sig_localStorage g;
     canvas_getContext := canvas_getContext g |}.

Module Cases2.

(** The entries after the second variant of the call-to-action test was
    assigned. *)
Definition assigned : AbTests := [("hero_cta_test", "Get Started Now")].

(** A user agent that names a crawler in capitals. *)
Definition crawler : Signals :=
  with_userAgent Sample.browser "Mozilla/5.0 (compatible; ExampleBOT/2.1)".

End Cases2.

(** The user agent in lower case. *)
Definition lower_case (ua : string) : string :=
  Js.text (map Js.lower (Js.chars ua)).

(** The object built by [reportSecurityEvent]. *)
Definition security_event (w : World) (ev details : string) (s : Store)
    : TelemetryEvent :=
  {| event := "security_event"; ev_venture := venture (this s);
     ev_sessionId := sessionId (analytics (this s)); ev_timestamp := now s;
     ev_fields :=
       [ ("securityEvent", JStr ev); ("details", JStr details);
         ("botScore", JNum (botScore (this s)));
         ("userAgent", JStr (userAgent w)) ] |}.

(** Every event of a trace, whatever the sink, dropped calls included. *)
Definition delivered (tr : list Effect) : list TelemetryEvent :=
  flat_map (fun e => match e with Deliver _ ev => [ev] | _ => [] end) (flatten tr).

(** The kinds of the events of an attempt: the one whose dispatch the
    attempt awaits, and those whose dispatch it drops, in the order of the
    program text. *)
Definition awaited_kinds (w : World) (s : Store) : list (string * option JsValue) :=
  if download_started w s then [("download_started", None)] else [].

Definition dropped_kinds (w : World) (s : Store) : list (string * option JsValue) :=
  match verdict w s with
  | Succeeded => [("engagement", None)]
  | Failed =>
      if has_crypto w
      then [ ("error", Some (JStr "download_verification"));
             ("error", Some (JStr "download_manager")) ]
      else [("error", Some (JStr "download_manager"))]
  | GateBlocked | RateLimited => []
  end.

(** An inherited member that passes the length test of [getVariant]. *)
Definition inherited_member (m : Member) : bool :=
  match m with
  | Method (S _) | Prototype => true
  | _ => false
  end.

(** ** The token on texts of arbitrary code units *)

(** A JavaScript string in full is a sequence of 16-bit code units.  The
    definitions below redo the computation of the token on such sequences, to
    cover what the 8-bit texts of the development leave out: [btoa] raises
    InvalidCharacterError on a code unit above 255. *)

Definition high_surrogate (u : N) : bool := ((55296 <=? u) && (u <=? 56319))%N.
Definition low_surrogate (u : N) : bool := ((56320 <=? u) && (u <=? 57343))%N.

(** The escape of a code unit: backslash, u and four hexadecimal digits. *)
Definition unicode_escape (u : N) : list N :=
  Js.units [ Js.bslash; "u"%char;
             Js.hex_digit (u / 4096); Js.hex_digit ((u / 256) mod 16);
             Js.hex_digit ((u / 16) mod 16); Js.hex_digit (u mod 16) ]%N.

(** QuoteJSONString on code units: below 256 as [Js.quote_unit]; a high
    surrogate followed by a low one is one character and is kept; a lone
    surrogate is escaped; every other unit is kept. *)
Fixpoint quote_units (us : list N) : list N :=
  match us with
  | [] => []
  | u :: rest =>
      if high_surrogate u then
        match rest with
        | v :: rest' =>
            if low_surrogate v then u :: v :: quote_units rest'
            else unicode_escape u ++ quote_units rest
        | [] => unicode_escape u
        end
      else if low_surrogate u then unicode_escape u ++ quote_units rest
      else if (u <? 256)%N
      then Js.units (Js.quote_unit (ascii_of_N u)) ++ quote_units rest
      else u :: quote_units rest
  end.

Definition json_string_units (us : list N) : list N :=
  Js.units [Js.dquote] ++ quote_units us ++ Js.units [Js.dquote].

Definition json_member_units (key : string) (value : list N) : list N :=
  Js.units (Js.dquote :: Js.chars key ++ [Js.dquote; ":"%char]) ++ value.

(** JSON.stringify(tokenData) *)
Definition token_json_units (venture : list N) (timestamp : Z)
    (userAgent sessionId : list N) (nonce : string) : list N :=
  Js.units ["{"%char]
    ++ json_member_units "venture" (json_string_units venture)
    ++ Js.units [","%char]
    ++ json_member_units "timestamp" (Js.units (Js.number_to_string timestamp))
    ++ Js.units [","%char]
    ++ json_member_units "userAgent" (json_string_units userAgent)
    ++ Js.units [","%char]
    ++ json_member_units "sessionId" (json_string_units sessionId)
    ++ Js.units [","%char]
    ++ json_member_units "nonce" (Js.units (Js.json_string nonce))
    ++ Js.units ["}"%char].

(** btoa: None stands for the InvalidCharacterError it raises when a code
    unit is above 255. *)
Definition btoa_checked (us : list N) : option (list ascii) :=
  if forallb (fun u => (u <? 256)%N) us then Some (Js.btoa_units us) else None.

(** btoa(tokenString).replace(/[+\/=]/g, '').substring(0, 32) *)
Definition token_of_units (venture : list N) (timestamp : Z)
    (userAgent sessionId : list N) (nonce : string) : option string :=
  match btoa_checked (token_json_units venture timestamp userAgent sessionId nonce) with
  | Some token =>
      Some (Js.text (Js.substring0 32 (Js.strip_plus_slash_eq token)))
  | None => None
  end.

(** The code units of a text of the development. *)
Definition units_of (s : string) : list N := Js.units (Js.chars s).

Module Wide.

(** A venture name in Japanese (two characters), the face U+1F600 as a
    surrogate pair, and its high surrogate alone. *)
Definition nihon : list N := [26085; 26412]%N.
Definition face : list N := [55357; 56832]%N.
Definition half_face : list N := [55357]%N.

End Wide.
(* ================================================================== *)
(** * Properties of the built-ins *)
(* ================================================================== *)

Module JsFacts.

Import Js.
Open Scope N_scope.

Lemma b64char_below_62 (i : N) :
  i < 62 -> is_plus_slash_eq (b64char i) = false.
Proof.
  intros H.
  destruct i as [|p]; [reflexivity|].
  do 6 (try destruct p as [p|p|]); try reflexivity; exfalso; lia.
Qed.

Lemma plain_spec (u : N) : plain u = true <-> u < 128 /\ u mod 64 < 62.
Proof.
  unfold plain. rewrite andb_true_iff, !N.ltb_lt. tauto.
Qed.

Lemma strip_cons_keep (c : ascii) (l : list ascii) :
  is_plus_slash_eq c = false ->
  strip_plus_slash_eq (c :: l) = c :: strip_plus_slash_eq l.
Proof.
  intros H. unfold strip_plus_slash_eq. simpl. now rewrite H.
Qed.

(** Three plain code units give four base64 characters that the
    replacement keeps. *)
Lemma strip_btoa_group (a b c : N) (rest : list N) :
  plain a = true -> plain b = true -> plain c = true ->
  strip_plus_slash_eq (btoa_units (a :: b :: c :: rest)) =
  btoa_units [a; b; c] ++ strip_plus_slash_eq (btoa_units rest).
Proof.
  intros Ha Hb Hc.
  apply plain_spec in Ha, Hb, Hc.
  destruct Ha as [Ha _], Hb as [Hb _], Hc as [Hc Hc'].
  assert (H1 : a / 4 < 62) by (apply N.Div0.div_lt_upper_bound; lia).
  assert (H2 : (a mod 4) * 16 + b / 16 < 62).
  { assert (a mod 4 < 4) by (apply N.mod_lt; lia).
    assert (b / 16 < 8) by (apply N.Div0.div_lt_upper_bound; lia). lia. }
  assert (H3 : (b mod 16) * 4 + c / 64 < 62).
  { assert (b mod 16 < 16) by (apply N.mod_lt; lia).
    assert (c / 64 < 2) by (apply N.Div0.div_lt_upper_bound; lia). lia. }
  change (btoa_units (a :: b :: c :: rest))
    with (b64char (a / 4) :: b64char ((a mod 4) * 16 + b / 16)
            :: b64char ((b mod 16) * 4 + c / 64) :: b64char (c mod 64)
            :: btoa_units rest).
  rewrite !strip_cons_keep by (apply b64char_below_62; assumption).
  reflexivity.
Qed.

Lemma strip_btoa_plain_prefix (k : nat) :
  forall (p r : list N),
    List.length p = (3 * k)%nat -> forallb plain p = true ->
    strip_plus_slash_eq (btoa_units (p ++ r)) =
      btoa_units p ++ strip_plus_slash_eq (btoa_units r)
    /\ List.length (btoa_units p) = (4 * k)%nat.
Proof.
  induction k as [|k IH]; intros p r Hlen Hp.
  - destruct p; [split; reflexivity | discriminate].
  - destruct p as [|a [|b [|c p]]]; try (simpl in Hlen; lia).
    simpl in Hp. rewrite !andb_true_iff in Hp.
    destruct Hp as (Ha & Hb & Hc & Hp).
    assert (Hlen' : List.length p = (3 * k)%nat) by (simpl in Hlen; lia).
    destruct (IH p r Hlen' Hp) as [IH1 IH2].
    split.
    + change ((a :: b :: c :: p) ++ r) with (a :: b :: c :: (p ++ r)).
      rewrite strip_btoa_group by assumption.
      rewrite IH1. reflexivity.
    + change (btoa_units (a :: b :: c :: p))
        with (b64char (a / 4) :: b64char ((a mod 4) * 16 + b / 16)
                :: b64char ((b mod 16) * 4 + c / 64) :: b64char (c mod 64)
                :: btoa_units p).
      simpl List.length. rewrite IH2. lia.
Qed.

(** What survives the truncation to 32 characters is decided by the first
    24 code units when these are plain. *)
Lemma truncated_token_prefix (p r1 r2 : list ascii) :
  forallb plain (units p) = true -> (24 <= List.length p)%nat ->
  substring0 32 (strip_plus_slash_eq (btoa (p ++ r1))) =
  substring0 32 (strip_plus_slash_eq (btoa (p ++ r2))).
Proof.
  intros Hp Hlen.
  assert (Hsplit : forall r,
    substring0 32 (strip_plus_slash_eq (btoa (p ++ r))) =
    btoa_units (firstn 24 (units p))).
  { intros r. unfold btoa, substring0, units.
    rewrite map_app.
    rewrite <- (firstn_skipn 24 (map N_of_ascii p)) at 1.
    rewrite <- app_assoc.
    assert (L : List.length (firstn 24 (map N_of_ascii p)) = (3 * 8)%nat).
    { rewrite firstn_length_le; [reflexivity | now rewrite length_map]. }
    assert (P : forallb plain (firstn 24 (map N_of_ascii p)) = true).
    { unfold units in Hp.
      rewrite <- (firstn_skipn 24 (map N_of_ascii p)) in Hp.
      rewrite forallb_app in Hp. now apply andb_true_iff in Hp. }
    destruct (strip_btoa_plain_prefix 8 _
                (skipn 24 (map N_of_ascii p) ++ map N_of_ascii r) L P)
      as [E1 E2].
    rewrite E1.
    rewrite firstn_app, E2.
    change (32 - 4 * 8)%nat with 0%nat. rewrite firstn_O, app_nil_r.
    apply firstn_all2. rewrite E2. apply Nat.le_refl. }
  now rewrite !Hsplit.
Qed.

Lemma quote_unit_plain (c : ascii) :
  plain (N_of_ascii c) = true ->
  forallb plain (units (quote_unit c)) = true.
Proof.
  destruct c as [[] [] [] [] [] [] [] []]; vm_compute; intros H;
    first [reflexivity | discriminate H].
Qed.

Lemma quoted_units_plain (s : string) :
  plain_string s = true ->
  forallb plain (map N_of_ascii (flat_map quote_unit (chars s))) = true.
Proof.
  unfold plain_string, units. intros H.
  induction (chars s) as [|c l IH]; [reflexivity|].
  simpl in H. apply andb_true_iff in H. destruct H as [Hc Hl].
  simpl. rewrite map_app, forallb_app.
  pose proof (quote_unit_plain c Hc) as Q. unfold units in Q.
  rewrite Q. simpl. now apply IH.
Qed.

End JsFacts.

(* ================================================================== *)
(** * The token issuer *)
(* ================================================================== *)

Lemma token_json_split (v : string) (ts : Z) (ua sid n : string) :
  exists tail,
    token_json v ts ua sid n =
    ("{"%char :: Js.json_member "venture" (Js.json_string v)
       ++ ","%char :: Js.json_member "timestamp" []) ++ tail.
Proof.
  eexists. unfold token_json, Js.json_member.
  simpl. repeat rewrite <- app_assoc. simpl. reflexivity.
Qed.

Lemma token_of_depends_on_venture_only (v : string)
    (ts1 ts2 : Z) (ua1 ua2 sid1 sid2 n1 n2 : string) :
  Js.plain_string v = true ->
  token_of v ts1 ua1 sid1 n1 = token_of v ts2 ua2 sid2 n2.
Proof.
  intros Hv. unfold token_of.
  destruct (token_json_split v ts1 ua1 sid1 n1) as [t1 E1].
  destruct (token_json_split v ts2 ua2 sid2 n2) as [t2 E2].
  rewrite E1, E2. f_equal.
  apply JsFacts.truncated_token_prefix.
  - unfold Js.json_member. simpl.
    unfold Js.units. rewrite !map_app, !forallb_app.
    rewrite (JsFacts.quoted_units_plain v Hv). reflexivity.
  - unfold Js.json_member, Js.json_string. simpl.
    rewrite !length_app. simpl. lia.
Qed.

(** C1 (as the code behaves).  The token is the first 32 characters of the
    base64 text of the serialized record, and these cover only the venture
    member and the key of the timestamp: for a venture name of plain ASCII
    characters every call of [generateDownloadToken] returns the same token,
    whatever the clock, the random bytes, the user agent and the session. *)
Theorem C1_tokens_of_a_venture_coincide (s1 s2 : Store) (w1 w2 : World) :
  venture (this s1) = venture (this s2) ->
  Js.plain_string (venture (this s1)) = true ->
  has_crypto w1 = true -> has_crypto w2 = true ->
  exists token,
    completion (generateDownloadToken w1 s1) = Return token /\
    completion (generateDownloadToken w2 s2) = Return token.
Proof.
  intros Hv Hplain H1 H2.
  unfold generateDownloadToken, generateNonce, completion, bind, get, Date_now,
    emit, ret.
  rewrite H1, H2. simpl.
  eexists. split; [reflexivity|].
  f_equal. rewrite <- Hv.
  now apply token_of_depends_on_venture_only.
Qed.

(** Two attempts of one session, one second apart, with different random
    bytes: the nonces differ, the tokens do not. *)
Lemma C1_same_token_one_second_later :
  now Sample.at_noon <> now Sample.a_second_later /\
  completion (generateNonce Sample.online Sample.at_noon) <>
    completion (generateNonce Sample.other_bytes Sample.a_second_later) /\
  exists token,
    completion (generateDownloadToken Sample.online Sample.at_noon) = Return token /\
    completion (generateDownloadToken Sample.other_bytes Sample.a_second_later)
      = Return token.
Proof.
  split; [discriminate|].
  split; [discriminate|].
  apply (C1_tokens_of_a_venture_coincide
           Sample.at_noon Sample.a_second_later Sample.online Sample.other_bytes);
    reflexivity.
Defined.

(** The token of the sample venture: the base64 text of the first 24
    characters of the record, which end inside the name of the venture. *)
Example token_of_the_sample_venture :
  completion (generateDownloadToken Sample.online Sample.at_noon)
    = Return "eyJ2ZW50dXJlIjoiQWxwaGEgV29ya3Nw" /\
  Js.text (Js.btoa (firstn 24 (token_json "Alpha Workspace" 1730000000000
                                 EmptyString EmptyString EmptyString)))
    = "eyJ2ZW50dXJlIjoiQWxwaGEgV29ya3Nw".
Proof. split; vm_compute; reflexivity. Qed.

(* ================================================================== *)
(** * Running the scripts symbolically *)
(* ================================================================== *)

Arguments token_of : simpl never.
Arguments exn_message : simpl never.
Arguments getReferrer : simpl never.
Arguments Js.text : simpl never.
Arguments random_array : simpl never.

Ltac unfold_monad :=
  unfold completion, final, effects, try_catch, forget, await, bind, ret, throw,
    emit, get, put, Date_now, await_network, set_this, set_localStorage,
    set_download_count in *.

Ltac unfold_analytics :=
  unfold trackDownload, trackEngagement, trackEngagement_async, trackError,
    updateConversionMetrics, sendAnalytics, sendAnalytics_async,
    sendAnalytics_resumed, sendToCustomEndpoint, fetch_post,
    sendToGoogleAnalytics, sendToCloudflare in *.

Ltac unfold_manager :=
  unfold initiateDownload, passesSecurityChecks, checkRateLimit,
    generateDownloadToken, generateNonce, buildSecureDownloadUrl,
    startSecureDownload, verifyDownloadStart, fetch_head, updateRateLimit,
    updateDownloadUI, showSecurityBlockMessage, showRateLimitMessage,
    set_rateLimitCount, set_download_rate_limit in *.

Ltac run_scripts := unfold_manager; unfold_analytics; unfold_monad; simpl.

(** Closed statements about sample runs: each conjunct by evaluation. *)
Ltac by_evaluation :=
  repeat match goal with
         | |- _ /\ _ => split
         end;
  vm_compute; reflexivity.

Ltac unfold_flow :=
  unfold completion, final, effects,
    initiateDownload, passesSecurityChecks, checkRateLimit,
    generateDownloadToken, generateNonce, buildSecureDownloadUrl,
    startSecureDownload, verifyDownloadStart, fetch_head, updateRateLimit,
    updateDownloadUI, showSecurityBlockMessage, showRateLimitMessage,
    set_rateLimitCount, set_download_rate_limit,
    try_catch, bind, ret, throw, emit, get, put, Date_now, await_network,
    set_this, set_localStorage.

(* ================================================================== *)
(** * The dispatcher and the trackers, effect by effect *)
(* ================================================================== *)

(** The dispatcher, awaited: it never throws, lets the clock advance by the
    round trip of the POST and calls the sinks as [fan_out] says. *)
Lemma sendAnalytics_exact (w : World) (data : TelemetryEvent) (s : Store) :
  sendAnalytics w data s
    = (Return tt, with_now s (now s + dispatch_delay w), fan_out w data).
Proof.
  destruct s as [d st shown t0].
  unfold fan_out, endpoint_attempts, post_fails, configured, throws,
    dispatcher_warning, with_now, dispatch_delay.
  unfold_analytics. unfold_monad. simpl.
  destruct (cloudflare_hook w), (gtag_hook w), (has_fetch w),
    (post_analytics w), (sendBeacon_hook w); simpl;
    rewrite ?Z.add_0_r; reflexivity.
Qed.

(** Awaiting the dispatcher started as an async function is the dispatcher
    run in place. *)
Lemma await_sendAnalytics (w : World) (data : TelemetryEvent) (s : Store) :
  await (sendAnalytics_async w data) s = sendAnalytics w data s.
Proof.
  destruct s as [d st shown t0].
  unfold_analytics. unfold_monad. simpl.
  destruct (cloudflare_hook w), (gtag_hook w), (has_fetch w),
    (post_analytics w), (sendBeacon_hook w); reflexivity.
Qed.

Lemma await_trackEngagement (w : World) (action element : string)
    (value : JsValue) (s : Store) :
  await (trackEngagement_async w action element value) s
    = trackEngagement w action element value s.
Proof.
  destruct s as [d st shown t0].
  unfold_analytics. unfold_monad. simpl.
  destruct (cloudflare_hook w), (gtag_hook w), (has_fetch w),
    (post_analytics w), (sendBeacon_hook w); reflexivity.
Qed.

Lemma fan_out_split (w : World) (data : TelemetryEvent) :
  fan_out w data = fan_out_begun w data ++ fan_out_rest w data.
Proof. reflexivity. Qed.

(** A fan-out holds no dropped call of its own. *)
Lemma flatten_fan_out (w : World) (data : TelemetryEvent) :
  flatten (fan_out w data) = fan_out w data /\
  flatten (fan_out_rest w data) = fan_out_rest w data.
Proof.
  unfold fan_out, fan_out_rest, endpoint_attempts, post_fails, configured, throws,
    dispatcher_warning.
  destruct (cloudflare_hook w), (gtag_hook w), (has_fetch w),
    (post_analytics w), (sendBeacon_hook w); split; reflexivity.
Qed.

Lemma flatten_app (a b : list Effect) : flatten (a ++ b) = flatten a ++ flatten b.
Proof. apply flat_map_app. Qed.

(** Whether awaited or dropped, a fan-out has the same effects. *)
Lemma flatten_dropped_fan_out (w : World) (data : TelemetryEvent) :
  flatten (dropped_fan_out w data) = fan_out w data.
Proof.
  unfold dropped_fan_out. rewrite flatten_app, fan_out_split.
  f_equal.
  - unfold fan_out_begun. destruct (configured w Cloudflare); reflexivity.
  - unfold flatten at 1. simpl. rewrite app_nil_r.
    apply (proj2 (flatten_fan_out w data)).
Qed.

(** The dispatcher with its promise dropped: the Cloudflare hook is called
    in place, the caller does not wait, the rest happens later. *)
Lemma forget_sendAnalytics_exact (w : World) (data : TelemetryEvent) (s : Store) :
  forget (sendAnalytics_async w data) s = (Return tt, s, dropped_fan_out w data).
Proof.
  destruct s as [d st shown t0].
  unfold dropped_fan_out, fan_out_begun, fan_out_rest, endpoint_attempts,
    post_fails, configured, throws, dispatcher_warning.
  unfold_analytics. unfold_monad. simpl.
  destruct (cloudflare_hook w), (gtag_hook w), (has_fetch w),
    (post_analytics w), (sendBeacon_hook w); reflexivity.
Qed.

Lemma trackDownload_exact (w : World) (url source : string) (s : Store) :
  trackDownload w url source s
    = (Return tt,
       {| this := this s;
          localStorage :=
            {| download_rate_limit := download_rate_limit (localStorage s);
               venture_conversions :=
                 venture_conversions (localStorage s) ++ [conversion_of w s] |};
          download_count := option_map Bumped (download_count s);
          now := now s + dispatch_delay w |},
       fan_out w (download_started_event (analytics (this s)) w url source (now s))).
Proof.
  unfold trackDownload, updateConversionMetrics, conversion_of,
    download_started_event.
  unfold bind at 1. unfold get at 1. unfold bind at 1. unfold Date_now at 1.
  unfold bind at 1. rewrite sendAnalytics_exact.
  destruct s as [d st shown t0]. unfold_monad. simpl.
  destruct shown; simpl; rewrite app_nil_r; reflexivity.
Qed.

Lemma trackEngagement_dropped_exact (w : World) (action element : string)
    (value : JsValue) (s : Store) :
  forget (trackEngagement_async w action element value) s
    = (Return tt, s,
       dropped_fan_out w
         (engagement_event (analytics (this s)) action element value (now s))).
Proof.
  destruct s as [d st shown t0].
  unfold dropped_fan_out, fan_out_begun, fan_out_rest, endpoint_attempts,
    post_fails, configured, throws, dispatcher_warning, engagement_event.
  unfold_analytics. unfold_monad. simpl.
  destruct (cloudflare_hook w), (gtag_hook w), (has_fetch w),
    (post_analytics w), (sendBeacon_hook w); reflexivity.
Qed.

Lemma trackError_exact (w : World) (err : Exn) (context : string) (s : Store) :
  trackError w err context s
    = (Return tt, s,
       dropped_fan_out w (error_event (analytics (this s)) w err context (now s))).
Proof.
  unfold trackError, error_event.
  unfold bind, get, Date_now. rewrite forget_sendAnalytics_exact.
  reflexivity.
Qed.

(* ================================================================== *)
(** * An attempt, effect by effect *)
(* ================================================================== *)

Lemma attempt_rate_limited (w : World) (source : string) (s : Store) :
  (botScore (this s) >? 50) = false ->
  has_fetch w = true -> has_Promise w = true -> honeypot_tripped w = false ->
  (rateLimitCount (this s) <? maxDownloadsPerWindow (this s)) = false ->
  initiateDownload w source s = (Return false, s, [rate_limit_advisory]).
Proof.
  intros Hbot Hfetch Hprom Hhoney Hcount.
  unfold honeypot_tripped in *.
  destruct s as [d st shown t]. simpl in *.
  unfold_flow. simpl.
  rewrite Hbot, Hfetch, Hprom. simpl.
  destruct (honeypot w) as [v|]; [rewrite Hhoney|]; simpl;
    rewrite Hcount; reflexivity.
Qed.

(** The three ways the security gate closes, in the order the code tests
    them. *)
Lemma attempt_gate_blocked (w : World) (source : string) (s : Store) :
  initiateDownload w source s =
    if botScore (this s) >? 50 then
      (Return false, s, [ConsoleWarn "High bot score detected:"; security_advisory])
    else if negb (has_fetch w) || negb (has_Promise w) then
      (Return false, s,
       [ConsoleWarn "Unsupported browser environment"; security_advisory])
    else if honeypot_tripped w then
      (Return false, s, [ConsoleWarn "Honeypot triggered"; security_advisory])
    else initiateDownload w source s.
Proof.
  unfold honeypot_tripped.
  destruct (botScore (this s) >? 50) eqn:Hbot;
    [| destruct (negb (has_fetch w) || negb (has_Promise w)) eqn:Henv;
       [| destruct (honeypot w) as [v|] eqn:Hh;
          [destruct (negb (String.eqb v EmptyString)) eqn:Hv|] ] ];
    try reflexivity;
    destruct s as [d st shown t]; simpl in *;
    unfold_flow; simpl; rewrite Hbot; try rewrite Henv; try rewrite Hh;
    try rewrite Hv; reflexivity.
Qed.

(** The attempt that passed both gates. *)
Lemma attempt_admitted_exact (w : World) (source : string) (s : Store) :
  (botScore (this s) >? 50) = false ->
  has_fetch w = true -> has_Promise w = true -> honeypot_tripped w = false ->
  (rateLimitCount (this s) <? maxDownloadsPerWindow (this s)) = true ->
  initiateDownload w source s =
    if has_crypto w then
      (Return (verified w), admitted_store w s, admitted_trace w source s)
    else (Return false, s, no_crypto_trace w s).
Proof.
  intros Hbot Hfetch Hprom Hhoney Hcount.
  unfold honeypot_tripped in Hhoney.
  unfold admitted_store, admitted_trace, no_crypto_trace, secure_url_of,
    probe_error, verified.
  destruct s as [d st shown t]. simpl in *.
  unfold_flow. simpl.
  rewrite Hbot, Hfetch, Hprom. simpl.
  destruct (honeypot w) as [v|]; [rewrite Hhoney|]; simpl;
    rewrite Hcount; simpl;
    (destruct (has_crypto w); simpl;
     [ rewrite trackDownload_exact; simpl;
       destruct (head_probe w) as [[|] status|]; simpl;
       rewrite ?trackEngagement_dropped_exact, ?trackError_exact; simpl;
       rewrite ?trackError_exact; simpl;
       repeat rewrite <- app_assoc; simpl; rewrite ?app_nil_r;
       reflexivity
     | rewrite trackError_exact; simpl; reflexivity ]).
Qed.

(** Every attempt, by verdict. *)
Lemma initiateDownload_exact (w : World) (source : string) (s : Store) :
  initiateDownload w source s =
    match verdict w s with
    | GateBlocked =>
        (Return false, s, [ConsoleWarn (gate_warning w s); security_advisory])
    | RateLimited => (Return false, s, [rate_limit_advisory])
    | Succeeded => (Return true, admitted_store w s, admitted_trace w source s)
    | Failed =>
        if has_crypto w
        then (Return false, admitted_store w s, admitted_trace w source s)
        else (Return false, s, no_crypto_trace w s)
    end.
Proof.
  unfold verdict, gate_warning.
  destruct (botScore (this s) >? 50) eqn:Hbot;
    [| destruct (negb (has_fetch w) || negb (has_Promise w)) eqn:Henv;
       [| destruct (honeypot_tripped w) eqn:Hhoney ] ].
  1-3: rewrite attempt_gate_blocked; rewrite Hbot; try rewrite Henv;
    try rewrite Hhoney; reflexivity.
  apply orb_false_iff in Henv. destruct Henv as [Hfetch Hprom].
  apply negb_false_iff in Hfetch, Hprom.
  destruct (rateLimitCount (this s) <? maxDownloadsPerWindow (this s)) eqn:Hcount;
    simpl.
  2: { apply attempt_rate_limited; assumption. }
  rewrite (attempt_admitted_exact w source s Hbot Hfetch Hprom Hhoney Hcount).
  destruct (has_crypto w); simpl; [|reflexivity].
  destruct (verified w); reflexivity.
Qed.

Lemma verdict_succeeded (w : World) (s : Store) :
  verdict w s = Succeeded -> has_crypto w = true /\ verified w = true.
Proof.
  unfold verdict.
  destruct (botScore (this s) >? 50); [discriminate|].
  destruct (negb (has_fetch w) || negb (has_Promise w)); [discriminate|].
  destruct (honeypot_tripped w); [discriminate|].
  destruct (negb (rateLimitCount (this s) <? maxDownloadsPerWindow (this s)));
    [discriminate|].
  destruct (has_crypto w); simpl; [|discriminate].
  destruct (verified w); [now split | discriminate].
Qed.

Lemma verdict_failed (w : World) (s : Store) :
  verdict w s = Failed -> has_crypto w = true -> verified w = false.
Proof.
  unfold verdict.
  destruct (botScore (this s) >? 50); [discriminate|].
  destruct (negb (has_fetch w) || negb (has_Promise w)); [discriminate|].
  destruct (honeypot_tripped w); [discriminate|].
  destruct (negb (rateLimitCount (this s) <? maxDownloadsPerWindow (this s)));
    [discriminate|].
  intros V Hc. rewrite Hc in V. simpl in V.
  destruct (verified w); [discriminate | reflexivity].
Qed.

(** The verdict of an attempt whose gates are open. *)
Lemma verdict_open (w : World) (s : Store) :
  (botScore (this s) >? 50) = false ->
  has_fetch w = true -> has_Promise w = true -> honeypot_tripped w = false ->
  verdict w s =
    if rateLimitCount (this s) <? maxDownloadsPerWindow (this s)
    then if has_crypto w && verified w then Succeeded else Failed
    else RateLimited.
Proof.
  intros Hbot Hf Hp Hh. unfold verdict. rewrite Hbot, Hf, Hp, Hh. simpl.
  destruct (rateLimitCount (this s) <? maxDownloadsPerWindow (this s)); simpl;
    [|reflexivity].
  destruct (has_crypto w); simpl; [|reflexivity].
  destruct (verified w); reflexivity.
Qed.

(** What an attempt returns and what it does to the manager, by verdict. *)
Lemma initiateDownload_by_verdict (w : World) (source : string) (s : Store) :
  completion (initiateDownload w source s)
    = Return (match verdict w s with Succeeded => true | _ => false end) /\
  this (final (initiateDownload w source s))
    = match verdict w s with
      | Succeeded => with_rateLimitCount (this s) (rateLimitCount (this s) + 1)
      | _ => this s
      end.
Proof.
  rewrite initiateDownload_exact.
  destruct (verdict w s) eqn:V; unfold completion, final; simpl.
  - now split.
  - now split.
  - destruct (has_crypto w) eqn:Hc; simpl; [|now split].
    unfold admitted_store. rewrite (verdict_failed w s V Hc). now split.
  - destruct (verdict_succeeded w s V) as [_ Hv].
    unfold admitted_store. rewrite Hv. now split.
Qed.


(* ================================================================== *)
(** * Projections of the trace of an attempt *)
(* ================================================================== *)

Lemma ui_states_app (a b : list Effect) :
  ui_states (a ++ b) = ui_states a ++ ui_states b.
Proof. unfold ui_states. rewrite flatten_app. apply flat_map_app. Qed.

Lemma links_clicked_app (a b : list Effect) :
  links_clicked (a ++ b) = links_clicked a ++ links_clicked b.
Proof. unfold links_clicked. rewrite flatten_app. apply flat_map_app. Qed.

Lemma probes_app (a b : list Effect) : probes (a ++ b) = probes a ++ probes b.
Proof. unfold probes. rewrite flatten_app. apply flat_map_app. Qed.

Lemma advisories_app (a b : list Effect) :
  advisories (a ++ b) = advisories a ++ advisories b.
Proof. unfold advisories. rewrite flatten_app. apply filter_app. Qed.

Lemma deliveries_to_app (k : Sink) (a b : list Effect) :
  deliveries_to k (a ++ b) = deliveries_to k a ++ deliveries_to k b.
Proof. unfold deliveries_to. rewrite flatten_app. apply flat_map_app. Qed.

Lemma delivered_app (a b : list Effect) :
  delivered (a ++ b) = delivered a ++ delivered b.
Proof. unfold delivered. rewrite flatten_app. apply flat_map_app. Qed.

Lemma download_steps_app (a b : list Effect) :
  download_steps (a ++ b) = download_steps a ++ download_steps b.
Proof. apply filter_app. Qed.

Lemma deliveries_in_order_app (k : Sink) (a b : list Effect) :
  deliveries_in_order k (a ++ b)
    = deliveries_in_order k a ++ deliveries_in_order k b.
Proof. apply flat_map_app. Qed.

Lemma fan_out_projections (w : World) (data : TelemetryEvent) :
  ui_states (fan_out w data) = [] /\
  links_clicked (fan_out w data) = [] /\
  probes (fan_out w data) = [] /\
  advisories (fan_out w data) = [] /\
  download_steps (fan_out w data) = [] /\
  (forall k, deliveries_to k (fan_out w data) = if reached w k then [data] else []) /\
  (forall k, deliveries_in_order k (fan_out w data)
             = if reached w k then [data] else []).
Proof.
  unfold fan_out, endpoint_attempts, reached, post_fails, configured, throws,
    dispatcher_warning.
  destruct (cloudflare_hook w), (gtag_hook w), (has_fetch w),
    (post_analytics w), (sendBeacon_hook w); simpl;
    (repeat split; try reflexivity; intros []; reflexivity).
Qed.

(** The projections that look into dropped calls do not tell a dropped
    fan-out from an awaited one; the run itself calls the Cloudflare hook
    only. *)
Lemma dropped_fan_out_projections (w : World) (data : TelemetryEvent) :
  ui_states (dropped_fan_out w data) = [] /\
  links_clicked (dropped_fan_out w data) = [] /\
  probes (dropped_fan_out w data) = [] /\
  advisories (dropped_fan_out w data) = [] /\
  download_steps (dropped_fan_out w data) = [] /\
  (forall k, deliveries_to k (dropped_fan_out w data)
             = if reached w k then [data] else []) /\
  (forall k, deliveries_in_order k (dropped_fan_out w data)
             = match k with
               | Cloudflare => if configured w Cloudflare then [data] else []
               | _ => []
               end).
Proof.
  destruct (fan_out_projections w data) as (U & L & P & A & _ & D & _).
  unfold ui_states, links_clicked, probes, advisories, deliveries_to in *.
  rewrite flatten_dropped_fan_out.
  rewrite (proj1 (flatten_fan_out w data)) in U, L, P, A, D.
  repeat split; try assumption.
  - unfold dropped_fan_out, fan_out_begun.
    destruct (configured w Cloudflare); reflexivity.
  - intros k. unfold dropped_fan_out, fan_out_begun.
    destruct (configured w Cloudflare), k; reflexivity.
Qed.

Ltac project_trace :=
  unfold admitted_trace, no_crypto_trace;
  repeat rewrite ?ui_states_app, ?links_clicked_app, ?probes_app,
    ?advisories_app, ?deliveries_to_app, ?delivered_app, ?download_steps_app,
    ?deliveries_in_order_app;
  repeat match goal with
         | |- context [ui_states (fan_out ?w ?d)] =>
             rewrite (proj1 (fan_out_projections w d))
         | |- context [links_clicked (fan_out ?w ?d)] =>
             rewrite (proj1 (proj2 (fan_out_projections w d)))
         | |- context [probes (fan_out ?w ?d)] =>
             rewrite (proj1 (proj2 (proj2 (fan_out_projections w d))))
         | |- context [advisories (fan_out ?w ?d)] =>
             rewrite (proj1 (proj2 (proj2 (proj2 (fan_out_projections w d)))))
         | |- context [download_steps (fan_out ?w ?d)] =>
             rewrite (proj1 (proj2 (proj2 (proj2 (proj2 (fan_out_projections w d))))))
         | |- context [deliveries_to ?k (fan_out ?w ?d)] =>
             rewrite (proj1 (proj2 (proj2 (proj2 (proj2 (proj2
                        (fan_out_projections w d)))))) k)
         | |- context [deliveries_in_order ?k (fan_out ?w ?d)] =>
             rewrite (proj2 (proj2 (proj2 (proj2 (proj2 (proj2
                        (fan_out_projections w d)))))) k)
         | |- context [ui_states (dropped_fan_out ?w ?d)] =>
             rewrite (proj1 (dropped_fan_out_projections w d))
         | |- context [links_clicked (dropped_fan_out ?w ?d)] =>
             rewrite (proj1 (proj2 (dropped_fan_out_projections w d)))
         | |- context [probes (dropped_fan_out ?w ?d)] =>
             rewrite (proj1 (proj2 (proj2 (dropped_fan_out_projections w d))))
         | |- context [advisories (dropped_fan_out ?w ?d)] =>
             rewrite (proj1 (proj2 (proj2 (proj2 (dropped_fan_out_projections w d)))))
         | |- context [download_steps (dropped_fan_out ?w ?d)] =>
             rewrite (proj1 (proj2 (proj2 (proj2 (proj2
                        (dropped_fan_out_projections w d))))))
         | |- context [deliveries_to ?k (dropped_fan_out ?w ?d)] =>
             rewrite (proj1 (proj2 (proj2 (proj2 (proj2 (proj2
                        (dropped_fan_out_projections w d)))))) k)
         | |- context [deliveries_in_order ?k (dropped_fan_out ?w ?d)] =>
             rewrite (proj2 (proj2 (proj2 (proj2 (proj2 (proj2
                        (dropped_fan_out_projections w d)))))) k)
         end.

Lemma attempt_ui_states (w : World) (source : string) (s : Store) :
  ui_states (effects (initiateDownload w source s)) =
    match verdict w s with
    | GateBlocked | RateLimited => []
    | Succeeded => [preparing; success]
    | Failed => [preparing; error]
    end.
Proof.
  rewrite initiateDownload_exact. unfold effects.
  destruct (verdict w s) eqn:V; try reflexivity.
  - destruct (has_crypto w) eqn:Hc; simpl snd.
    + unfold admitted_trace. rewrite (verdict_failed w s V Hc).
      project_trace. reflexivity.
    + project_trace. reflexivity.
  - destruct (verdict_succeeded w s V) as [_ Hv]. simpl snd.
    unfold admitted_trace. rewrite Hv. project_trace. reflexivity.
Qed.

Lemma initiateDownload_started (w : World) (source : string) (s : Store) :
  download_started w s = true ->
  initiateDownload w source s
    = (Return (verified w), admitted_store w s, admitted_trace w source s).
Proof.
  unfold download_started. intros H. rewrite initiateDownload_exact.
  destruct (verdict w s) eqn:V; try discriminate H.
  - rewrite H. now rewrite (verdict_failed w s V H).
  - destruct (verdict_succeeded w s V) as [_ Hv]. now rewrite Hv.
Qed.

Lemma initiateDownload_not_started (w : World) (source : string) (s : Store) :
  download_started w s = false ->
  final (initiateDownload w source s) = s /\
  links_clicked (effects (initiateDownload w source s)) = [] /\
  probes (effects (initiateDownload w source s)) = [] /\
  download_steps (effects (initiateDownload w source s)) = [] /\
  forall k, deliveries_to k (effects (initiateDownload w source s))
            = match verdict w s with
              | Failed =>
                  if reached w k
                  then [error_event (analytics (this s)) w (ReferenceError "crypto")
                          "download_manager" (now s)]
                  else []
              | _ => []
              end.
Proof.
  unfold download_started. intros H. rewrite initiateDownload_exact.
  destruct (verdict w s) eqn:V; try discriminate H; unfold final, effects; simpl.
  - repeat split.
  - repeat split.
  - rewrite H. simpl. repeat split; try (project_trace; reflexivity).
    intros k. project_trace. simpl. now rewrite app_nil_r.
Qed.

(** The steps of the download in an attempt that started it. *)
Lemma admitted_trace_steps (w : World) (source : string) (s : Store) :
  download_steps (admitted_trace w source s)
    = [LinkClicked (secure_url_of w s); HeadRequest (secure_url_of w s)] /\
  links_clicked (admitted_trace w source s) = [secure_url_of w s] /\
  probes (admitted_trace w source s) = [secure_url_of w s].
Proof.
  unfold admitted_trace.
  destruct (verified w); project_trace; repeat split.
Qed.

(* ================================================================== *)
(** * The security gate *)
(* ================================================================== *)

(** The trace of a blocked attempt holds a console warning and an advisory,
    nothing of the download flow and no telemetry. *)
Lemma advisory_only (msg : string) (advisory : Effect) :
  advisory = security_advisory \/ advisory = rate_limit_advisory ->
  ~ entered_preparing [ConsoleWarn msg; advisory] /\
  ~ issued_token [ConsoleWarn msg; advisory] /\
  ~ started_download [ConsoleWarn msg; advisory] /\
  ~ emitted_telemetry [ConsoleWarn msg; advisory].
Proof.
  unfold entered_preparing, issued_token, started_download, emitted_telemetry,
    occurs.
  intros [-> | ->]; simpl; repeat split;
    try (intros [E|[E|[]]]; discriminate E);
    try (intros [url [E|[E|[]]]]; discriminate E);
    intros (k & e & [E|[E|[]]]); discriminate E.
Qed.

(** C2 (amended).  A bot score strictly above 50 blocks the attempt before
    anything else is looked at: false is returned, the only effects are the
    console warning and the security advisory, the preparing state is not
    entered, no token is minted, no download starts, and the store (the
    persisted window and its in-memory count included) is left as it was,
    whatever the rate limiter holds. *)
Theorem C2_score_above_50_blocks (w : World) (source : string) (s : Store) :
  50 < botScore (this s) ->
  blocked_by_gate w source s /\
  effects (initiateDownload w source s) =
    [ConsoleWarn "High bot score detected:"; security_advisory] /\
  final (initiateDownload w source s) = s.
Proof.
  intros H. apply Z.gtb_lt in H.
  unfold blocked_by_gate. cbv zeta.
  rewrite attempt_gate_blocked, H.
  unfold completion, final, effects, window_of. simpl fst. simpl snd.
  destruct (advisory_only "High bot score detected:" security_advisory)
    as (A & B & C & _); [now left|].
  repeat split; assumption.
Qed.

(** C2, an instance: the headless visitor of score 65 is blocked. *)
Lemma C2_headless_visitor_is_blocked :
  blocked_by_gate Sample.online "primary_cta" Sample.fresh65 /\
  effects (initiateDownload Sample.online "primary_cta" Sample.fresh65) =
    [ConsoleWarn "High bot score detected:"; security_advisory] /\
  final (initiateDownload Sample.online "primary_cta" Sample.fresh65) = Sample.fresh65.
Proof.
  apply (C2_score_above_50_blocks Sample.online "primary_cta" Sample.fresh65).
  reflexivity.
Defined.

(** C2 as stated fails at the threshold itself: a visitor whose score is
    exactly 50 (navigator.webdriver and window.phantom set) is not blocked;
    the attempt succeeds and the window is written. *)
Lemma C2_score_of_50_is_admitted :
  50 <= botScore (this Sample.fresh50) /\
  ~ blocked_by_gate Sample.online "primary_cta" Sample.fresh50 /\
  completion (initiateDownload Sample.online "primary_cta" Sample.fresh50)
    = Return true /\
  window_of (final (initiateDownload Sample.online "primary_cta" Sample.fresh50))
    = (Some {| count := 1; windowStart := 80 |}, 1).
Proof.
  split; [vm_compute; discriminate|].
  split; [|split; reflexivity].
  intros [H _]. vm_compute in H. discriminate H.
Qed.

(** C7 as stated fails: with fetch missing and a score of 65 the bot score
    gate answers first and the environment is never reported. *)
Lemma C7_bot_score_is_checked_before_the_environment :
  has_fetch Sample.no_fetch = false /\
  effects (initiateDownload Sample.no_fetch "primary_cta" Sample.fresh65) =
    [ConsoleWarn "High bot score detected:"; security_advisory] /\
  ~ In (ConsoleWarn "Unsupported browser environment")
       (effects (initiateDownload Sample.no_fetch "primary_cta" Sample.fresh65)).
Proof.
  split; [reflexivity|]. split; [reflexivity|].
  vm_compute. intros [H|[H|[]]]; discriminate H.
Qed.

(** C7 (amended).  With fetch or Promise missing the attempt never starts:
    false is returned, nothing is written, and the only effects are a
    console warning and the security advisory.  The bot score is looked at
    first (above 50 it is the one reported); otherwise the environment is
    reported, before the honeypot and the rate limit are looked at, whatever
    they hold.  The stand-alone [validateDownloadEnvironment] answers false
    in such an environment. *)
Theorem C7_unsupported_environment_never_starts
    (w : World) (source : string) (s : Store) :
  has_fetch w = false \/ has_Promise w = false ->
  blocked_by_gate w source s /\
  final (initiateDownload w source s) = s /\
  effects (initiateDownload w source s) =
    [ConsoleWarn (if botScore (this s) >? 50
                  then "High bot score detected:"
                  else "Unsupported browser environment");
     security_advisory] /\
  (forall g, g_fetch g = has_fetch w -> g_promise g = has_Promise w ->
             fst (validateDownloadEnvironment g) = false).
Proof.
  intros Henv.
  assert (E : negb (has_fetch w) || negb (has_Promise w) = true).
  { destruct Henv as [H|H]; rewrite H; simpl; [reflexivity | apply orb_true_r]. }
  assert (X : initiateDownload w source s =
    (Return false, s,
     [ConsoleWarn (if botScore (this s) >? 50
                   then "High bot score detected:"
                   else "Unsupported browser environment");
      security_advisory])).
  { rewrite attempt_gate_blocked. rewrite E.
    destruct (botScore (this s) >? 50); reflexivity. }
  unfold blocked_by_gate. cbv zeta.
  rewrite X. unfold completion, final, effects, window_of. simpl fst. simpl snd.
  match goal with
  | |- context [ConsoleWarn ?m] =>
      destruct (advisory_only m security_advisory) as (A & B & C & _); [now left|]
  end.
  repeat split; try assumption.
  intros g Hf Hp. unfold validateDownloadEnvironment, checks.
  destruct Henv as [H|H]; rewrite H in *.
  - rewrite Hf. simpl. reflexivity.
  - rewrite Hp. destruct (g_fetch g); simpl; reflexivity.
Qed.

(** C7, an instance: no fetch, an ordinary score, a filled honeypot and a
    full window; only the environment is reported. *)
Lemma C7_no_fetch_is_reported_before_honeypot_and_limit :
  blocked_by_gate Sample.no_fetch_filled "primary_cta" Sample.full10 /\
  final (initiateDownload Sample.no_fetch_filled "primary_cta" Sample.full10)
    = Sample.full10 /\
  effects (initiateDownload Sample.no_fetch_filled "primary_cta" Sample.full10) =
    [ConsoleWarn (if botScore (this Sample.full10) >? 50
                  then "High bot score detected:"
                  else "Unsupported browser environment");
     security_advisory] /\
  (forall g, g_fetch g = has_fetch Sample.no_fetch_filled ->
             g_promise g = has_Promise Sample.no_fetch_filled ->
             fst (validateDownloadEnvironment g) = false).
Proof.
  apply (C7_unsupported_environment_never_starts
           Sample.no_fetch_filled "primary_cta" Sample.full10).
  left. reflexivity.
Defined.

(** C6 (as the code behaves).  An attempt stopped by the security gate (bot
    score above the threshold or a filled honeypot field) shows the advisory
    and nothing else: no sink is called, so no security event (nor any other
    event) is emitted. *)
Theorem C6_blocked_attempt_emits_no_event (w : World) (source : string) (s : Store) :
  50 < botScore (this s) \/ honeypot_tripped w = true ->
  completion (initiateDownload w source s) = Return false /\
  In security_advisory (effects (initiateDownload w source s)) /\
  ~ emitted_telemetry (effects (initiateDownload w source s)).
Proof.
  intros H. rewrite attempt_gate_blocked.
  destruct (botScore (this s) >? 50) eqn:Hbot;
    [| destruct (negb (has_fetch w) || negb (has_Promise w));
       [| destruct H as [H|H]; [apply Z.gtb_lt in H; congruence | rewrite H] ] ];
    unfold completion, effects; simpl fst; simpl snd;
    (split; [reflexivity|]); (split; [right; left; reflexivity|]);
    match goal with
    | |- context [ConsoleWarn ?m] =>
        apply (advisory_only m security_advisory); now left
    end.
Qed.

(** C6, an instance: the headless visitor of score 65, with every sink
    configured and working. *)
Lemma C6_headless_visitor_leaves_no_event :
  completion (initiateDownload Sample.all_sinks "primary_cta" Sample.fresh65)
    = Return false /\
  In security_advisory
     (effects (initiateDownload Sample.all_sinks "primary_cta" Sample.fresh65)) /\
  ~ emitted_telemetry
      (effects (initiateDownload Sample.all_sinks "primary_cta" Sample.fresh65)).
Proof.
  apply (C6_blocked_attempt_emits_no_event
           Sample.all_sinks "primary_cta" Sample.fresh65).
  left. reflexivity.
Defined.

(** The reporter itself works when it is called: it sends an event of kind
    security_event carrying the bot score to every sink (the Cloudflare hook
    at once, the others after the first await of the dispatcher); no path of
    [initiateDownload] calls it. *)
Example reportSecurityEvent_when_called :
  map (fun e => match e with
                | Deliver k ev => (Some k, event ev, ev_fields ev)
                | _ => (None, EmptyString, [])
                end)
      (flatten (effects (reportSecurityEvent Sample.all_sinks "bot_detected" "score"
                           Sample.fresh65)))
  = let fields :=
      [("securityEvent", JStr "bot_detected"); ("details", JStr "score");
       ("botScore", JNum 65); ("userAgent", JStr "Mozilla/5.0 (Windows NT 10.0)")] in
    [ (Some Cloudflare, "security_event", fields);
      (Some GoogleAnalytics, "security_event", fields);
      (Some CustomEndpoint, "security_event", fields) ].
Proof. reflexivity. Qed.

(* ================================================================== *)
(** * The rate limiter *)
(* ================================================================== *)

(** C5 as stated fails: recording an attempt moves the window start.  A
    window opened at second 1 holds one download; the second download,
    recorded at second 5, stores second 5 as the window start. *)
Lemma C5_recording_moves_the_window_start :
  download_rate_limit (localStorage Sample.once10)
    = Some {| count := 1; windowStart := 1000 |} /\
  download_rate_limit (localStorage (final (updateRateLimit Sample.once10)))
    = Some {| count := 2; windowStart := 5000 |}.
Proof. split; reflexivity. Qed.

(** C5 (amended).  [updateRateLimit] never throws and has no other effect
    than this: the in-memory count goes up by exactly one and the pair of the
    new count and the current time is persisted, so the window start is
    overwritten by every recorded attempt.  Nothing else of the store
    changes, and the persisted count goes up by exactly one whenever it
    agreed with the in-memory count. *)
Theorem C5_recording_an_attempt (s : Store) :
  completion (updateRateLimit s) = Return tt /\
  effects (updateRateLimit s) = [] /\
  this (final (updateRateLimit s))
    = with_rateLimitCount (this s) (rateLimitCount (this s) + 1) /\
  download_rate_limit (localStorage (final (updateRateLimit s)))
    = Some {| count := rateLimitCount (this s) + 1; windowStart := now s |} /\
  venture_conversions (localStorage (final (updateRateLimit s)))
    = venture_conversions (localStorage s) /\
  download_count (final (updateRateLimit s)) = download_count s /\
  now (final (updateRateLimit s)) = now s /\
  (forall d, download_rate_limit (localStorage s) = Some d ->
             count d = rateLimitCount (this s) ->
             download_rate_limit (localStorage (final (updateRateLimit s)))
               = Some {| count := count d + 1; windowStart := now s |}).
Proof.
  destruct s as [d st shown t].
  unfold updateRateLimit, set_rateLimitCount, set_download_rate_limit.
  unfold_monad. simpl.
  repeat split. intros d0 _ E. now rewrite E.
Qed.

(* ================================================================== *)
(** * The telemetry dispatcher *)
(* ================================================================== *)

(** C8 as stated fails: with all three sinks configured, a Cloudflare hook
    that throws keeps the event from Google Analytics and from the
    first-party endpoint. *)
Lemma C8_throwing_hook_silences_later_sinks :
  configured Sample.cloudflare_throws GoogleAnalytics = true /\
  configured Sample.cloudflare_throws CustomEndpoint = true /\
  effects (sendAnalytics Sample.cloudflare_throws Sample.page_view Sample.fresh10)
    = [Deliver Cloudflare Sample.page_view; dispatcher_warning].
Proof. repeat split. Qed.

(** The fan-out, sink by sink. *)
Lemma sendAnalytics_fan_out (w : World) (data : TelemetryEvent) (s : Store) :
  completion (sendAnalytics w data s) = Return tt /\
  (exists t, final (sendAnalytics w data s) = with_now s t) /\
  effects (sendAnalytics w data s) = fan_out w data.
Proof.
  rewrite sendAnalytics_exact. unfold completion, final, effects. simpl.
  split; [reflexivity|]. split; [eexists; reflexivity | reflexivity].
Qed.

(** Which sinks are called, and when the dispatcher logs. *)
Lemma sendAnalytics_deliveries (w : World) (data : TelemetryEvent) (s : Store) :
  (In (Deliver Cloudflare data) (effects (sendAnalytics w data s)) <->
     configured w Cloudflare = true) /\
  (In (Deliver GoogleAnalytics data) (effects (sendAnalytics w data s)) <->
     configured w GoogleAnalytics = true /\ throws (cloudflare_hook w) = false) /\
  (In (Deliver CustomEndpoint data) (effects (sendAnalytics w data s)) <->
     configured w CustomEndpoint = true /\ throws (cloudflare_hook w) = false /\
     throws (gtag_hook w) = false) /\
  (In dispatcher_warning (effects (sendAnalytics w data s)) <->
     throws (cloudflare_hook w) = true \/ throws (gtag_hook w) = true \/
     (post_fails w = true /\ throws (sendBeacon_hook w) = true)).
Proof.
  destruct s as [d st shown t0].
  unfold post_fails, configured, throws, dispatcher_warning.
  unfold_analytics. unfold_monad. simpl.
  destruct (cloudflare_hook w), (gtag_hook w), (has_fetch w),
    (post_analytics w), (sendBeacon_hook w); simpl;
    repeat split; intros; intuition (try discriminate; try congruence).
Qed.

(** C8 (amended).  [sendAnalytics] never throws, whatever the sinks do, and
    changes nothing but the clock.  It calls the sinks one after another
    (Cloudflare, Google Analytics, first-party endpoint) inside one try
    block; a hook that throws is caught and logged once, and ends the
    fan-out: the sinks before it have been called, the sinks after it are
    not.  So the Cloudflare mirror is called whenever it is configured,
    Google Analytics when moreover Cloudflare did not throw, and the
    endpoint when moreover Google Analytics did not throw.  A failing POST
    is caught by the endpoint sender without a log and answered by the
    beacon; the dispatcher logs when a hook or sendBeacon throws. *)
Theorem C8_dispatcher_absorbs_failures_in_order
    (w : World) (data : TelemetryEvent) (s : Store) :
  completion (sendAnalytics w data s) = Return tt /\
  (exists t, final (sendAnalytics w data s) = with_now s t) /\
  effects (sendAnalytics w data s) = fan_out w data /\
  (In (Deliver Cloudflare data) (effects (sendAnalytics w data s)) <->
     configured w Cloudflare = true) /\
  (In (Deliver GoogleAnalytics data) (effects (sendAnalytics w data s)) <->
     configured w GoogleAnalytics = true /\ throws (cloudflare_hook w) = false) /\
  (In (Deliver CustomEndpoint data) (effects (sendAnalytics w data s)) <->
     configured w CustomEndpoint = true /\ throws (cloudflare_hook w) = false /\
     throws (gtag_hook w) = false) /\
  (In dispatcher_warning (effects (sendAnalytics w data s)) <->
     throws (cloudflare_hook w) = true \/ throws (gtag_hook w) = true \/
     (post_fails w = true /\ throws (sendBeacon_hook w) = true)).
Proof.
  destruct (sendAnalytics_fan_out w data s) as (H1 & H2 & H3).
  split; [exact H1|]. split; [exact H2|]. split; [exact H3|].
  apply sendAnalytics_deliveries.
Qed.

(** The endpoint sender, sink by sink. *)
Lemma sendToCustomEndpoint_attempts (w : World) (data : TelemetryEvent) (s : Store) :
  effects (sendToCustomEndpoint w data s) = endpoint_attempts w data.
Proof.
  destruct s as [d st shown t0].
  unfold endpoint_attempts, post_fails, configured.
  unfold_analytics. unfold_monad. simpl.
  destruct (has_fetch w), (post_analytics w), (sendBeacon_hook w); reflexivity.
Qed.

(** The endpoint alone rejects: the POST is attempted, then the beacon with
    the same event, and nothing is logged. *)
Example rejected_post_falls_back_to_beacon :
  effects (sendAnalytics Sample.endpoint_rejects Sample.page_view Sample.fresh10)
  = [Deliver CustomEndpoint Sample.page_view; Deliver Beacon Sample.page_view].
Proof. reflexivity. Qed.

(* ================================================================== *)
(** * The window within a session *)
(* ================================================================== *)

Lemma initRateLimiting_spec (s : Store) :
  completion (initRateLimiting s) = Return tt /\
  effects (initRateLimiting s) = [] /\
  match download_rate_limit (localStorage s) with
  | Some d =>
      if now s - windowStart d >? rateLimitWindow (this s) then
        window_of (final (initRateLimiting s))
          = (Some {| count := 0; windowStart := now s |}, 0)
      else
        window_of (final (initRateLimiting s)) = (Some d, count d)
  | None => window_of (final (initRateLimiting s)) = (None, 0)
  end.
Proof.
  destruct s as [d [rl cv] shown t].
  unfold initRateLimiting, set_rateLimitCount, set_download_rate_limit, window_of.
  unfold_monad. simpl.
  destruct rl as [data|]; simpl; [|repeat split].
  destruct (t - windowStart data >? rateLimitWindow d); simpl; repeat split.
Qed.

Lemma click_step (a : Attempt) (s : Store) :
  (botScore (this s) >? 50) = false ->
  gates_open (at_world a) = true ->
  let r : Result := (fst (fst (click a s)), snd (click a s)) in
  let s1 := snd (fst (click a s)) in
  botScore (this s1) = botScore (this s) /\
  maxDownloadsPerWindow (this s1) = maxDownloadsPerWindow (this s) /\
  rateLimitCount (this s1)
    = rateLimitCount (this s) + (if succeeded r then 1 else 0) /\
  (if rateLimitCount (this s) <? maxDownloadsPerWindow (this s)
   then admitted r /\ (download_verified (at_world a) = true -> fst r = Return true)
   else rate_limited r).
Proof.
  intros Hbot Hgate. unfold gates_open in Hgate.
  apply andb_true_iff in Hgate. destruct Hgate as [Hgate Hhoney].
  apply andb_true_iff in Hgate. destruct Hgate as [Hfetch Hprom].
  apply negb_true_iff in Hhoney.
  unfold click, download_verified, admitted, rate_limited, succeeded.
  set (s0 := with_now s (at_time a)).
  assert (Hthis : this s0 = this s) by reflexivity.
  cbv zeta. rewrite initiateDownload_exact.
  rewrite (verdict_open (at_world a) s0 Hbot Hfetch Hprom Hhoney). rewrite Hthis.
  destruct (rateLimitCount (this s) <? maxDownloadsPerWindow (this s)) eqn:Hcount.
  - destruct (has_crypto (at_world a)) eqn:Hcrypto;
      [destruct (verified (at_world a)) eqn:Hver|]; simpl.
    + unfold admitted_store. rewrite Hver. simpl. repeat split.
    + unfold admitted_store. rewrite Hver. simpl.
      rewrite Z.add_0_r. repeat split. discriminate.
    + rewrite Z.add_0_r. repeat split. discriminate.
  - simpl. rewrite Z.add_0_r. repeat split.
Qed.

Lemma session_cons (a : Attempt) (l : list Attempt) (s : Store) :
  session (a :: l) s =
    (((fst (fst (click a s)), snd (click a s)) : Result)
       :: fst (session l (snd (fst (click a s)))),
     snd (session l (snd (fst (click a s))))).
Proof.
  simpl. destruct (click a s) as [[r s1] tr]. simpl.
  destruct (session l s1) as [rs s2]. reflexivity.
Qed.

(** The count is the number of successes and stays within the maximum;
    admission follows the count. *)
Lemma session_counts (l : list Attempt) :
  forall s : Store,
    (botScore (this s) >? 50) = false ->
    maxDownloadsPerWindow (this s) = 3 ->
    0 <= rateLimitCount (this s) <= 3 ->
    Forall (fun a => gates_open (at_world a) = true) l ->
    let rs := fst (session l s) in
    let s' := snd (session l s) in
    rateLimitCount (this s')
      = rateLimitCount (this s) + Z.of_nat (successes rs) /\
    rateLimitCount (this s') <= 3 /\
    forall i r, nth_error rs i = Some r ->
      if rateLimitCount (this s) + Z.of_nat (successes (firstn i rs)) <? 3
      then admitted r else rate_limited r.
Proof.
  induction l as [|a l IH]; intros s Hbot Hmax Hc Hgates.
  - simpl. split; [lia|]. split; [lia|].
    intros [|i] r H; discriminate H.
  - inversion Hgates as [|a' l' Ha Hl]; subst.
    rewrite session_cons. cbv zeta.
    destruct (click_step a s Hbot Ha) as (Hb1 & Hm1 & Hc1 & Hadm).
    set (r0 := (fst (fst (click a s)), snd (click a s)) : Result) in *.
    set (s1 := snd (fst (click a s))) in *.
    assert (Hr0 : (rateLimitCount (this s) <? 3) = false -> succeeded r0 = false).
    { intros E. rewrite Hmax, E in Hadm. unfold rate_limited in Hadm.
      rewrite Hadm. reflexivity. }
    assert (Hc1' : 0 <= rateLimitCount (this s1) <= 3).
    { rewrite Hc1. destruct (rateLimitCount (this s) <? 3) eqn:E.
      - apply Z.ltb_lt in E. destruct (succeeded r0); lia.
      - rewrite (Hr0 eq_refl). lia. }
    assert (Hb1' : (botScore (this s1) >? 50) = false) by (now rewrite Hb1).
    assert (Hm1' : maxDownloadsPerWindow (this s1) = 3) by (now rewrite Hm1).
    destruct (IH s1 Hb1' Hm1' Hc1' Hl) as (IHc & IHle & IHadm).
    simpl fst. simpl snd.
    split; [|split].
    + rewrite IHc, Hc1. simpl successes. destruct (succeeded r0); lia.
    + exact IHle.
    + intros [|i] r H.
      * simpl in H. injection H as <-. simpl firstn. simpl successes.
        rewrite Z.add_0_r. rewrite Hmax in Hadm.
        destruct (rateLimitCount (this s) <? 3); [apply Hadm | exact Hadm].
      * simpl in H. specialize (IHadm i r H).
        simpl firstn. simpl successes.
        replace (rateLimitCount (this s)
                 + Z.of_nat ((if succeeded r0 then 1 else 0)
                             + successes (firstn i (fst (session l s1)))))
          with (rateLimitCount (this s1)
                + Z.of_nat (successes (firstn i (fst (session l s1)))));
          [exact IHadm|].
        rewrite Hc1. destruct (succeeded r0); lia.
Qed.

(** An attempt at a full window: rejected, whatever the clock shows, and
    the store is the one of the click. *)
Lemma click_at_full_window (a : Attempt) (s : Store) :
  (botScore (this s) >? 50) = false ->
  gates_open (at_world a) = true ->
  (rateLimitCount (this s) <? maxDownloadsPerWindow (this s)) = false ->
  click a s = (Return false, with_now s (at_time a), [rate_limit_advisory]).
Proof.
  intros Hbot Hgate Hcount. unfold gates_open in Hgate.
  apply andb_true_iff in Hgate. destruct Hgate as [Hgate Hhoney].
  apply andb_true_iff in Hgate. destruct Hgate as [Hfetch Hprom].
  apply negb_true_iff in Hhoney.
  unfold click. now apply attempt_rate_limited.
Qed.

(** Once the window is full every further attempt is rejected, at whatever
    time it is made, and the window stays as it is. *)
Lemma session_full_window (l : list Attempt) :
  forall s : Store,
    (botScore (this s) >? 50) = false ->
    (rateLimitCount (this s) <? maxDownloadsPerWindow (this s)) = false ->
    Forall (fun a => gates_open (at_world a) = true) l ->
    Forall rate_limited (fst (session l s)) /\
    this (snd (session l s)) = this s /\
    localStorage (snd (session l s)) = localStorage s.
Proof.
  induction l as [|a l IH]; intros s Hbot Hc Hgates.
  - simpl. repeat split. constructor.
  - inversion Hgates as [|a' l' Ha Hl]; subst.
    rewrite session_cons.
    rewrite (click_at_full_window a s Hbot Ha Hc). simpl fst. simpl snd.
    destruct (IH (with_now s (at_time a)) Hbot Hc Hl) as (IH1 & IH2 & IH3).
    repeat split; try assumption.
    constructor; [reflexivity | exact IH1].
Qed.

(** C3 (as the code behaves).  The rate-limit check compares the count in
    memory with the maximum and does nothing else: it does not read the
    clock and resets nothing.  So once the window of a visit is full, every
    further attempt of that visit is rejected with the rate-limit advisory,
    however much later it is made, and the window (count and stored window
    start) stays as it is.  The normalization the claim describes exists,
    but in [initRateLimiting], which runs only when the page is loaded: there
    the count is reset to 0 and the window start to the current time when
    more than the window has passed since the stored window start. *)
Theorem C3_limit_is_never_lifted_within_a_visit (l : list Attempt) (s : Store) :
  botScore (this s) <= 50 ->
  maxDownloadsPerWindow (this s) <= rateLimitCount (this s) ->
  Forall (fun a => gates_open (at_world a) = true) l ->
  (forall s' : Store,
     checkRateLimit s' =
       (Return (rateLimitCount (this s') <? maxDownloadsPerWindow (this s')),
        s', [])) /\
  Forall rate_limited (fst (session l s)) /\
  window_of (snd (session l s)) = window_of s /\
  (forall s' : Store,
     match download_rate_limit (localStorage s') with
     | Some d =>
         if now s' - windowStart d >? rateLimitWindow (this s') then
           window_of (final (initRateLimiting s'))
             = (Some {| count := 0; windowStart := now s' |}, 0)
         else
           window_of (final (initRateLimiting s')) = (Some d, count d)
     | None => window_of (final (initRateLimiting s')) = (None, 0)
     end).
Proof.
  intros Hbot Hfull Hgates.
  assert (Hbot' : (botScore (this s) >? 50) = false).
  { destruct (botScore (this s) >? 50) eqn:E; [apply Z.gtb_lt in E; lia | reflexivity]. }
  assert (Hfull' : (rateLimitCount (this s) <? maxDownloadsPerWindow (this s)) = false)
    by (apply Z.ltb_ge; exact Hfull).
  split; [reflexivity|].
  destruct (session_full_window l s Hbot' Hfull' Hgates) as (H1 & H2 & H3).
  split; [exact H1|].
  split; [unfold window_of; now rewrite H2, H3|].
  intros s'. apply initRateLimiting_spec.
Qed.

(** C3, the failing input: the visitor of score 10 after three verified
    downloads in the first ten seconds (the stored window start is 9.08 s)
    and a rejected fourth click clicks again at second 61, at second 71,
    which is 61.92 s after the stored window start, and an hour later, in the
    same visit: every click is rejected and the count stays 3. *)
Lemma C3_attempt_after_the_window_expired_is_rejected :
  (window_of Sample.after_burst = (Some {| count := 3; windowStart := 9080 |}, 3) /\
   map at_time Sample.late_clicks = [61000; 71000; 3600000] /\
   rateLimitWindow (this Sample.after_burst) < 71000 - 9080) /\
  (forall s' : Store,
     checkRateLimit s' =
       (Return (rateLimitCount (this s') <? maxDownloadsPerWindow (this s')),
        s', [])) /\
  Forall rate_limited (fst (session Sample.late_clicks Sample.after_burst)) /\
  window_of (snd (session Sample.late_clicks Sample.after_burst))
    = window_of Sample.after_burst /\
  (forall s' : Store,
     match download_rate_limit (localStorage s') with
     | Some d =>
         if now s' - windowStart d >? rateLimitWindow (this s') then
           window_of (final (initRateLimiting s'))
             = (Some {| count := 0; windowStart := now s' |}, 0)
         else
           window_of (final (initRateLimiting s')) = (Some d, count d)
     | None => window_of (final (initRateLimiting s')) = (None, 0)
     end).
Proof.
  split; [by_evaluation|].
  apply (C3_limit_is_never_lifted_within_a_visit
           Sample.late_clicks Sample.after_burst).
  - vm_compute. discriminate.
  - vm_compute. discriminate.
  - repeat constructor.
Defined.

(** The sibling path: a page load normalizes the window.  After the burst
    the fourth click is rejected; a page load at second 71 finds the stored
    window expired, resets it, and the next click is admitted. *)
Example page_load_lifts_the_limit :
  map fst (fst (session Sample.burst Sample.fresh10))
    = [Return true; Return true; Return true; Return false] /\
  window_of Sample.reload_at_61
    = (Some {| count := 3; windowStart := 9080 |}, 3) /\
  window_of Sample.reload_at_71
    = (Some {| count := 0; windowStart := 71000 |}, 0) /\
  completion (click (Sample.press 71000 Sample.online) Sample.reload_at_71)
    = Return true /\
  window_of (final (click (Sample.press 71000 Sample.online) Sample.reload_at_71))
    = (Some {| count := 1; windowStart := 71080 |}, 1).
Proof. by_evaluation. Qed.

(** C4 as stated fails: four clicks within twenty seconds, score 10, gates
    open; the probe of the first download is rejected, so that attempt is not
    recorded and the fourth click is admitted and succeeds. *)
Lemma C4_fourth_attempt_admitted_after_a_failed_download :
  botScore (this Sample.fresh10) < 50 /\
  Forall (fun a => gates_open (at_world a) = true) Sample.first_probe_fails /\
  Forall (fun a => 0 <= at_time a < 60000) Sample.first_probe_fails /\
  map fst (fst (session Sample.first_probe_fails Sample.fresh10))
    = [Return false; Return true; Return true; Return true] /\
  map (fun r => first_effect (snd r))
      (fst (session Sample.first_probe_fails Sample.fresh10))
    = [Some (UpdateDownloadUI preparing); Some (UpdateDownloadUI preparing);
       Some (UpdateDownloadUI preparing); Some (UpdateDownloadUI preparing)].
Proof.
  split; [reflexivity|].
  split; [repeat constructor|].
  split; [repeat constructor; discriminate|].
  split; vm_compute; reflexivity.
Qed.

(** C4 (amended).  Attempts of one session run one after another within one
    window of 60 000 ms, bot score below 50, environment supported, honeypot
    empty, starting from an empty window.  The count is the number of attempts that succeeded so far and
    never exceeds 3.  An attempt is admitted exactly while fewer than three
    earlier attempts succeeded, otherwise it is rejected with the rate-limit
    advisory; so the first three attempts are always admitted, and when their
    downloads are verified the fourth and every later attempt of the window
    is rejected and the count stays 3. *)
Theorem C4_three_successes_fill_the_window
    (l : list Attempt) (s : Store) (t0 : Z) :
  botScore (this s) < 50 ->
  maxDownloadsPerWindow (this s) = 3 ->
  rateLimitCount (this s) = 0 ->
  Forall (fun a => gates_open (at_world a) = true) l ->
  Forall (fun a => t0 <= at_time a <= t0 + 60000) l ->
  rateLimitCount (this (snd (session l s)))
    = Z.of_nat (successes (fst (session l s))) /\
  rateLimitCount (this (snd (session l s))) <= 3 /\
  (forall i r, nth_error (fst (session l s)) i = Some r ->
     if (successes (firstn i (fst (session l s))) <? 3)%nat
     then admitted r else rate_limited r) /\
  Forall admitted (firstn 3 (fst (session l s))) /\
  (forall a1 a2 a3 rest,
     l = a1 :: a2 :: a3 :: rest ->
     download_verified (at_world a1) = true ->
     download_verified (at_world a2) = true ->
     download_verified (at_world a3) = true ->
     map fst (firstn 3 (fst (session l s))) = [Return true; Return true; Return true] /\
     Forall rate_limited (skipn 3 (fst (session l s))) /\
     rateLimitCount (this (snd (session l s))) = 3).
Proof.
  intros Hbot Hmax Hzero Hgates _.
  assert (Hbot' : (botScore (this s) >? 50) = false).
  { destruct (botScore (this s) >? 50) eqn:E; [apply Z.gtb_lt in E; lia | reflexivity]. }
  assert (Hrange : 0 <= rateLimitCount (this s) <= 3) by lia.
  destruct (session_counts l s Hbot' Hmax Hrange Hgates) as (Hc & Hle & Hadm).
  rewrite Hzero in Hc, Hadm. simpl in Hc, Hadm.
  assert (Heach : forall i r, nth_error (fst (session l s)) i = Some r ->
     if (successes (firstn i (fst (session l s))) <? 3)%nat
     then admitted r else rate_limited r).
  { intros i r H. specialize (Hadm i r H).
    destruct (successes (firstn i (fst (session l s))) <? 3)%nat eqn:E.
    - apply Nat.ltb_lt in E.
      destruct (Z.of_nat (successes (firstn i (fst (session l s)))) <? 3) eqn:E';
        [exact Hadm | apply Z.ltb_ge in E'; lia].
    - apply Nat.ltb_ge in E.
      destruct (Z.of_nat (successes (firstn i (fst (session l s)))) <? 3) eqn:E';
        [apply Z.ltb_lt in E'; lia | exact Hadm]. }
  split; [exact Hc|]. split; [exact Hle|]. split; [exact Heach|].
  split.
  - (* the first three: fewer than three attempts came before *)
    assert (Hfew : forall (rs : list Result) i, (successes (firstn i rs) <= i)%nat).
    { intros rs i. revert rs. induction i as [|i IHi]; intros [|r rs]; simpl; try lia.
      specialize (IHi rs). destruct (succeeded r); lia. }
    apply Forall_forall. intros r Hin.
    apply In_nth_error in Hin. destruct Hin as [i Hi].
    assert (Hi3 : (i < 3)%nat).
    { assert (Hlen : (i < List.length (firstn 3 (fst (session l s))))%nat).
      { apply nth_error_Some. rewrite Hi. discriminate. }
      rewrite length_firstn in Hlen. lia. }
    rewrite nth_error_firstn in Hi.
    destruct (i <? 3)%nat eqn:E; [|apply Nat.ltb_ge in E; lia].
    specialize (Heach i r Hi). specialize (Hfew (fst (session l s)) i).
    destruct (successes (firstn i (fst (session l s))) <? 3)%nat eqn:E';
      [exact Heach | apply Nat.ltb_ge in E'; lia].
  - intros a1 a2 a3 rest -> V1 V2 V3.
    inversion Hgates as [|x1 l1 G1 Hg1]; subst.
    inversion Hg1 as [|x2 l2 G2 Hg2]; subst.
    inversion Hg2 as [|x3 l3 G3 Hg3]; subst.
    rewrite !session_cons. cbv zeta.
    destruct (click_step a1 s Hbot' G1) as (Hb1 & Hm1 & Hc1 & Ha1).
    set (s1 := snd (fst (click a1 s))) in *.
    rewrite Hzero, Hmax in Ha1. simpl in Ha1. destruct Ha1 as [_ Ha1].
    specialize (Ha1 V1).
    unfold succeeded in Hc1. simpl fst in Hc1, Ha1. rewrite Ha1 in Hc1.
    assert (Hb1' : (botScore (this s1) >? 50) = false) by (now rewrite Hb1).
    destruct (click_step a2 s1 Hb1' G2) as (Hb2 & Hm2 & Hc2 & Ha2).
    set (s2 := snd (fst (click a2 s1))) in *.
    rewrite Hc1, Hm1, Hmax, Hzero in Ha2. simpl in Ha2. destruct Ha2 as [_ Ha2].
    specialize (Ha2 V2).
    unfold succeeded in Hc2. simpl fst in Hc2, Ha2. rewrite Ha2 in Hc2.
    assert (Hb2' : (botScore (this s2) >? 50) = false) by (now rewrite Hb2).
    destruct (click_step a3 s2 Hb2' G3) as (Hb3 & Hm3 & Hc3 & Ha3).
    set (s3 := snd (fst (click a3 s2))) in *.
    rewrite Hc2, Hc1, Hm2, Hm1, Hmax, Hzero in Ha3. simpl in Ha3.
    destruct Ha3 as [_ Ha3]. specialize (Ha3 V3).
    unfold succeeded in Hc3. simpl fst in Hc3, Ha3. rewrite Ha3 in Hc3.
    assert (Hb3' : (botScore (this s3) >? 50) = false) by (now rewrite Hb3).
    assert (Hm3' : maxDownloadsPerWindow (this s3) = 3) by congruence.
    assert (Hc3' : rateLimitCount (this s3) = 3) by lia.
    assert (Hfull : (rateLimitCount (this s3) <? maxDownloadsPerWindow (this s3)) = false)
      by (rewrite Hc3', Hm3'; reflexivity).
    destruct (session_full_window rest s3 Hb3' Hfull Hg3) as (Hrest & Hend & _).
    simpl. rewrite Ha1, Ha2, Ha3, Hend. repeat split; assumption.
Qed.

(** C4, an instance: the four clicks of the burst. *)
Lemma C4_burst_fills_the_window :
  rateLimitCount (this (snd (session Sample.burst Sample.fresh10)))
    = Z.of_nat (successes (fst (session Sample.burst Sample.fresh10))) /\
  rateLimitCount (this (snd (session Sample.burst Sample.fresh10))) <= 3 /\
  (forall i r, nth_error (fst (session Sample.burst Sample.fresh10)) i = Some r ->
     if (successes (firstn i (fst (session Sample.burst Sample.fresh10))) <? 3)%nat
     then admitted r else rate_limited r) /\
  Forall admitted (firstn 3 (fst (session Sample.burst Sample.fresh10))) /\
  (forall a1 a2 a3 rest,
     Sample.burst = a1 :: a2 :: a3 :: rest ->
     download_verified (at_world a1) = true ->
     download_verified (at_world a2) = true ->
     download_verified (at_world a3) = true ->
     map fst (firstn 3 (fst (session Sample.burst Sample.fresh10)))
       = [Return true; Return true; Return true] /\
     Forall rate_limited (skipn 3 (fst (session Sample.burst Sample.fresh10))) /\
     rateLimitCount (this (snd (session Sample.burst Sample.fresh10))) = 3).
Proof.
  apply (C4_three_successes_fill_the_window Sample.burst Sample.fresh10 0).
  - reflexivity.
  - reflexivity.
  - reflexivity.
  - repeat constructor.
  - repeat constructor; discriminate.
Defined.

(* ================================================================== *)
(** * Telemetry failures and the download flow *)
(* ================================================================== *)

Lemma sink_eqb_eq (k1 k2 : Sink) : sink_eqb k1 k2 = true <-> k1 = k2.
Proof. destruct k1, k2; simpl; split; intros H; try reflexivity; discriminate H. Qed.

(** An event was handed to a sink exactly when it is among the deliveries
    to that sink. *)
Lemma occurs_deliveries (k : Sink) (ev : TelemetryEvent) (tr : list Effect) :
  occurs (Deliver k ev) tr <-> In ev (deliveries_to k tr).
Proof.
  unfold occurs, deliveries_to. generalize (flatten tr) as l.
  induction l as [|e l IH]; simpl; [tauto|].
  rewrite in_app_iff, <- IH. split.
  - intros [->|H]; [left | now right].
    destruct (sink_eqb k k) eqn:E; [now left|].
    assert (X : sink_eqb k k = true) by (now apply sink_eqb_eq). congruence.
  - intros [H|H]; [left | now right].
    destruct e; try destruct H.
    destruct (sink_eqb k k0) eqn:E; [|destruct H].
    apply sink_eqb_eq in E. subst k0.
    destruct H as [->|[]]. reflexivity.
Qed.

(** The deliveries of an attempt that succeeds, sink by sink. *)
Lemma succeeded_deliveries (w : World) (source : string) (s : Store) (k : Sink) :
  verified w = true ->
  deliveries_to k (admitted_trace w source s) =
    if reached w k then
      [ download_started_event (analytics (this s)) w (downloadUrl (this s))
          source (now s);
        engagement_event (analytics (this s)) "download_verified" "success" JNull
          (now s + dispatch_delay w + latency w) ]
    else [].
Proof.
  intros Hv. unfold admitted_trace. rewrite Hv. project_trace.
  destruct (reached w k); reflexivity.
Qed.

(** C9.  An admitted click (gates open, window not full) whose download is
    verified returns true whatever the telemetry sinks do, a first-party
    endpoint that always rejects included: the buttons go to preparing and
    then to success, the hidden link is clicked and the probe sent, and the
    download is counted.  The dispatcher returns normally for every event.
    Every event of the attempt whose POST failed is handed to the beacon as
    well whenever sendBeacon exists; in general the endpoint sender answers a
    POST that throws or rejects with a beacon carrying the same event when
    sendBeacon exists, and sends no beacon otherwise. *)
Theorem C9_telemetry_failure_never_blocks_the_download
    (w : World) (source : string) (s : Store) :
  botScore (this s) <= 50 ->
  has_fetch w = true -> has_Promise w = true -> honeypot_tripped w = false ->
  rateLimitCount (this s) < maxDownloadsPerWindow (this s) ->
  has_crypto w = true -> verified w = true ->
  completion (initiateDownload w source s) = Return true /\
  ui_states (effects (initiateDownload w source s)) = [preparing; success] /\
  download_steps (effects (initiateDownload w source s))
    = [LinkClicked (secure_url_of w s); HeadRequest (secure_url_of w s)] /\
  rateLimitCount (this (final (initiateDownload w source s)))
    = rateLimitCount (this s) + 1 /\
  (forall data s1, completion (sendAnalytics w data s1) = Return tt) /\
  (forall ev,
     occurs (Deliver CustomEndpoint ev) (effects (initiateDownload w source s)) ->
     post_fails w = true -> configured w Beacon = true ->
     occurs (Deliver Beacon ev) (effects (initiateDownload w source s))) /\
  (forall w1 data s1,
     effects (sendToCustomEndpoint w1 data s1) =
       (if has_fetch w1 then [Deliver CustomEndpoint data] else []) ++
       (if post_fails w1
        then if configured w1 Beacon then [Deliver Beacon data] else []
        else [])).
Proof.
  intros Hbot Hfetch Hprom Hhoney Hcount Hcrypto Hver.
  assert (Hbot' : (botScore (this s) >? 50) = false).
  { destruct (botScore (this s) >? 50) eqn:E; [apply Z.gtb_lt in E; lia | reflexivity]. }
  apply Z.ltb_lt in Hcount.
  assert (V : verdict w s = Succeeded).
  { rewrite (verdict_open w s Hbot' Hfetch Hprom Hhoney), Hcount, Hcrypto, Hver.
    reflexivity. }
  pose proof (attempt_ui_states w source s) as U. rewrite V in U.
  rewrite initiateDownload_exact in *. rewrite V in *.
  unfold completion, final, effects in *. simpl fst in *. simpl snd in *.
  split; [reflexivity|]. split; [exact U|].
  split; [apply admitted_trace_steps|].
  split; [unfold admitted_store; rewrite Hver; reflexivity|].
  split; [intros data s1; now rewrite sendAnalytics_exact|].
  split; [|intros w1 data s1; apply sendToCustomEndpoint_attempts].
  intros ev Hev Hpost Hbeacon.
  apply occurs_deliveries. apply occurs_deliveries in Hev.
  rewrite (succeeded_deliveries w source s CustomEndpoint Hver) in Hev.
  rewrite (succeeded_deliveries w source s Beacon Hver).
  unfold reached in Hev |- *. rewrite Hpost, Hbeacon. rewrite Hfetch in Hev.
  simpl in Hev |- *. exact Hev.
Qed.

(** C9, an instance: the first-party endpoint rejects every POST; the click
    succeeds, and both events of the attempt reach the beacon. *)
Lemma C9_click_succeeds_when_the_endpoint_rejects :
  (post_fails Sample.endpoint_rejects = true /\
   map event (deliveries_to CustomEndpoint
                (effects (initiateDownload Sample.endpoint_rejects "primary_cta"
                            Sample.fresh10)))
     = ["download_started"; "engagement"] /\
   map event (deliveries_to Beacon
                (effects (initiateDownload Sample.endpoint_rejects "primary_cta"
                            Sample.fresh10)))
     = ["download_started"; "engagement"]) /\
  completion (initiateDownload Sample.endpoint_rejects "primary_cta" Sample.fresh10)
    = Return true /\
  ui_states (effects (initiateDownload Sample.endpoint_rejects "primary_cta"
                        Sample.fresh10))
    = [preparing; success] /\
  download_steps (effects (initiateDownload Sample.endpoint_rejects "primary_cta"
                             Sample.fresh10))
    = [LinkClicked (secure_url_of Sample.endpoint_rejects Sample.fresh10);
       HeadRequest (secure_url_of Sample.endpoint_rejects Sample.fresh10)] /\
  rateLimitCount (this (final (initiateDownload Sample.endpoint_rejects
                                 "primary_cta" Sample.fresh10)))
    = rateLimitCount (this Sample.fresh10) + 1 /\
  (forall data s1,
     completion (sendAnalytics Sample.endpoint_rejects data s1) = Return tt) /\
  (forall ev,
     occurs (Deliver CustomEndpoint ev)
       (effects (initiateDownload Sample.endpoint_rejects "primary_cta"
                   Sample.fresh10)) ->
     post_fails Sample.endpoint_rejects = true ->
     configured Sample.endpoint_rejects Beacon = true ->
     occurs (Deliver Beacon ev)
       (effects (initiateDownload Sample.endpoint_rejects "primary_cta"
                   Sample.fresh10))) /\
  (forall w1 data s1,
     effects (sendToCustomEndpoint w1 data s1) =
       (if has_fetch w1 then [Deliver CustomEndpoint data] else []) ++
       (if post_fails w1
        then if configured w1 Beacon then [Deliver Beacon data] else []
        else [])).
Proof.
  split; [by_evaluation|].
  apply (C9_telemetry_failure_never_blocks_the_download
           Sample.endpoint_rejects "primary_cta" Sample.fresh10);
    first [reflexivity | vm_compute; discriminate].
Defined.

(** Every sink fails at once (both hooks throw, the endpoint rejects,
    sendBeacon throws): the click succeeds as well. *)
Example click_succeeds_when_every_sink_fails :
  completion (initiateDownload Sample.all_sinks_fail "primary_cta" Sample.fresh10)
    = Return true /\
  ui_states (effects (initiateDownload Sample.all_sinks_fail "primary_cta"
                        Sample.fresh10))
    = [preparing; success].
Proof. by_evaluation. Qed.

(* ================================================================== *)
(** * Totality of an attempt *)
(* ================================================================== *)

(** C10.  [initiateDownload] always returns and never throws.  It returns
    true exactly when the success state is reached: the buttons then went to
    preparing and to success.  It returns false when a gate blocks the
    attempt (security gate or rate limiter: only the advisory, nothing
    written) and when minting the token, the download or its verification
    fails: the failure is caught by the handler, which logs it and puts the
    buttons in the error state, with the window as before. *)
Theorem C10_initiateDownload_always_returns
    (w : World) (source : string) (s : Store) :
  exists b : bool,
    completion (initiateDownload w source s) = Return b /\
    (b = true <-> In success (ui_states (effects (initiateDownload w source s)))) /\
    match verdict w s with
    | Succeeded =>
        b = true /\
        ui_states (effects (initiateDownload w source s)) = [preparing; success]
    | Failed =>
        b = false /\
        ui_states (effects (initiateDownload w source s)) = [preparing; error] /\
        In (ConsoleError "Download failed:") (effects (initiateDownload w source s)) /\
        window_of (final (initiateDownload w source s)) = window_of s
    | GateBlocked =>
        b = false /\
        final (initiateDownload w source s) = s /\
        exists msg,
          effects (initiateDownload w source s)
            = [ConsoleWarn msg; security_advisory]
    | RateLimited =>
        b = false /\
        final (initiateDownload w source s) = s /\
        effects (initiateDownload w source s) = [rate_limit_advisory]
    end.
Proof.
  rewrite attempt_ui_states.
  destruct (initiateDownload_by_verdict w source s) as [Hc _].
  rewrite Hc. rewrite initiateDownload_exact.
  unfold final, effects, window_of.
  destruct (verdict w s) eqn:V; simpl fst; simpl snd.
  - exists false. split; [reflexivity|].
    split; [split; [discriminate | intros []]|].
    repeat split. eexists. reflexivity.
  - exists false. split; [reflexivity|].
    split; [split; [discriminate | intros []]|].
    repeat split.
  - exists false. split; [reflexivity|].
    split; [split; [discriminate | intros [X|[X|[]]]; discriminate X]|].
    split; [reflexivity|]. split; [reflexivity|].
    destruct (has_crypto w) eqn:Hcrypto; simpl fst; simpl snd.
    + unfold admitted_trace, admitted_store. rewrite (verdict_failed w s V Hcrypto).
      split; [|reflexivity].
      rewrite !in_app_iff. do 3 right. right. right. left. left. reflexivity.
    + unfold no_crypto_trace. split; [|reflexivity].
      right. left. reflexivity.
  - exists true. split; [reflexivity|].
    split; [split; [intros _; right; left; reflexivity | reflexivity]|].
    split; reflexivity.
Qed.

(* ================================================================== *)
(** * Further properties *)
(* ================================================================== *)

Lemma fold_scores_grow (f : string -> bool) (l : list string) (score : Z) :
  score <= fold_left (fun sc p => if f p then sc + 15 else sc) l score.
Proof.
  revert score. induction l as [|p l IH]; intros score; simpl; [lia|].
  specialize (IH (if f p then score + 15 else score)).
  destruct (f p); lia.
Qed.

(** X1.  The bot score of every environment is an integer between 0 and
    100. *)
Theorem X1_bot_score_between_0_and_100 (g : Signals) :
  0 <= calculateBotScore g <= 100.
Proof.
  unfold calculateBotScore.
  match goal with
  | |- context [fold_left ?f ?l ?z] =>
      pose proof (fold_scores_grow
                    (fun p => Js.test_ci (Js.chars p) (Js.chars (sig_userAgent g)))
                    l z) as Hfold;
      remember (fold_left f l z) as folded
  end.
  clear Heqfolded.
  destruct (webdriver g), (phantom g || phantom_ g), (callPhantom g),
    (requestAnimationFrame g), (sig_localStorage g), (canvas_getContext g);
    simpl in *; lia.
Qed.

(** X2.  [validateDownloadEnvironment] answers true exactly when fetch,
    Promise, crypto and localStorage all exist, and then warns about
    nothing; otherwise it names the missing ones. *)
Theorem X2_environment_is_valid_when_all_four_exist (g : Globals) :
  fst (validateDownloadEnvironment g)
    = g_fetch g && g_promise g && g_crypto g && g_localStorage g /\
  snd (validateDownloadEnvironment g)
    = map fst (filter (fun kv => negb (snd kv)) (checks g)).
Proof.
  unfold validateDownloadEnvironment, checks.
  destruct (g_fetch g), (g_promise g), (g_crypto g), (g_localStorage g);
    split; reflexivity.
Qed.

(** X3.  The bot score computed when the page was loaded is the score of
    the whole visit: no sequence of attempts changes it, nor the window
    length and the maximum. *)
Theorem X3_bot_score_is_fixed_for_the_visit (l : list Attempt) (s : Store) :
  botScore (this (snd (session l s))) = botScore (this s) /\
  rateLimitWindow (this (snd (session l s))) = rateLimitWindow (this s) /\
  maxDownloadsPerWindow (this (snd (session l s))) = maxDownloadsPerWindow (this s).
Proof.
  revert s. induction l as [|a l IH]; intros s; [repeat split|].
  rewrite session_cons. simpl snd.
  destruct (IH (snd (fst (click a s)))) as (H1 & H2 & H3).
  rewrite H1, H2, H3.
  unfold click.
  destruct (initiateDownload_by_verdict (at_world a) (at_source a)
              (with_now s (at_time a))) as [_ Ht].
  unfold final in Ht. rewrite Ht.
  destruct (verdict (at_world a) (with_now s (at_time a))); repeat split.
Qed.

(** X4.  The telemetry sinks have no say in an attempt: two worlds that
    differ only in what the two hooks, the first-party endpoint and
    sendBeacon do give the same completion and the same count. *)
Theorem X4_sinks_do_not_decide_an_attempt
    (w : World) (cf gt bc : Hook) (post : PostOutcome) (source : string) (s : Store) :
  completion (initiateDownload (with_sinks w cf gt post bc) source s)
    = completion (initiateDownload w source s) /\
  rateLimitCount (this (final (initiateDownload (with_sinks w cf gt post bc)
                                 source s)))
    = rateLimitCount (this (final (initiateDownload w source s))).
Proof.
  destruct (initiateDownload_by_verdict (with_sinks w cf gt post bc) source s)
    as [Hc1 Ht1].
  destruct (initiateDownload_by_verdict w source s) as [Hc2 Ht2].
  rewrite Hc1, Hc2, Ht1, Ht2.
  assert (V : verdict (with_sinks w cf gt post bc) s = verdict w s)
    by reflexivity.
  rewrite V. split; reflexivity.
Qed.

(* ================================================================== *)
(** * Shape of the generated strings *)
(* ================================================================== *)

From Stdlib Require DecimalZ DecimalPos.

Lemma chars_text (l : list ascii) : Js.chars (Js.text l) = l.
Proof. apply list_ascii_of_string_of_list_ascii. Qed.

Lemma length_text (l : list ascii) : String.length (Js.text l) = List.length l.
Proof.
  unfold Js.text. induction l as [|c l IH]; simpl; [reflexivity | now rewrite IH].
Qed.

Lemma b64char_in_alphabet (i : N) :
  is_alnum (Js.b64char i) || Js.is_plus_slash_eq (Js.b64char i) = true.
Proof.
  destruct i as [|p]; [reflexivity|].
  do 6 (try destruct p as [p|p|]); try reflexivity;
    unfold Js.b64char; rewrite nth_overflow by (simpl List.length; lia);
    reflexivity.
Qed.

Lemma btoa_units_in_alphabet (n : nat) :
  forall l : list N,
    (List.length l <= n)%nat ->
    forallb (fun c => is_alnum c || Js.is_plus_slash_eq c) (Js.btoa_units l) = true.
Proof.
  induction n as [|n IH]; intros l Hl.
  - destruct l; [reflexivity | simpl in Hl; lia].
  - destruct l as [|a [|b [|c l]]].
    + reflexivity.
    + simpl. now rewrite !b64char_in_alphabet.
    + simpl. now rewrite !b64char_in_alphabet.
    + change (Js.btoa_units (a :: b :: c :: l))
        with (Js.b64char (a / 4) :: Js.b64char ((a mod 4) * 16 + b / 16)
                :: Js.b64char ((b mod 16) * 4 + c / 64) :: Js.b64char (c mod 64)
                :: Js.btoa_units l)%N.
      simpl forallb. rewrite !b64char_in_alphabet. simpl.
      apply IH. simpl in Hl. lia.
Qed.

Lemma stripped_is_alnum (l : list ascii) :
  forallb (fun c => is_alnum c || Js.is_plus_slash_eq c) l = true ->
  forallb is_alnum (Js.strip_plus_slash_eq l) = true.
Proof.
  unfold Js.strip_plus_slash_eq.
  induction l as [|c l IH]; simpl; [reflexivity|].
  intros H. apply andb_true_iff in H. destruct H as [Hc Hl].
  destruct (Js.is_plus_slash_eq c) eqn:E; simpl.
  - now apply IH.
  - rewrite orb_false_r in Hc. rewrite Hc. now apply IH.
Qed.

Lemma forallb_firstn {A} (f : A -> bool) (n : nat) (l : list A) :
  forallb f l = true -> forallb f (firstn n l) = true.
Proof.
  revert l. induction n as [|n IH]; intros [|a l]; simpl; try reflexivity.
  intros H. apply andb_true_iff in H. destruct H as [Ha Hl].
  rewrite Ha. now apply IH.
Qed.

Lemma token_of_shape (v : string) (ts : Z) (ua sid n : string) :
  (String.length (token_of v ts ua sid n) <= 32)%nat /\
  forallb is_alnum (Js.chars (token_of v ts ua sid n)) = true.
Proof.
  unfold token_of, Js.substring0, Js.btoa.
  rewrite length_text, chars_text. split.
  - apply firstn_le_length.
  - apply forallb_firstn. apply stripped_is_alnum.
    eapply btoa_units_in_alphabet. apply Nat.le_refl.
Qed.

Lemma token_of_length_plain (v : string) (ts : Z) (ua sid n : string) :
  Js.plain_string v = true ->
  String.length (token_of v ts ua sid n) = 32%nat.
Proof.
  intros Hv. unfold token_of.
  destruct (token_json_split v ts ua sid n) as [tail E]. rewrite E.
  set (p := ("{"%char :: Js.json_member "venture" (Js.json_string v)
               ++ ","%char :: Js.json_member "timestamp" [])).
  assert (Hp : forallb Js.plain (Js.units p) = true).
  { unfold p, Js.json_member. simpl.
    unfold Js.units. rewrite !map_app, !forallb_app.
    rewrite (JsFacts.quoted_units_plain v Hv). reflexivity. }
  assert (Hlen : (24 <= List.length p)%nat).
  { unfold p, Js.json_member, Js.json_string. simpl.
    rewrite !length_app. simpl. lia. }
  rewrite length_text. unfold Js.btoa, Js.substring0, Js.units.
  rewrite map_app.
  rewrite <- (firstn_skipn 24 (map N_of_ascii p)) at 1.
  rewrite <- app_assoc.
  assert (L : List.length (firstn 24 (map N_of_ascii p)) = (3 * 8)%nat).
  { rewrite firstn_length_le; [reflexivity | now rewrite length_map]. }
  assert (P : forallb Js.plain (firstn 24 (map N_of_ascii p)) = true).
  { apply forallb_firstn. exact Hp. }
  destruct (JsFacts.strip_btoa_plain_prefix 8 _
              (skipn 24 (map N_of_ascii p) ++ map N_of_ascii tail) L P)
    as [E1 E2].
  rewrite E1, firstn_app, E2.
  change (32 - 4 * 8)%nat with 0%nat. rewrite firstn_O, app_nil_r.
  rewrite firstn_all2 by (rewrite E2; apply Nat.le_refl). exact E2.
Qed.

(** X5.  Tokens, for a venture name, a user agent and a session
    identifier whose code units are all below 256 (the texts of this
    development; on a unit above 255 btoa raises InvalidCharacterError, and
    that case is not covered here).  Without crypto [generateDownloadToken]
    throws the ReferenceError of [generateNonce], before anything is
    serialized, and does nothing else.  With crypto it returns a token of at
    most 32 characters, all of them ASCII letters and digits, so that the
    token needs no escaping in a URL; for a venture name of plain ASCII
    characters the token is exactly 32 characters long. *)
Theorem X5_token_is_short_and_alphanumeric (w : World) (s : Store) :
  (has_crypto w = false ->
   generateDownloadToken w s = (Throw (ReferenceError "crypto"), s, [])) /\
  (has_crypto w = true ->
   exists token,
     generateDownloadToken w s = (Return token, s, [GetRandomValues]) /\
     (String.length token <= 32)%nat /\
     forallb is_alnum (Js.chars token) = true /\
     (Js.plain_string (venture (this s)) = true -> String.length token = 32%nat)).
Proof.
  unfold generateDownloadToken, generateNonce, bind, get, Date_now,
    emit, ret, throw.
  split; intros H; rewrite H; simpl; [reflexivity|].
  eexists. split; [reflexivity|].
  split; [apply token_of_shape|].
  split; [apply token_of_shape|].
  apply token_of_length_plain.
Qed.

Lemma hex_digit_round_trip (d : N) :
  (d < 16)%N ->
  hex_value (Js.hex_digit d) = d /\ is_hex_digit (Js.hex_digit d) = true.
Proof.
  intros H. destruct d as [|p]; [split; reflexivity|].
  do 4 (try destruct p as [p|p|]); try (split; reflexivity); exfalso; lia.
Qed.

Lemma hex2_shape (b : N) :
  (b < 256)%N ->
  unhex (Js.hex2 b) = [b] /\ forallb is_hex_digit (Js.hex2 b) = true.
Proof.
  intros H.
  assert (Hhi : (b / 16 < 16)%N) by (apply N.Div0.div_lt_upper_bound; lia).
  assert (Hlo : (b mod 16 < 16)%N) by (apply N.mod_lt; lia).
  destruct (hex_digit_round_trip _ Hhi) as [V1 D1].
  destruct (hex_digit_round_trip _ Hlo) as [V2 D2].
  unfold Js.hex2. simpl. rewrite V1, V2, D1, D2. split; [|reflexivity].
  f_equal. rewrite N.mul_comm. symmetry. apply N.div_mod. lia.
Qed.

Lemma hex_of_bytes (l : list N) :
  Forall (fun b => (b < 256)%N) l ->
  unhex (flat_map Js.hex2 l) = l /\
  forallb is_hex_digit (flat_map Js.hex2 l) = true /\
  List.length (flat_map Js.hex2 l) = (2 * List.length l)%nat.
Proof.
  induction 1 as [|b l Hb Hl IH]; [repeat split|].
  destruct IH as (IH1 & IH2 & IH3).
  destruct (hex2_shape b Hb) as [U D].
  change (flat_map Js.hex2 (b :: l))
    with (Js.hex_digit (b / 16) :: Js.hex_digit (b mod 16) :: flat_map Js.hex2 l).
  unfold Js.hex2 in U, D. simpl in U, D.
  apply andb_true_iff in D. destruct D as [D1 D2].
  rewrite andb_true_r in D2.
  split; [|split].
  - simpl. rewrite IH1. injection U as U. now rewrite U.
  - simpl. now rewrite D1, D2.
  - simpl. rewrite IH3. lia.
Qed.

Lemma Forall_firstn_keeps {A} (P : A -> Prop) (n : nat) (l : list A) :
  Forall P l -> Forall P (firstn n l).
Proof.
  revert l. induction n as [|n IH]; intros l H; [constructor|].
  destruct H as [|a l Ha Hl]; [constructor|].
  simpl. constructor; [exact Ha | now apply IH].
Qed.

Lemma random_array_bytes (w : World) :
  List.length (random_array w) = 16%nat /\
  Forall (fun b => (b < 256)%N) (random_array w).
Proof.
  unfold random_array. split.
  - apply firstn_length_le. rewrite length_app, repeat_length. lia.
  - apply Forall_firstn_keeps. apply Forall_app. split.
    + apply Forall_forall. intros b Hb. apply in_map_iff in Hb.
      destruct Hb as (x & <- & _). apply N.mod_lt. lia.
    + apply Forall_forall. intros b Hb. apply repeat_spec in Hb. subst b. lia.
Qed.

(** X6.  [generateNonce] throws only when crypto is missing.  Otherwise it
    calls crypto.getRandomValues once, changes nothing, and returns 32
    lower-case hexadecimal digits from which the sixteen random bytes can be
    read back: two draws give the same nonce only when they gave the same
    bytes. *)
Theorem X6_nonce_is_the_hex_image_of_the_bytes (w : World) (s : Store) :
  match completion (generateNonce w s) with
  | Return nonce =>
      has_crypto w = true /\
      effects (generateNonce w s) = [GetRandomValues] /\
      final (generateNonce w s) = s /\
      String.length nonce = 32%nat /\
      forallb is_hex_digit (Js.chars nonce) = true /\
      unhex (Js.chars nonce) = random_array w /\
      (forall w' s',
         completion (generateNonce w' s') = Return nonce ->
         random_array w' = random_array w)
  | Throw e => has_crypto w = false /\ e = ReferenceError "crypto"
  end.
Proof.
  destruct (random_array_bytes w) as [L B].
  destruct (hex_of_bytes _ B) as (U & D & Len).
  unfold generateNonce, completion, effects, final, bind, emit, ret, throw.
  destruct (has_crypto w); simpl; [|split; reflexivity].
  rewrite length_text, chars_text.
  repeat split; try assumption.
  - rewrite Len, L. reflexivity.
  - intros w' s'. destruct (has_crypto w'); simpl; [|discriminate].
    intros E. injection E as E.
    destruct (random_array_bytes w') as [L' B'].
    destruct (hex_of_bytes _ B') as (U' & _ & _).
    rewrite <- U', <- U.
    rewrite <- (chars_text (flat_map Js.hex2 (random_array w'))).
    rewrite E. now rewrite chars_text.
Qed.

Lemma chars_append (a b : string) :
  Js.chars (String.append a b) = Js.chars a ++ Js.chars b.
Proof.
  unfold Js.chars. induction a as [|c a IH]; simpl; [reflexivity | now rewrite IH].
Qed.

Lemma chars_injective (a b : string) : Js.chars a = Js.chars b -> a = b.
Proof.
  unfold Js.chars. intros H.
  rewrite <- (string_of_list_ascii_of_string a),
          <- (string_of_list_ascii_of_string b).
  now rewrite H.
Qed.

(** Two texts cut at the first occurrence of a separator agree part by
    part. *)
Lemma split_at_separator (c : ascii) (l1 l2 r1 r2 : list ascii) :
  ~ In c l1 -> ~ In c l2 ->
  l1 ++ c :: r1 = l2 ++ c :: r2 -> l1 = l2 /\ r1 = r2.
Proof.
  revert l2. induction l1 as [|a l1 IH]; intros [|b l2] H1 H2 E; simpl in *.
  - injection E as E. now split.
  - injection E as E1 E2. exfalso. apply H2. now left.
  - injection E as E1 E2. exfalso. apply H1. now left.
  - injection E as E1 E2. subst b.
    destruct (IH l2) as [IH1 IH2]; try tauto. subst. now split.
Qed.

Lemma uint_digits_no_underscore (d : Decimal.uint) :
  ~ In "_"%char (Js.chars (NilEmpty.string_of_uint d)).
Proof.
  unfold Js.chars.
  induction d; simpl; [tauto | ..]; (intros [H|H]; [discriminate H | tauto]).
Qed.

Lemma number_no_underscore (z : Z) :
  ~ In "_"%char (Js.number_to_string z).
Proof.
  unfold Js.number_to_string, NilZero.string_of_int, NilZero.string_of_uint.
  assert (Z0 : ~ In "_"%char (Js.chars "0")).
  { simpl. intros [H|[]]. discriminate H. }
  destruct (Z.to_int z) as [d|d].
  - destruct d; try exact Z0; apply uint_digits_no_underscore.
  - change (Js.chars (String "-" ?s)) with ("-"%char :: Js.chars s).
    intros [H|H]; [discriminate H|]. revert H.
    destruct d; try exact Z0; apply uint_digits_no_underscore.
Qed.

Lemma number_to_string_injective (z1 z2 : Z) :
  Js.number_to_string z1 = Js.number_to_string z2 -> z1 = z2.
Proof.
  unfold Js.number_to_string. intros H. apply chars_injective in H.
  apply DecimalZ.to_int_inj.
  assert (N : forall z, Z.to_int z <> Decimal.Pos Decimal.Nil /\
                        Z.to_int z <> Decimal.Neg Decimal.Nil).
  { intros [|p|p]; simpl; split; try discriminate;
      intros E; injection E as E; now apply DecimalPos.Unsigned.to_uint_nonnil in E. }
  destruct (N z1) as [A1 B1]. destruct (N z2) as [A2 B2].
  pose proof (NilZero.isi _ A1 B1) as I1.
  pose proof (NilZero.isi _ A2 B2) as I2.
  rewrite H in I1. rewrite I1 in I2. now injection I2.
Qed.

(** X7.  Session identifiers are faithful to what they are made of: two
    identifiers are equal exactly when they were made at the same
    millisecond with the same random suffix; in particular identifiers made
    at different times always differ. *)
Theorem X7_session_ids_differ_when_times_differ (t1 t2 : Z) (rnd1 rnd2 : string) :
  generateSessionId t1 rnd1 = generateSessionId t2 rnd2 <->
  t1 = t2 /\ rnd1 = rnd2.
Proof.
  split; [|intros [-> ->]; reflexivity].
  unfold generateSessionId. intros H.
  apply (f_equal Js.chars) in H.
  rewrite !chars_append, !chars_text in H.
  apply app_inv_head in H. simpl in H.
  apply split_at_separator in H; try apply number_no_underscore.
  destruct H as [Hd Hr].
  split; [now apply number_to_string_injective | now apply chars_injective].
Qed.


(* ================================================================== *)
(** * What an attempt does *)
(* ================================================================== *)

From Stdlib Require Permutation.

(** X8.  The buttons go through one of three courses in an attempt: they
    are not touched when a gate or the rate limiter stops it, they go to
    preparing and then to success when it succeeds, and to preparing and then
    to error when minting the token or the verification fails.  No attempt
    ends in the preparing state. *)
Theorem X8_button_states_of_an_attempt (w : World) (source : string) (s : Store) :
  ui_states (effects (initiateDownload w source s)) =
    match verdict w s with
    | GateBlocked | RateLimited => []
    | Succeeded => [preparing; success]
    | Failed => [preparing; error]
    end.
Proof. apply attempt_ui_states. Qed.

(** X9.  The browser download is started before it is verified.  Every
    attempt that passes the gates and mints a token first clicks the hidden
    link and then sends the probe, both exactly once and to the same URL,
    which carries the token, the venture and the version; no dropped call
    clicks or probes.  The count goes up only when the probe then verifies
    the download, so a download that starts but is not verified is not
    counted.  No other attempt clicks a link or sends a probe. *)
Theorem X9_download_starts_before_it_is_verified
    (w : World) (source : string) (s : Store) :
  download_steps (effects (initiateDownload w source s))
    = (if download_started w s
       then [LinkClicked (secure_url_of w s); HeadRequest (secure_url_of w s)]
       else []) /\
  links_clicked (effects (initiateDownload w source s))
    = (if download_started w s then [secure_url_of w s] else []) /\
  probes (effects (initiateDownload w source s))
    = links_clicked (effects (initiateDownload w source s)) /\
  rateLimitCount (this (final (initiateDownload w source s)))
    = rateLimitCount (this s)
      + (if download_started w s && verified w then 1 else 0).
Proof.
  destruct (download_started w s) eqn:D.
  - rewrite (initiateDownload_started w source s D).
    unfold effects, final. simpl fst. simpl snd.
    destruct (admitted_trace_steps w source s) as (St & L & P).
    rewrite St, L, P. unfold admitted_store.
    destruct (verified w); simpl; repeat split; lia.
  - destruct (initiateDownload_not_started w source s D) as (F & L & P & St & _).
    rewrite L, P, F, St. simpl. repeat split. lia.
Qed.

Lemma never_verified_starts (a : Attempt) (s : Store) :
  (botScore (this s) >? 50) = false ->
  (rateLimitCount (this s) <? maxDownloadsPerWindow (this s)) = true ->
  never_verified a = true ->
  download_started (at_world a) (with_now s (at_time a)) = true /\
  verified (at_world a) = false.
Proof.
  unfold never_verified, gates_open, download_started, verdict.
  intros Hbot Hcount H. simpl.
  repeat (apply andb_true_iff in H; destruct H as [H ?]).
  apply negb_true_iff in H0, H2.
  rewrite Hbot, H, H3, H2, Hcount, H1, H0. simpl. now split.
Qed.

(** X10.  The rate limiter never engages on downloads that are not
    verified.  In a visit whose gates are open, however many attempts are
    made while the probe does not verify the download (it is rejected or
    answers with a status that is not ok), every one of them starts the
    browser download, returns false, and leaves the count and the stored
    window as they were. *)
Theorem X10_unverified_downloads_are_never_limited (l : list Attempt) (s : Store) :
  botScore (this s) <= 50 ->
  rateLimitCount (this s) < maxDownloadsPerWindow (this s) ->
  Forall (fun a => never_verified a = true) l ->
  Forall (fun r : Result =>
            fst r = Return false /\ List.length (links_clicked (snd r)) = 1%nat)
         (fst (session l s)) /\
  rateLimitCount (this (snd (session l s))) = rateLimitCount (this s) /\
  download_rate_limit (localStorage (snd (session l s)))
    = download_rate_limit (localStorage s).
Proof.
  intros Hbot Hcount Hl.
  assert (Hbot' : (botScore (this s) >? 50) = false).
  { destruct (botScore (this s) >? 50) eqn:E; [apply Z.gtb_lt in E; lia | reflexivity]. }
  apply Z.ltb_lt in Hcount. clear Hbot.
  revert s Hbot' Hcount.
  induction Hl as [|a l Ha Hl IH]; intros s Hbot Hcount.
  - simpl. repeat split. constructor.
  - rewrite session_cons.
    destruct (never_verified_starts a s Hbot Hcount Ha) as [D V].
    unfold click.
    rewrite (initiateDownload_started _ (at_source a) _ D). rewrite V.
    simpl fst. simpl snd.
    assert (Ht : this (admitted_store (at_world a) (with_now s (at_time a))) = this s).
    { unfold admitted_store. rewrite V. reflexivity. }
    assert (Hr : download_rate_limit
                   (localStorage (admitted_store (at_world a) (with_now s (at_time a))))
                 = download_rate_limit (localStorage s)).
    { unfold admitted_store. rewrite V. reflexivity. }
    destruct (IH (admitted_store (at_world a) (with_now s (at_time a))))
      as (IH1 & IH2 & IH3); try (rewrite Ht; assumption).
    rewrite IH2, IH3, Ht, Hr.
    repeat split; try reflexivity.
    constructor; [|exact IH1].
    split; [reflexivity|].
    simpl snd. rewrite (proj1 (proj2 (admitted_trace_steps _ _ _))). reflexivity.
Qed.

(** X10, an instance: six clicks whose probe is rejected. *)
Lemma X10_six_unverified_clicks :
  Forall (fun r : Result =>
            fst r = Return false /\ List.length (links_clicked (snd r)) = 1%nat)
         (fst (session Cases.unverified_clicks Sample.fresh10)) /\
  rateLimitCount (this (snd (session Cases.unverified_clicks Sample.fresh10)))
    = rateLimitCount (this Sample.fresh10) /\
  download_rate_limit
    (localStorage (snd (session Cases.unverified_clicks Sample.fresh10)))
    = download_rate_limit (localStorage Sample.fresh10).
Proof.
  apply (X10_unverified_downloads_are_never_limited
           Cases.unverified_clicks Sample.fresh10).
  - vm_compute. discriminate.
  - reflexivity.
  - repeat constructor.
Defined.

(** The events of an attempt at one sink, dropped dispatches included, in
    the order of the program text, and those of the run itself. *)
Lemma attempt_deliveries (w : World) (source : string) (s : Store) (k : Sink) :
  map event_kind (deliveries_to k (effects (initiateDownload w source s)))
    = (if reached w k then awaited_kinds w s ++ dropped_kinds w s else []) /\
  map event_kind (deliveries_in_order k (effects (initiateDownload w source s)))
    = (if reached w k then awaited_kinds w s else []) ++
      match k with
      | Cloudflare => if configured w Cloudflare then dropped_kinds w s else []
      | _ => []
      end /\
  Forall (fun ev => ev_sessionId ev = sessionId (analytics (this s)) /\
                    ev_venture ev = a_venture (analytics (this s)))
         (deliveries_to k (effects (initiateDownload w source s))).
Proof.
  unfold awaited_kinds, dropped_kinds, download_started.
  rewrite initiateDownload_exact. unfold effects.
  destruct (verdict w s) eqn:V; simpl snd.
  - destruct (reached w k), k, (configured w Cloudflare);
      repeat split; constructor.
  - destruct (reached w k), k, (configured w Cloudflare);
      repeat split; constructor.
  - destruct (has_crypto w) eqn:Hc; simpl snd.
    + unfold admitted_trace. rewrite (verdict_failed w s V Hc). project_trace.
      destruct k; unfold reached;
        destruct (configured w Cloudflare); simpl;
        repeat match goal with
               | |- context [if ?b then _ else _] => destruct b
               end; simpl; repeat split; repeat constructor.
    + project_trace.
      destruct k; unfold reached;
        destruct (configured w Cloudflare); simpl;
        repeat match goal with
               | |- context [if ?b then _ else _] => destruct b
               end; simpl; repeat split; repeat constructor.
  - destruct (verdict_succeeded w s V) as [_ Hv].
    unfold admitted_trace. rewrite Hv. project_trace.
    destruct k; unfold reached;
      destruct (configured w Cloudflare); simpl;
      repeat match goal with
             | |- context [if ?b then _ else _] => destruct b
             end; simpl; repeat split; repeat constructor.
Qed.

(** X11.  Telemetry of an attempt, sink by sink.  A sink that the fan-out
    reaches receives every event of the attempt once, and every sink that is
    reached receives the same ones: nothing when a gate or the rate limiter
    stops the attempt; download_started and the engagement event when it
    succeeds; download_started and the error twice (from the verification
    and from the manager) when the probe fails; the manager's error alone
    when crypto is missing.  A sink that is not reached receives nothing.
    The order is fixed only as far as the attempt waits: download_started,
    whose dispatch is awaited, reaches every sink before the attempt goes on;
    the later events, whose dispatch is dropped, reach the Cloudflare hook at
    once, in program order, and the other sinks at some later time, in no
    order that the program fixes.  All events carry the session identifier
    and the venture of the analytics object. *)
Theorem X11_events_reach_every_sink
    (w : World) (source : string) (s : Store) (k : Sink) :
  Permutation.Permutation
    (map event_kind (deliveries_to k (effects (initiateDownload w source s))))
    (if reached w k then awaited_kinds w s ++ dropped_kinds w s else []) /\
  map event_kind (deliveries_in_order k (effects (initiateDownload w source s)))
    = (if reached w k then awaited_kinds w s else []) ++
      match k with
      | Cloudflare => if configured w Cloudflare then dropped_kinds w s else []
      | _ => []
      end /\
  Forall (fun ev => ev_sessionId ev = sessionId (analytics (this s)) /\
                    ev_venture ev = a_venture (analytics (this s)))
         (deliveries_to k (effects (initiateDownload w source s))).
Proof.
  destruct (attempt_deliveries w source s k) as (A & B & C).
  rewrite A. split; [apply Permutation.Permutation_refl|]. now split.
Qed.

(** X12.  A conversion is recorded for every download that was started,
    and for no other attempt: an attempt that passes the gates and mints a
    token appends one record (venture, time, session, referrer) to the
    stored conversions, whatever the telemetry sinks do and whether or not
    the download is then verified, and it rewrites the text of the counter
    element once, when the page has one (the new text is what parsing,
    adding one and formatting in the locale make of the old one, which is
    not computed here).  An attempt stopped earlier leaves both as they
    were.  Earlier records are never changed. *)
Theorem X12_conversions_count_started_downloads
    (w : World) (source : string) (s : Store) :
  venture_conversions (localStorage (final (initiateDownload w source s)))
    = venture_conversions (localStorage s)
      ++ (if download_started w s then [conversion_of w s] else []) /\
  download_count (final (initiateDownload w source s))
    = (if download_started w s
       then option_map Bumped (download_count s)
       else download_count s).
Proof.
  destruct (download_started w s) eqn:D.
  - rewrite (initiateDownload_started w source s D).
    unfold final, admitted_store. simpl. split; reflexivity.
  - destruct (initiateDownload_not_started w source s D) as (F & _).
    rewrite F, app_nil_r. split; reflexivity.
Qed.

(* ================================================================== *)
(** * The buttons *)
(* ================================================================== *)

Lemma class_remove_add (c : string) (cs l : list string) :
  existsb (String.eqb c) cs = true ->
  class_remove cs (class_add c l) = class_remove cs l.
Proof.
  intros Hc. unfold class_add, class_remove.
  destruct (existsb (String.eqb c) l); [reflexivity|].
  rewrite filter_app. simpl. rewrite Hc. simpl. apply app_nil_r.
Qed.

Lemma class_remove_absent (cs l : list string) :
  class_remove cs (class_remove cs l) = class_remove cs l.
Proof.
  unfold class_remove. induction l as [|c l IH]; simpl; [reflexivity|].
  destruct (negb (existsb (String.eqb c) cs)) eqn:E; simpl; [rewrite E|];
    now rewrite ?IH.
Qed.

Lemma class_removed_gone (cs l : list string) (c : string) :
  In c cs -> ~ In c (class_remove cs l).
Proof.
  unfold class_remove. intros Hc Hin. apply filter_In in Hin.
  destruct Hin as [_ Hin]. apply negb_true_iff in Hin.
  assert (X : existsb (String.eqb c) cs = true).
  { apply existsb_exists. exists c. split; [exact Hc | apply String.eqb_refl]. }
  congruence.
Qed.

Lemma ui_cycles (venture : string) (bs : list Button) :
  ui_run venture [Shown preparing; Shown success] bs
    = map (fun b => {| disabled := true; innerHTML := StartedLabel;
                       classList := class_add "success"
                                      (class_add "downloading" (classList b)) |}) bs /\
  ui_run venture [Shown preparing; Shown success; TimersFired success] bs
    = map (at_rest venture ["downloading"; "success"]) bs /\
  ui_run venture [Shown preparing; Shown error] bs
    = map (fun b => {| disabled := false; innerHTML := RetryLabel;
                       classList := class_add "error"
                                      (class_add "downloading" (classList b)) |}) bs /\
  ui_run venture [Shown preparing; Shown error; TimersFired error] bs
    = map (at_rest venture ["downloading"; "error"]) bs.
Proof.
  unfold ui_run, at_rest. simpl. rewrite !map_map. simpl.
  repeat split; apply map_ext; intros b; try reflexivity;
    f_equal; rewrite !class_remove_add by reflexivity; reflexivity.
Qed.

(** X13.  The buttons after an attempt.  An attempt stopped by a gate or
    by the rate limiter leaves every button as it was.  After a successful
    attempt every button shows the started label and is still disabled; when
    the timers fire three seconds later each button is enabled, labelled
    with the venture (the markup the page came with is not restored) and has
    lost the classes downloading and success, its other classes being kept.
    After a failed attempt every button shows the retry label and is enabled
    at once; the timers, five seconds later, put the venture label back and
    remove the classes downloading and error. *)
Theorem X13_buttons_after_an_attempt
    (w : World) (source : string) (s : Store) (bs : list Button) :
  match verdict w s with
  | GateBlocked | RateLimited =>
      render (venture (this s)) (effects (initiateDownload w source s)) bs = bs
  | Succeeded =>
      Forall (fun b => disabled b = true /\ innerHTML b = StartedLabel)
        (render (venture (this s)) (effects (initiateDownload w source s)) bs) /\
      ui_step (venture (this s))
        (render (venture (this s)) (effects (initiateDownload w source s)) bs)
        (TimersFired success)
        = map (at_rest (venture (this s)) ["downloading"; "success"]) bs
  | Failed =>
      Forall (fun b => disabled b = false /\ innerHTML b = RetryLabel)
        (render (venture (this s)) (effects (initiateDownload w source s)) bs) /\
      ui_step (venture (this s))
        (render (venture (this s)) (effects (initiateDownload w source s)) bs)
        (TimersFired error)
        = map (at_rest (venture (this s)) ["downloading"; "error"]) bs
  end.
Proof.
  unfold render. rewrite attempt_ui_states.
  destruct (ui_cycles (venture (this s)) bs) as (S1 & S2 & E1 & E2).
  destruct (verdict w s); try reflexivity.
  - split.
    + change (map Shown [preparing; error]) with [Shown preparing; Shown error].
      rewrite E1. apply Forall_forall. intros b Hb.
      apply in_map_iff in Hb. destruct Hb as (b0 & <- & _). now split.
    + rewrite <- E2. reflexivity.
  - split.
    + change (map Shown [preparing; success]) with [Shown preparing; Shown success].
      rewrite S1. apply Forall_forall. intros b Hb.
      apply in_map_iff in Hb. destruct Hb as (b0 & <- & _). now split.
    + rewrite <- S2. reflexivity.
Qed.

(** X14.  A retry within five seconds of a failure loses its preparing
    look.  When an attempt fails, the buttons are enabled at once while the
    timers of the failure are still pending; if the visitor retries before
    they fire, the buttons are disabled and show the preparing label, and the
    pending timers then put the venture label back and remove the class
    downloading although the retry is still under way and the buttons stay
    disabled. *)
Theorem X14_pending_error_timers_overwrite_a_retry
    (venture : string) (bs : list Button) :
  Forall (fun b => disabled b = true /\ innerHTML b = PreparingLabel)
    (ui_run venture [Shown preparing; Shown error; Shown preparing] bs) /\
  ui_run venture
    [Shown preparing; Shown error; Shown preparing; TimersFired error] bs
    = map (fun b => {| disabled := true; innerHTML := DownloadLabel venture;
                       classList := class_remove ["downloading"; "error"]
                                      (classList b) |}) bs /\
  Forall (fun b => ~ In "downloading" (classList b))
    (ui_run venture
       [Shown preparing; Shown error; Shown preparing; TimersFired error] bs).
Proof.
  assert (E : ui_run venture
    [Shown preparing; Shown error; Shown preparing; TimersFired error] bs
    = map (fun b => {| disabled := true; innerHTML := DownloadLabel venture;
                       classList := class_remove ["downloading"; "error"]
                                      (classList b) |}) bs).
  { unfold ui_run. simpl. rewrite !map_map. simpl.
    apply map_ext. intros b. f_equal.
    rewrite !class_remove_add by reflexivity. reflexivity. }
  split; [|split].
  - unfold ui_run. simpl. rewrite !map_map. simpl.
    apply Forall_forall. intros b Hb.
    apply in_map_iff in Hb. destruct Hb as (b0 & <- & _). now split.
  - exact E.
  - rewrite E. apply Forall_forall. intros b Hb.
    apply in_map_iff in Hb. destruct Hb as (b0 & <- & _). simpl.
    apply class_removed_gone. now left.
Qed.


(* ================================================================== *)
(** * A/B test assignment *)
(* ================================================================== *)

Lemma variants_not_empty_strings (name v : string) (l : list string) :
  variants name = Entry l -> In v l -> String.eqb v EmptyString = false.
Proof.
  unfold variants.
  destruct (String.eqb name "hero_cta_test");
    [| destruct (String.eqb name "hero_headline_test");
       [| destruct (find (fun m => String.eqb (fst m) name) inherited) as [m|] eqn:F ] ].
  - intros E. injection E as <-. simpl. intros H.
    repeat (destruct H as [H|H]; [subst v; reflexivity|]). destruct H.
  - intros E. injection E as <-. simpl. intros H.
    repeat (destruct H as [H|H]; [subst v; reflexivity|]). destruct H.
  - intros E. exfalso. apply find_some in F. destruct F as [F _].
    unfold inherited in F. simpl in F.
    repeat (destruct F as [F|F]; [subst m; discriminate E|]). destruct F.
  - discriminate.
Qed.

Lemma getVariant_stored (w : World) (pick : nat) (name : string) (ab : AbTests)
    (s : Store) (v : string) :
  stored_variant name ab = Some v ->
  getVariant w pick name ab s = (Return (Some v, ab), s, []).
Proof.
  intros H. unfold getVariant. now rewrite H.
Qed.

Lemma stored_after_set (name v : string) (ab : AbTests) :
  String.eqb v EmptyString = false ->
  stored_variant name (ab_set name v ab) = Some v.
Proof.
  intros H. unfold stored_variant, ab_set. simpl.
  now rewrite String.eqb_refl, H.
Qed.

(** X15.  An assignment sticks.  Once [getVariant] has returned a variant
    for a test, every later call for that test returns the same variant,
    whatever the random draw, writes nothing and tracks nothing. *)
Theorem X15_variant_assignment_is_sticky
    (w : World) (pick : nat) (name : string) (ab ab' : AbTests) (s : Store)
    (v : string) :
  completion (getVariant w pick name ab s) = Return (Some v, ab') ->
  forall w' pick' s',
    getVariant w' pick' name ab' s' = (Return (Some v, ab'), s', []).
Proof.
  intros H w' pick' s'. apply getVariant_stored.
  unfold getVariant, completion in H.
  destruct (stored_variant name ab) as [sv|] eqn:St.
  - simpl in H. injection H as <- <-. exact St.
  - destruct (no_variants (variants name)); [discriminate H|].
    destruct (variant_at (variants name) pick) as [variant|] eqn:Nth.
    + unfold bind in H. rewrite trackEngagement_dropped_exact in H.
      simpl in H. injection H as <- <-.
      apply stored_after_set.
      unfold variant_at in Nth.
      destruct (variants name) as [l| | |] eqn:V; try discriminate Nth.
      apply (variants_not_empty_strings name variant l V).
      eapply nth_error_In. exact Nth.
    + unfold bind in H. rewrite trackEngagement_dropped_exact in H.
      simpl in H. discriminate H.
Qed.

(** X15, an instance: the second variant of the call-to-action test. *)
Lemma X15_second_variant_sticks :
  completion (getVariant Sample.online 1 "hero_cta_test" [] Sample.fresh10)
    = Return (Some "Get Started Now", Cases2.assigned) /\
  forall w' pick' s',
    getVariant w' pick' "hero_cta_test" Cases2.assigned s'
      = (Return (Some "Get Started Now", Cases2.assigned), s', []).
Proof.
  split; [reflexivity|].
  apply (X15_variant_assignment_is_sticky
           Sample.online 1 "hero_cta_test" [] Cases2.assigned Sample.fresh10
           "Get Started Now").
  reflexivity.
Defined.

(** X16.  The first call for a test, with nothing stored for it (or the
    empty string).  A name that [variants] does not know, and a name of an
    inherited method of length 0 (toString, valueOf, toLocaleString), give
    null: nothing is written and nothing is tracked.  A test of the table
    gets one of its variants, the one the draw picks; it is stored under the
    test, returned, and tracked as ab_test_assigned by a dispatch that is
    dropped.  A name of another inherited member (constructor, __proto__,
    hasOwnProperty and the like) passes the length test although it is no
    test: the result is undefined, the text undefined is stored under the
    name, so that later calls return that text, and an assignment with the
    value null is tracked.  [getVariant] never throws, whatever the sinks
    do. *)
Theorem X16_first_call_assigns_a_variant_of_the_test
    (w : World) (pick : nat) (name : string) (ab : AbTests) (s : Store) :
  stored_variant name ab = None ->
  (no_variants (variants name) = true ->
   getVariant w pick name ab s = (Return (None, ab), s, [])) /\
  (forall l, variants name = Entry l -> (pick < List.length l)%nat ->
   exists v,
     nth_error l pick = Some v /\
     getVariant w pick name ab s
       = (Return (Some v, ab_set name v ab), s,
          dropped_fan_out w (engagement_event (analytics (this s))
                               "ab_test_assigned" name (JStr v) (now s)))) /\
  (inherited_member (variants name) = true ->
   getVariant w pick name ab s
     = (Return (None, ab_set name "undefined" ab), s,
        dropped_fan_out w (engagement_event (analytics (this s))
                             "ab_test_assigned" name JNull (now s))) /\
   forall w' pick' s',
     getVariant w' pick' name (ab_set name "undefined" ab) s'
       = (Return (Some "undefined", ab_set name "undefined" ab), s', [])).
Proof.
  intros St. unfold getVariant. rewrite St. split; [|split].
  - intros V. rewrite V. reflexivity.
  - intros l V Hpick. rewrite V. simpl.
    destruct (List.length l =? 0)%nat eqn:L.
    { apply Nat.eqb_eq in L. lia. }
    destruct (nth_error l pick) as [v|] eqn:Nth.
    + exists v. split; [reflexivity|].
      unfold bind. rewrite trackEngagement_dropped_exact. simpl.
      rewrite app_nil_r. reflexivity.
    + apply nth_error_None in Nth. lia.
  - intros V. split.
    + destruct (variants name) as [l|[|n]| |]; try discriminate V; simpl;
        unfold bind; rewrite trackEngagement_dropped_exact; simpl;
        rewrite app_nil_r; reflexivity.
    + intros w' pick' s'. fold (getVariant w' pick' name (ab_set name "undefined" ab) s').
      apply getVariant_stored. apply stored_after_set. reflexivity.
Qed.

(** X16, an instance: the name constructor, which every object inherits. *)
Lemma X16_constructor_is_assigned_undefined :
  (stored_variant "constructor" [] = None /\
   variants "constructor" = Method 1 /\
   variants "__proto__" = Prototype /\
   variants "toString" = Method 0 /\
   variants "pricing_test" = Missing) /\
  (no_variants (variants "constructor") = true ->
   getVariant Sample.online 0 "constructor" [] Sample.fresh10
     = (Return (None, []), Sample.fresh10, [])) /\
  (forall l, variants "constructor" = Entry l -> (0 < List.length l)%nat ->
   exists v,
     nth_error l 0 = Some v /\
     getVariant Sample.online 0 "constructor" [] Sample.fresh10
       = (Return (Some v, ab_set "constructor" v []), Sample.fresh10,
          dropped_fan_out Sample.online
            (engagement_event (analytics (this Sample.fresh10))
               "ab_test_assigned" "constructor" (JStr v) (now Sample.fresh10)))) /\
  (inherited_member (variants "constructor") = true ->
   getVariant Sample.online 0 "constructor" [] Sample.fresh10
     = (Return (None, ab_set "constructor" "undefined" []), Sample.fresh10,
        dropped_fan_out Sample.online
          (engagement_event (analytics (this Sample.fresh10))
             "ab_test_assigned" "constructor" JNull (now Sample.fresh10))) /\
   forall w' pick' s',
     getVariant w' pick' "constructor" (ab_set "constructor" "undefined" []) s'
       = (Return (Some "undefined", ab_set "constructor" "undefined" []), s', [])).
Proof.
  split; [by_evaluation|].
  apply (X16_first_call_assigns_a_variant_of_the_test
           Sample.online 0 "constructor" [] Sample.fresh10).
  reflexivity.
Defined.

(** The headline test, third variant, with a Cloudflare hook that throws:
    the hook is called at once, the warning of the dispatcher comes later. *)
Example headline_test_third_variant :
  getVariant Sample.cloudflare_throws 2 "hero_headline_test" [] Sample.fresh10
  = (Return (Some "Write More, Worry Less",
             [("hero_headline_test", "Write More, Worry Less")]),
     Sample.fresh10,
     [ Deliver Cloudflare
         (engagement_event Sample.visitor "ab_test_assigned" "hero_headline_test"
            (JStr "Write More, Worry Less") 0);
       Later [dispatcher_warning] ]).
Proof. reflexivity. Qed.

(* ================================================================== *)
(** * Scroll depth *)
(* ================================================================== *)

From Stdlib Require Sorted.

Lemma on_scroll_spec (p m : Z) :
  match on_scroll p m with
  | (m', Some v) => v = p /\ m' = p /\ m < p /\ Z.rem p 25 = 0
  | (m', None) => m' = m
  end.
Proof.
  unfold on_scroll.
  destruct (p >? m) eqn:G; simpl; [|reflexivity].
  destruct (Z.rem p 25 =? 0) eqn:R; [|reflexivity].
  apply Z.gtb_lt in G. apply Z.eqb_eq in R. repeat split; assumption.
Qed.

Lemma scroll_reports_above (percents : list Z) :
  forall m, Forall (fun v => m < v /\ Z.rem v 25 = 0 /\ In v percents)
                   (scroll_reports percents m).
Proof.
  induction percents as [|p rest IH]; intros m; [constructor|].
  simpl. pose proof (on_scroll_spec p m) as H.
  destruct (on_scroll p m) as [m' [v|]].
  - destruct H as (-> & -> & Hlt & Hrem).
    constructor; [repeat split; auto; now left|].
    eapply Forall_impl; [|apply IH].
    intros v (A & B & C). repeat split; [lia | exact B | now right].
  - subst m'. eapply Forall_impl; [|apply IH].
    intros v (A & B & C). repeat split; [exact A | exact B | now right].
Qed.

Lemma scroll_reports_sorted (percents : list Z) :
  forall m, Sorted.StronglySorted Z.lt (scroll_reports percents m).
Proof.
  induction percents as [|p rest IH]; intros m; [constructor|].
  simpl. pose proof (on_scroll_spec p m) as H.
  destruct (on_scroll p m) as [m' [v|]]; [|apply IH].
  destruct H as (-> & -> & _).
  constructor; [apply IH|].
  eapply Forall_impl; [|apply scroll_reports_above]. intros v H. apply H.
Qed.

(** X17.  Scroll milestones.  Over any sequence of scroll events the
    listener reports strictly increasing values, so no value twice; each of
    them is a multiple of 25 that one of the events hit exactly and that is
    above the starting maximum.  A depth that was passed without an event at
    exactly a multiple of 25 is not reported. *)
Theorem X17_scroll_milestones_increase (percents : list Z) (maxScroll : Z) :
  Sorted.StronglySorted Z.lt (scroll_reports percents maxScroll) /\
  NoDup (scroll_reports percents maxScroll) /\
  Forall (fun v => maxScroll < v /\ Z.rem v 25 = 0 /\ In v percents)
         (scroll_reports percents maxScroll).
Proof.
  split; [apply scroll_reports_sorted|]. split; [|apply scroll_reports_above].
  pose proof (scroll_reports_sorted percents maxScroll) as H.
  induction H as [|v l Hl IH Hv]; constructor; [|exact IH].
  intros Hin. rewrite Forall_forall in Hv. specialize (Hv v Hin). lia.
Qed.

(* ================================================================== *)
(** * The window, in memory and stored *)
(* ================================================================== *)

Lemma attempt_window (w : World) (source : string) (s : Store) :
  maxDownloadsPerWindow (this (final (initiateDownload w source s)))
    = maxDownloadsPerWindow (this s) /\
  (window_of (final (initiateDownload w source s)) = window_of s \/
   rateLimitCount (this s) < maxDownloadsPerWindow (this s) /\
   exists t,
     window_of (final (initiateDownload w source s))
       = (Some {| count := rateLimitCount (this s) + 1; windowStart := t |},
          rateLimitCount (this s) + 1)).
Proof.
  rewrite initiateDownload_exact. unfold final, window_of.
  destruct (verdict w s) eqn:V; simpl.
  - split; [reflexivity | left; reflexivity].
  - split; [reflexivity | left; reflexivity].
  - destruct (has_crypto w) eqn:Hc; simpl.
    + unfold admitted_store. rewrite (verdict_failed w s V Hc). simpl.
      split; [reflexivity | left; reflexivity].
    + split; [reflexivity | left; reflexivity].
  - destruct (verdict_succeeded w s V) as [_ Hv].
    unfold admitted_store. rewrite Hv. simpl.
    split; [reflexivity|]. right. split; [|eexists; reflexivity].
    unfold verdict in V.
    destruct (botScore (this s) >? 50); [discriminate|].
    destruct (negb (has_fetch w) || negb (has_Promise w)); [discriminate|].
    destruct (honeypot_tripped w); [discriminate|].
    destruct (rateLimitCount (this s) <? maxDownloadsPerWindow (this s)) eqn:C;
      [now apply Z.ltb_lt in C | discriminate].
Qed.

Lemma session_keeps_sync (l : list Attempt) :
  forall s : Store,
    in_sync s ->
    in_sync (snd (session l s)) /\
    maxDownloadsPerWindow (this (snd (session l s)))
      = maxDownloadsPerWindow (this s) /\
    rateLimitCount (this s) <= rateLimitCount (this (snd (session l s))) /\
    rateLimitCount (this (snd (session l s)))
      <= Z.max (maxDownloadsPerWindow (this s)) (rateLimitCount (this s)).
Proof.
  induction l as [|a l IH]; intros s Hs.
  - simpl. repeat split; try assumption; lia.
  - rewrite session_cons. simpl snd. unfold click.
    set (s0 := with_now s (at_time a)).
    destruct (attempt_window (at_world a) (at_source a) s0) as [Hm Hw].
    set (s1 := final (initiateDownload (at_world a) (at_source a) s0)) in *.
    assert (Hs1 : in_sync s1 /\
                  rateLimitCount (this s) <= rateLimitCount (this s1) /\
                  rateLimitCount (this s1)
                    <= Z.max (maxDownloadsPerWindow (this s)) (rateLimitCount (this s))).
    { unfold in_sync, window_of in *.
      destruct Hw as [Hw | (Hlt & t & Hw)]; injection Hw as Hr Hc.
      - rewrite Hr, Hc. simpl. repeat split; try assumption; lia.
      - rewrite Hr, Hc. simpl in *. repeat split; lia. }
    destruct Hs1 as (Sync & Lo & Hi).
    destruct (IH s1 Sync) as (I1 & I2 & I3 & I4).
    unfold s1, final in *. simpl in Hm.
    repeat split; try assumption.
    + rewrite I2. exact Hm.
    + lia.
    + rewrite Hm in I4. lia.
Qed.

Lemma page_load_in_sync (name ver url : string) (a : VentureAnalytics)
    (g : Signals) (st : Storage) (shown : option CounterText) (t : Z) :
  in_sync (page_load name ver url a g st shown t) /\
  maxDownloadsPerWindow (this (page_load name ver url a g st shown t)) = 3.
Proof.
  unfold page_load, setupSecurityChecks, initRateLimiting, set_rateLimitCount,
    set_download_rate_limit, in_sync.
  unfold_monad. destruct st as [[d|] cv]; simpl; [|split; reflexivity].
  destruct (t - windowStart d >? 60000); simpl; split; reflexivity.
Qed.

(** X18.  Memory and storage agree, in one tab and for attempts that are
    run one after another ([session]: every attempt has settled before the
    next click).  From the moment the page is loaded and through every such
    sequence of attempts, the count the manager holds in memory is the count
    stored under download_rate_limit (0 while nothing is stored), it never
    goes down, and it never exceeds the maximum of 3 unless the page was
    loaded with a larger stored count, which it then keeps.  Attempts that
    overlap (a click on a link that is never disabled while another attempt
    is suspended) and writes of another tab are outside this statement. *)
Theorem X18_count_in_memory_is_the_stored_count
    (name ver url : string) (a : VentureAnalytics) (g : Signals)
    (st : Storage) (shown : option CounterText) (t : Z) (l : list Attempt) :
  in_sync (snd (session l (page_load name ver url a g st shown t))) /\
  rateLimitCount (this (page_load name ver url a g st shown t))
    <= rateLimitCount (this (snd (session l (page_load name ver url a g st shown t)))) /\
  rateLimitCount (this (snd (session l (page_load name ver url a g st shown t))))
    <= Z.max 3 (rateLimitCount (this (page_load name ver url a g st shown t))).
Proof.
  destruct (page_load_in_sync name ver url a g st shown t) as [Sync Max].
  destruct (session_keeps_sync l _ Sync) as (I1 & _ & I3 & I4).
  rewrite Max in I4. repeat split; assumption.
Qed.

(* ================================================================== *)
(** * The bot score in closed form *)
(* ================================================================== *)

Lemma fold_patterns (f : string -> bool) (l : list string) :
  forall acc : Z,
    fold_left (fun score pattern => if f pattern then score + 15 else score) l acc
      = acc + 15 * Z.of_nat (List.length (filter f l)).
Proof.
  induction l as [|p l IH]; intros acc.
  - simpl. lia.
  - cbn [fold_left filter]. rewrite IH.
    destruct (f p); [|reflexivity].
    cbn [List.length]. rewrite Nat2Z.inj_succ. lia.
Qed.

Lemma raw_score_bounds (g : Signals) :
  0 <= 15 * matching_patterns (sig_userAgent g) <= raw_score g.
Proof.
  unfold raw_score, matching_patterns, weight.
  destruct (webdriver g), (phantom g || phantom_ g), (callPhantom g),
    (negb (requestAnimationFrame g)), (negb (sig_localStorage g)),
    (negb (canvas_getContext g)); lia.
Qed.

Lemma calculateBotScore_raw (g : Signals) :
  calculateBotScore g = Z.min (raw_score g) 100.
Proof.
  unfold calculateBotScore, raw_score, matching_patterns, weight.
  rewrite fold_patterns.
  destruct (webdriver g), (phantom g || phantom_ g), (callPhantom g),
    (negb (requestAnimationFrame g)), (negb (sig_localStorage g)),
    (negb (canvas_getContext g)); f_equal; lia.
Qed.

(** X19.  The score in closed form.  The bot score is the sum of the
    weights of the signals that are present (20, 30, 30, 15 for every pattern
    the user agent matches, 10, 10, 15) capped at 100, and the cap never
    changes what the gate decides: the score is above 50 exactly when the sum
    is.  The two phantom globals together weigh 30, not 30 each. *)
Theorem X19_bot_score_is_the_capped_sum_of_weights (g : Signals) :
  calculateBotScore g = Z.min (raw_score g) 100 /\
  (calculateBotScore g >? 50) = (raw_score g >? 50) /\
  (calculateBotScore g = 100 <-> 100 <= raw_score g).
Proof.
  rewrite calculateBotScore_raw. repeat split.
  - rewrite !Z.gtb_ltb.
    destruct (50 <? Z.min (raw_score g) 100) eqn:A, (50 <? raw_score g) eqn:B;
      try reflexivity; exfalso.
    + apply Z.ltb_lt in A. apply Z.ltb_ge in B. lia.
    + apply Z.ltb_ge in A. apply Z.ltb_lt in B. lia.
  - lia.
  - lia.
Qed.

Lemma lower_idempotent (c : ascii) : Js.lower (Js.lower c) = Js.lower c.
Proof.
  destruct c as [[] [] [] [] [] [] [] []]; vm_compute; reflexivity.
Qed.

Lemma starts_with_ci_lower (p s : list ascii) :
  Js.starts_with_ci p (map Js.lower s) = Js.starts_with_ci p s.
Proof.
  revert s. induction p as [|a p IH]; intros [|b s]; simpl; try reflexivity.
  now rewrite lower_idempotent, IH.
Qed.

Lemma test_ci_lower (p s : list ascii) :
  Js.test_ci p (map Js.lower s) = Js.test_ci p s.
Proof.
  induction s as [|b s IH].
  - simpl. destruct p; reflexivity.
  - change (map Js.lower (b :: s)) with (Js.lower b :: map Js.lower s).
    cbn [Js.test_ci]. rewrite IH.
    rewrite <- (starts_with_ci_lower p (b :: s)). reflexivity.
Qed.

Lemma matching_patterns_lower (ua : string) :
  matching_patterns (lower_case ua) = matching_patterns ua.
Proof.
  unfold matching_patterns, lower_case. rewrite chars_text.
  do 2 f_equal. apply filter_ext. intros p. apply test_ci_lower.
Qed.

(** X20.  Letter case of the user agent.  Writing the user agent in lower
    case (A to Z) changes neither the number of patterns it matches nor the
    bot score. *)
Theorem X20_bot_score_ignores_letter_case (g : Signals) (ua : string) :
  matching_patterns (lower_case ua) = matching_patterns ua /\
  calculateBotScore (with_userAgent g (lower_case ua))
    = calculateBotScore (with_userAgent g ua).
Proof.
  split; [apply matching_patterns_lower|].
  rewrite !calculateBotScore_raw. unfold raw_score. simpl.
  now rewrite matching_patterns_lower.
Qed.

Lemma starts_with_ci_prefix (p mid post : list ascii) :
  map Js.lower mid = map Js.lower p ->
  Js.starts_with_ci p (mid ++ post) = true.
Proof.
  revert mid. induction p as [|a p IH]; intros [|b mid] H; simpl in *;
    try reflexivity; try discriminate.
  injection H as Hb Hr. rewrite Hb, Ascii.eqb_refl. simpl. now apply IH.
Qed.

Lemma test_ci_inside (p pre mid post : list ascii) :
  map Js.lower mid = map Js.lower p ->
  Js.test_ci p (pre ++ mid ++ post) = true.
Proof.
  intros H. induction pre as [|c pre IH].
  - simpl. destruct (mid ++ post) eqn:E.
    + simpl. rewrite <- E, (starts_with_ci_prefix p mid post H). reflexivity.
    + cbn [Js.test_ci]. rewrite <- E, (starts_with_ci_prefix p mid post H).
      reflexivity.
  - change ((c :: pre) ++ mid ++ post) with (c :: (pre ++ mid ++ post)).
    cbn [Js.test_ci]. rewrite IH. apply orb_true_r.
Qed.

Lemma filter_length_pos {A : Type} (f : A -> bool) (l : list A) (x : A) :
  In x l -> f x = true -> (1 <= List.length (filter f l))%nat.
Proof.
  induction l as [|y l IH]; simpl; [tauto|].
  intros [->|Hin] Hf.
  - rewrite Hf. simpl. lia.
  - destruct (f y); simpl; [lia | now apply IH].
Qed.

(** X21.  A pattern anywhere in the user agent.  When one of the seven
    patterns occurs in the user agent at any position and in any mix of upper
    and lower case, the bot score is at least 15, whatever the other signals
    are. *)
Theorem X21_pattern_anywhere_scores_15
    (g : Signals) (p : string) (pre mid post : list ascii) :
  In p suspiciousPatterns ->
  Js.chars (sig_userAgent g) = pre ++ mid ++ post ->
  map Js.lower mid = map Js.lower (Js.chars p) ->
  15 <= calculateBotScore g.
Proof.
  intros Hin Hua Hmid.
  rewrite calculateBotScore_raw.
  pose proof (raw_score_bounds g) as [_ Hb].
  assert (1 <= matching_patterns (sig_userAgent g)).
  { assert (T : Js.test_ci (Js.chars p) (Js.chars (sig_userAgent g)) = true)
      by (rewrite Hua; apply test_ci_inside; exact Hmid).
    unfold matching_patterns.
    pose proof (filter_length_pos
                  (fun q => Js.test_ci (Js.chars q) (Js.chars (sig_userAgent g)))
                  suspiciousPatterns p Hin T) as F.
    lia. }
  lia.
Qed.

Lemma X21_crawler_in_capitals :
  (In "bot" suspiciousPatterns /\
   Js.chars (sig_userAgent Cases2.crawler)
     = Js.chars "Mozilla/5.0 (compatible; Example" ++ Js.chars "BOT" ++ Js.chars "/2.1)" /\
   map Js.lower (Js.chars "BOT") = map Js.lower (Js.chars "bot")) /\
  15 <= calculateBotScore Cases2.crawler.
Proof.
  assert (H1 : In "bot" suspiciousPatterns) by (simpl; tauto).
  assert (H2 : Js.chars (sig_userAgent Cases2.crawler)
     = Js.chars "Mozilla/5.0 (compatible; Example" ++ Js.chars "BOT" ++ Js.chars "/2.1)")
    by reflexivity.
  assert (H3 : map Js.lower (Js.chars "BOT") = map Js.lower (Js.chars "bot"))
    by reflexivity.
  split; [repeat split; assumption|].
  exact (X21_pattern_anywhere_scores_15 Cases2.crawler "bot" _ _ _ H1 H2 H3).
Defined.


(* ================================================================== *)
(** * Security events *)
(* ================================================================== *)

Lemma delivered_fan_out (w : World) (data ev : TelemetryEvent) :
  In ev (delivered (fan_out w data)) -> ev = data.
Proof.
  unfold delivered. rewrite (proj1 (flatten_fan_out w data)).
  unfold fan_out, endpoint_attempts, post_fails, configured, throws,
    dispatcher_warning.
  destruct (cloudflare_hook w), (gtag_hook w), (has_fetch w),
    (post_analytics w), (sendBeacon_hook w); simpl; intuition congruence.
Qed.

Lemma delivered_dropped_fan_out (w : World) (data ev : TelemetryEvent) :
  In ev (delivered (dropped_fan_out w data)) -> ev = data.
Proof.
  intros H. apply (delivered_fan_out w). revert H.
  unfold delivered. rewrite flatten_dropped_fan_out.
  now rewrite (proj1 (flatten_fan_out w data)).
Qed.

Lemma reportSecurityEvent_exact (w : World) (ev details : string) (s : Store) :
  reportSecurityEvent w ev details s
    = (Return tt, s, dropped_fan_out w (security_event w ev details s)).
Proof.
  unfold reportSecurityEvent, security_event, bind, get, Date_now.
  rewrite forget_sendAnalytics_exact. reflexivity.
Qed.

Ltac names_of_events :=
  repeat match goal with
         | H : _ \/ _ |- _ => destruct H as [H|H]
         | H : In _ (_ ++ _) |- _ => apply in_app_or in H
         | H : In _ (delivered (fan_out _ _)) |- _ =>
             apply delivered_fan_out in H; subst; simpl; discriminate
         | H : In _ (delivered (dropped_fan_out _ _)) |- _ =>
             apply delivered_dropped_fan_out in H; subst; simpl; discriminate
         | H : In _ (delivered [_]) |- _ => simpl in H
         | H : In _ (delivered [_; _]) |- _ => simpl in H
         | H : In _ [] |- _ => destruct H
         | H : False |- _ => destruct H
         end.

(** X22.  Security events.  reportSecurityEvent hands one security_event
    object, stamped with the bot score, to the dispatcher and returns at once
    without waiting for it and without throwing; the store is as before.
    The promise of the dispatcher is dropped: the Cloudflare hook is called
    during the call, the other sinks later; taken together the effects are
    those of one fan-out.  No attempt calls it: whatever the verdict, none of
    the events an attempt delivers, in its run or in a dropped dispatch, is
    a security_event. *)
Theorem X22_no_attempt_reports_a_security_event
    (w : World) (source : string) (s : Store) :
  (forall ev details,
     reportSecurityEvent w ev details s
       = (Return tt, s, dropped_fan_out w (security_event w ev details s)) /\
     flatten (effects (reportSecurityEvent w ev details s))
       = fan_out w (security_event w ev details s)) /\
  (forall ev,
     In ev (delivered (effects (initiateDownload w source s))) ->
     event ev <> "security_event").
Proof.
  split.
  { intros ev details. rewrite reportSecurityEvent_exact. split; [reflexivity|].
    apply flatten_dropped_fan_out. }
  intros ev. rewrite initiateDownload_exact. unfold effects.
  destruct (verdict w s); [| |destruct (has_crypto w)|]; simpl snd;
    unfold admitted_trace, no_crypto_trace;
    try destruct (verified w);
    rewrite ?delivered_app; intros H; names_of_events.
Qed.

(* ================================================================== *)
(** * The token on texts of arbitrary code units *)
(* ================================================================== *)

Lemma units_below_256 (l : list ascii) :
  forallb (fun u => (u <? 256)%N) (Js.units l) = true.
Proof.
  unfold Js.units. induction l as [|c l IH]; [reflexivity|].
  simpl. rewrite IH, andb_true_r. apply N.ltb_lt. apply N_ascii_bounded.
Qed.

Lemma small_unit_is_no_surrogate (u : N) :
  (u < 256)%N -> high_surrogate u = false /\ low_surrogate u = false.
Proof.
  intros H. unfold high_surrogate, low_surrogate.
  assert (A : (55296 <=? u)%N = false) by (apply N.leb_gt; lia).
  assert (B : (56320 <=? u)%N = false) by (apply N.leb_gt; lia).
  now rewrite A, B.
Qed.

Lemma quote_units_latin1 (l : list ascii) :
  quote_units (Js.units l) = Js.units (flat_map Js.quote_unit l).
Proof.
  unfold Js.units. induction l as [|c l IH]; [reflexivity|].
  change (map N_of_ascii (c :: l)) with (N_of_ascii c :: map N_of_ascii l).
  cbn [quote_units].
  destruct (small_unit_is_no_surrogate _ (N_ascii_bounded c)) as [A B].
  rewrite A, B.
  assert (C : (N_of_ascii c <? 256)%N = true)
    by (apply N.ltb_lt; apply N_ascii_bounded).
  rewrite C, ascii_N_embedding, IH.
  cbn [flat_map]. now rewrite map_app.
Qed.

Lemma token_json_units_latin1 (v : string) (ts : Z) (ua sid n : string) :
  token_json_units (units_of v) ts (units_of ua) (units_of sid) n
    = Js.units (token_json v ts ua sid n).
Proof.
  unfold token_json_units, token_json, json_member_units, json_string_units,
    Js.json_member, Js.json_string, units_of.
  rewrite !quote_units_latin1.
  unfold Js.units. cbn [map app].
  repeat (rewrite ?map_app; cbn [map app]).
  repeat rewrite <- app_assoc. cbn [app]. reflexivity.
Qed.

Lemma token_of_units_latin1 (v : string) (ts : Z) (ua sid n : string) :
  token_of_units (units_of v) ts (units_of ua) (units_of sid) n
    = Some (token_of v ts ua sid n).
Proof.
  unfold token_of_units, btoa_checked, token_of, Js.btoa.
  rewrite token_json_units_latin1, units_below_256. reflexivity.
Qed.

Lemma forallb_false_exists {A : Type} (f : A -> bool) (l : list A) :
  forallb f l = false <-> exists x, In x l /\ f x = false.
Proof.
  induction l as [|a l IH]; simpl.
  - split; [discriminate | intros (x & [] & _)].
  - rewrite andb_false_iff, IH. split.
    + intros [H | (x & Hin & Hx)]; [exists a | exists x]; tauto.
    + intros (x & [-> | Hin] & Hx); [now left | right; now exists x].
Qed.

(** A unit above 255 that is no surrogate goes through the quoting as it
    is. *)
Lemma quote_units_keeps (u : N) (n : nat) :
  (256 <= u)%N -> high_surrogate u = false -> low_surrogate u = false ->
  forall us : list N,
    (List.length us <= n)%nat -> In u us -> In u (quote_units us).
Proof.
  intros Hu Hh Hl. induction n as [|n IH]; intros us Hn Hin.
  - destruct us; [destruct Hin | simpl in Hn; lia].
  - destruct us as [|x rest]; [destruct Hin|].
    simpl in Hn. cbn [quote_units].
    assert (Hrest : forall r, (List.length r <= List.length rest)%nat ->
                              In u r -> In u (quote_units r)).
    { intros r Hr. apply IH. lia. }
    destruct (high_surrogate x) eqn:Hx.
    + assert (Hne : u <> x) by (intros ->; congruence).
      destruct Hin as [E|Hin]; [congruence|].
      destruct rest as [|v rest']; [destruct Hin|].
      destruct (low_surrogate v) eqn:Hv.
      * assert (Hnv : u <> v) by (intros ->; congruence).
        destruct Hin as [E|Hin]; [congruence|].
        right. right. apply Hrest; [simpl; lia | exact Hin].
      * apply in_or_app. right. apply Hrest; [lia | exact Hin].
    + destruct (low_surrogate x) eqn:Hx'.
      * assert (Hne : u <> x) by (intros ->; congruence).
        destruct Hin as [E|Hin]; [congruence|].
        apply in_or_app. right. apply Hrest; [lia | exact Hin].
      * destruct (x <? 256)%N eqn:Hs.
        -- apply N.ltb_lt in Hs.
           destruct Hin as [E|Hin]; [subst x; lia|].
           apply in_or_app. right. apply Hrest; [lia | exact Hin].
        -- destruct Hin as [E|Hin]; [left; exact E|].
           right. apply Hrest; [lia | exact Hin].
Qed.

Lemma token_of_units_shape (venture : list N) (ts : Z) (ua sid : list N)
    (n token : string) :
  token_of_units venture ts ua sid n = Some token ->
  (String.length token <= 32)%nat /\ forallb is_alnum (Js.chars token) = true.
Proof.
  unfold token_of_units, btoa_checked.
  generalize (token_json_units venture ts ua sid n) as l. intros l.
  destruct (forallb _ l); [|discriminate].
  assert (B : forallb is_alnum (Js.strip_plus_slash_eq (Js.btoa_units l)) = true).
  { apply stripped_is_alnum. eapply btoa_units_in_alphabet. apply Nat.le_refl. }
  remember (Js.strip_plus_slash_eq (Js.btoa_units l)) as b eqn:Hb. clear Hb.
  unfold Js.substring0. intros E.
  assert (T : token = Js.text (firstn 32 b)) by congruence.
  rewrite T, length_text, chars_text. split.
  - apply firstn_le_length.
  - apply forallb_firstn. exact B.
Qed.

(** X23.  The token on texts of arbitrary code units.  On the texts of the
    development (all code units below 256) the computation is the one of
    [token_of], and btoa does not raise.  In general btoa raises
    InvalidCharacterError, so that no token is made, exactly when the
    serialized record holds a code unit above 255; that is the case whenever
    the venture name holds a unit above 255 that is not a surrogate, and for
    a surrogate pair, while a lone surrogate is escaped by JSON.stringify and
    raises nothing.  A token that is made has at most 32 characters, all of
    them ASCII letters and digits. *)
Theorem X23_btoa_raises_on_wide_text
    (venture : list N) (ts : Z) (ua sid : list N) (n : string) :
  (forall v a i : string,
     token_of_units (units_of v) ts (units_of a) (units_of i) n
       = Some (token_of v ts a i n)) /\
  (token_of_units venture ts ua sid n = None <->
   exists u, In u (token_json_units venture ts ua sid n) /\ (256 <= u)%N) /\
  (forall u, In u venture -> (256 <= u)%N ->
             high_surrogate u = false -> low_surrogate u = false ->
             token_of_units venture ts ua sid n = None) /\
  (forall token, token_of_units venture ts ua sid n = Some token ->
     (String.length token <= 32)%nat /\
     forallb is_alnum (Js.chars token) = true) /\
  token_of_units Wide.face ts ua sid n = None.
Proof.
  assert (None_iff : forall v,
    token_of_units v ts ua sid n = None <->
    exists u, In u (token_json_units v ts ua sid n) /\ (256 <= u)%N).
  { intros v. unfold token_of_units, btoa_checked.
    destruct (forallb (fun u => (u <? 256)%N) (token_json_units v ts ua sid n)) eqn:F.
    - split; [discriminate|]. intros (u & Hin & Hu). exfalso.
      rewrite forallb_forall in F. specialize (F u Hin).
      apply N.ltb_lt in F. lia.
    - split; [intros _ | reflexivity].
      apply forallb_false_exists in F. destruct F as (u & Hin & Hu).
      exists u. split; [exact Hin|]. apply N.ltb_ge in Hu. exact Hu. }
  split; [intros; apply token_of_units_latin1|].
  split; [apply None_iff|].
  split.
  { intros u Hin Hu Hh Hl. apply None_iff. exists u. split; [|exact Hu].
    unfold token_json_units, json_member_units, json_string_units.
    apply in_or_app. right. apply in_or_app. left.
    apply in_or_app. right. apply in_or_app. right. apply in_or_app. left.
    apply (quote_units_keeps u (List.length venture) Hu Hh Hl);
      [apply Nat.le_refl | exact Hin]. }
  split; [intros token; apply token_of_units_shape|].
  apply None_iff. exists (55357%N). split; [|lia].
  unfold token_json_units, json_member_units, json_string_units, Wide.face.
  apply in_or_app. right. apply in_or_app. left.
  apply in_or_app. right. apply in_or_app. right. apply in_or_app. left.
  left. reflexivity.
Qed.

(** Three venture names: two Japanese characters and a surrogate pair make
    btoa raise; a lone surrogate is escaped by JSON.stringify and gives a
    token. *)
Example wide_venture_names :
  token_of_units Wide.nihon 1730000000000
    (units_of "Mozilla/5.0") (units_of "session_1_k") "00" = None /\
  token_of_units Wide.face 1730000000000
    (units_of "Mozilla/5.0") (units_of "session_1_k") "00" = None /\
  token_of_units Wide.half_face 1730000000000
    (units_of "Mozilla/5.0") (units_of "session_1_k") "00"
    = Some "eyJ2ZW50dXJlIjoiXHVkODNkIiwidGlt".
Proof. by_evaluation. Qed.
